(** * QMGrid: the view synchronisation engine

    A shallow embedding of the state handling of the [QMGrid] class
    (qmgrid.js): the local filter/sort/paginate path, the selection set,
    the event registry and the remote path ([loadServerData]) with its
    request counter, retry counter, debounce timer and pending fetches.

    Conventions of the embedding.
    - JavaScript values are the data values of JSON plus [undefined]; numbers
      are exact rationals with [NaN] and the two infinities (no rounding, no
      negative zero).  Property lookup sees own properties of objects, the
      indices and [length] of arrays and strings; inherited methods are not
      part of the data.
    - Strings are sequences of 8-bit characters; [toLowerCase] folds the
      ASCII letters and leaves the other characters alone, which is the
      function of the source on texts of ASCII characters ([is_ascii]);
      the facts about lower-cased texts are stated for such texts.
    - The host is explicit: a clock, the pending timers ([setTimeout]),
      the pending [fetch] calls and a trace of the observable effects
      (emitted events, console messages, transport calls, hook calls).
      An asynchronous method is cut at its [await] points: the part up to
      the first [await] is a function on the state, each continuation is a
      function from the settled result and the state.
    - Hooks and event subscribers are observers: they do not call back into
      the grid while they run.  Each [emit] is recorded in the trace; the
      registry of subscribers itself is modelled in [EventBus], by the
      entries of [this.events] itself: the facts about [on] and [off] are
      stated for the event names that [Object.prototype] does not define
      ([EventBus.inherited]). *)

From Stdlib Require Import ZArith QArith Qround List String Ascii Bool Lia.
From Stdlib Require Import DecimalString.
Import ListNotations.

Local Open Scope Z_scope.
Local Open Scope string_scope.

(** ** Numbers *)

Inductive number : Type :=
| Fin (q : Q)
| NaN
| Inf (negative : bool).

Definition num_of_Z (z : Z) : number := Fin (inject_Z z).
Definition num_of_nat (n : nat) : number := num_of_Z (Z.of_nat n).

(** [a < b] *)
Definition num_ltb (a b : number) : bool :=
  match a, b with
  | NaN, _ | _, NaN => false
  | Fin x, Fin y => negb (Qle_bool y x)
  | Fin _, Inf neg => negb neg
  | Inf neg, Fin _ => neg
  | Inf n1, Inf n2 => n1 && negb n2
  end.

(** [a <= b] *)
Definition num_leb (a b : number) : bool :=
  match a, b with
  | NaN, _ | _, NaN => false
  | Fin x, Fin y => Qle_bool x y
  | Fin _, Inf neg => negb neg
  | Inf neg, Fin _ => neg
  | Inf n1, Inf n2 => n1 || negb n2
  end.

(** [a > b] and [a >= b] *)
Definition num_gtb (a b : number) : bool := num_ltb b a.
Definition num_geb (a b : number) : bool := num_leb b a.

(** [a === b] on numbers *)
Definition num_eqb (a b : number) : bool :=
  match a, b with
  | Fin x, Fin y => Qeq_bool x y
  | Inf n1, Inf n2 => Bool.eqb n1 n2
  | _, _ => false
  end.

Definition Q_negative (q : Q) : bool := negb (Qle_bool 0 q).

(** [a / b] *)
Definition num_div (a b : number) : number :=
  match a, b with
  | NaN, _ | _, NaN => NaN
  | Fin x, Fin y =>
      if Qeq_bool y 0
      then (if Qeq_bool x 0 then NaN else Inf (Q_negative x))
      else Fin (x / y)
  | Fin _, Inf _ => Fin 0
  | Inf neg, Fin y => Inf (xorb neg (Q_negative y))
  | Inf _, Inf _ => NaN
  end.

(** [Math.ceil] *)
Definition num_ceil (a : number) : number :=
  match a with
  | Fin x => Fin (inject_Z (Qceiling x))
  | other => other
  end.

(** The integer a number denotes as a position in an array
    (ToIntegerOrInfinity, for the values that are not infinite). *)
Definition num_to_index (a : number) : Z :=
  match a with
  | Fin x => if Qle_bool 0 x then Qfloor x else Qceiling x
  | _ => 0
  end.

(** [-a], [a + b], [a - b] and [a * b] *)
Definition num_neg (a : number) : number :=
  match a with
  | Fin x => Fin (- x)
  | NaN => NaN
  | Inf neg => Inf (negb neg)
  end.

Definition num_add (a b : number) : number :=
  match a, b with
  | NaN, _ | _, NaN => NaN
  | Fin x, Fin y => Fin (x + y)
  | Fin _, Inf neg | Inf neg, Fin _ => Inf neg
  | Inf n1, Inf n2 => if Bool.eqb n1 n2 then Inf n1 else NaN
  end.

Definition num_sub (a b : number) : number := num_add a (num_neg b).

Definition num_mul (a b : number) : number :=
  match a, b with
  | NaN, _ | _, NaN => NaN
  | Fin x, Fin y => Fin (x * y)
  | Fin x, Inf neg | Inf neg, Fin x =>
      if Qeq_bool x 0 then NaN else Inf (xorb neg (Q_negative x))
  | Inf n1, Inf n2 => Inf (xorb n1 n2)
  end.

(** [Math.max(a, b)] and [Math.min(a, b)] *)
Definition num_max (a b : number) : number :=
  match a, b with
  | NaN, _ | _, NaN => NaN
  | _, _ => if num_ltb a b then b else a
  end.

Definition num_min (a b : number) : number :=
  match a, b with
  | NaN, _ | _, NaN => NaN
  | _, _ => if num_ltb b a then b else a
  end.

(** The position in an array of length [len] that [slice] takes for the
    argument [a]: ToIntegerOrInfinity, a negative position counted from the
    end, the result clamped to the array. *)
Definition slice_index (a : number) (len : nat) : nat :=
  match a with
  | NaN => 0%nat
  | Inf neg => if neg then 0%nat else len
  | Fin _ =>
      let i := num_to_index a in
      if (i <? 0)%Z then Z.to_nat (Z.max (Z.of_nat len + i) 0)
      else Nat.min (Z.to_nat i) len
  end.

(** [l.slice(first, last)] *)
Definition slice {A : Type} (first last : number) (l : list A) : list A :=
  let k := slice_index first (List.length l) in
  let final := slice_index last (List.length l) in
  firstn (final - k)%nat (skipn k l).

(** The values that [i] takes in [for (let i = a; i <= b; i++)]; [None]
    when the loop does not end. *)
Definition for_up (a b : number) : option (list number) :=
  match a, b with
  | NaN, _ | _, NaN => Some []
  | Fin x, Fin y =>
      Some (if Qle_bool x y
            then map (fun k => Fin (x + inject_Z (Z.of_nat k)))
                     (seq 0 (S (Z.to_nat (Qfloor (y - x)))))
            else [])
  | Fin _, Inf neg => if neg then Some [] else None
  | Inf neg, Fin _ => if neg then None else Some []
  | Inf n1, Inf n2 => if n1 || negb n2 then None else Some []
  end.

(** ** Values *)

Local Set Warnings "-register-all".

Inductive value : Type :=
| VUndefined
| VNull
| VBool (b : bool)
| VNum (n : number)
| VStr (s : string)
| VArr (items : list value)
| VObj (fields : list (string * value)).

Definition VInt (z : Z) : value := VNum (num_of_Z z).

(** ToBoolean *)
Definition truthy (v : value) : bool :=
  match v with
  | VUndefined | VNull => false
  | VBool b => b
  | VNum (Fin q) => negb (Qeq_bool q 0)
  | VNum NaN => false
  | VNum (Inf _) => true
  | VStr s => negb (s =? "")
  | VArr _ | VObj _ => true
  end.

Definition is_undefined (v : value) : bool :=
  match v with VUndefined => true | _ => false end.
Definition is_null (v : value) : bool :=
  match v with VNull => true | _ => false end.
(** [typeof v === 'object'] *)
Definition typeof_object (v : value) : bool :=
  match v with VNull | VArr _ | VObj _ => true | _ => false end.
(** [typeof v === 'number'] *)
Definition typeof_number (v : value) : bool :=
  match v with VNum _ => true | _ => false end.
(** [typeof v === 'string'] *)
Definition typeof_string (v : value) : bool :=
  match v with VStr _ => true | _ => false end.
(** [Array.isArray(v)] *)
Definition isArray (v : value) : bool :=
  match v with VArr _ => true | _ => false end.

(** [v === n] for a number [n] *)
Definition strict_eq_num (v : value) (n : number) : bool :=
  match v with VNum m => num_eqb m n | _ => false end.
(** [v === false] *)
Definition strict_eq_false (v : value) : bool :=
  match v with VBool false => true | _ => false end.

(** ** Strings *)

Definition lower_ascii (c : ascii) : ascii :=
  let n := nat_of_ascii c in
  if ((65 <=? n) && (n <=? 90))%nat then ascii_of_nat (n + 32) else c.

(** [s.toLowerCase()] for a text of ASCII characters, where it turns [A] to
    [Z] into [a] to [z] and keeps every other character.  On other texts
    the function of the source also maps the letters outside ASCII, some
    of them according to their place in the word; this definition does not
    follow it there, and what is proved of the lower-cased texts is proved
    for ASCII texts. *)
Fixpoint toLowerCase (s : string) : string :=
  match s with
  | EmptyString => EmptyString
  | String c rest => String (lower_ascii c) (toLowerCase rest)
  end.

(** The texts of ASCII characters: every code unit is below 128. *)
Definition is_ascii (s : string) : bool :=
  forallb (fun c => (nat_of_ascii c <? 128)%nat) (list_ascii_of_string s).

(** [s.includes(sub)] *)
Fixpoint includes (s sub : string) : bool :=
  if String.prefix sub s then true
  else match s with
       | EmptyString => false
       | String _ rest => includes rest sub
       end.

Definition dot : ascii := "."%char.

(** [s.includes('.')] *)
Fixpoint has_dot (s : string) : bool :=
  match s with
  | EmptyString => false
  | String c rest => if Ascii.eqb c dot then true else has_dot rest
  end.

(** [s.split('.')] *)
Fixpoint split_dot (s : string) : list string :=
  match s with
  | EmptyString => [EmptyString]
  | String c rest =>
      if Ascii.eqb c dot then EmptyString :: split_dot rest
      else match split_dot rest with
           | [] => [String c EmptyString]
           | seg :: segs => String c seg :: segs
           end
  end.

Definition digit_of (c : ascii) : option nat :=
  let n := nat_of_ascii c in
  if ((48 <=? n) && (n <=? 57))%nat then Some (n - 48)%nat else None.

Fixpoint digits_value (s : string) (acc : nat) : option nat :=
  match s with
  | EmptyString => Some acc
  | String c rest =>
      match digit_of c with
      | Some d => digits_value rest (10 * acc + d)%nat
      | None => None
      end
  end.

(** A property name that is an array index: a decimal numeral without a
    leading zero. *)
Definition array_index (s : string) : option nat :=
  match s with
  | EmptyString => None
  | String c rest =>
      if Ascii.eqb c "0"%char
      then (match rest with EmptyString => Some 0%nat | _ => None end)
      else digits_value s 0
  end.

Fixpoint assoc (k : string) (fields : list (string * value)) : option value :=
  match fields with
  | [] => None
  | (k', v) :: rest => if k' =? k then Some v else assoc k rest
  end.

Definition or_undefined (o : option value) : value :=
  match o with Some v => v | None => VUndefined end.

(** [obj[prop]] on a value that is not [null] or [undefined]. *)
Definition get_prop (obj : value) (prop : string) : value :=
  match obj with
  | VObj fields => or_undefined (assoc prop fields)
  | VArr items =>
      if prop =? "length" then VNum (num_of_nat (List.length items))
      else match array_index prop with
           | Some i => or_undefined (nth_error items i)
           | None => VUndefined
           end
  | VStr s =>
      if prop =? "length" then VNum (num_of_nat (String.length s))
      else match array_index prop with
           | Some i =>
               match String.get i s with
               | Some c => VStr (String c EmptyString)
               | None => VUndefined
               end
           | None => VUndefined
           end
  | _ => VUndefined
  end.

(** [getNestedValue(obj, path)] *)
Definition getNestedValue (obj : value) (path : string) : value :=
  if (path =? "") || negb (truthy obj) then obj
  else fold_left
         (fun current key =>
            if truthy current && negb (is_undefined (get_prop current key))
            then get_prop current key else VNull)
         (split_dot path) obj.

(** [getCellValue(row, key)] *)
Definition getCellValue (row : value) (key : string) : value :=
  if negb (truthy row) || negb (typeof_object row) then VStr ""
  else if key =? "" then VStr ""
  else if has_dot key then
    fold_left
      (fun obj prop =>
         if truthy obj && negb (is_undefined (get_prop obj prop))
         then get_prop obj prop else VStr "")
      (split_dot key) row
  else
    let v := get_prop row key in
    if negb (is_undefined v) && negb (is_null v) then v else VStr "".

(** ** Enumerations and records of the grid *)

Inductive Direction : Type := Asc | Desc.

Definition direction_name (d : Direction) : string :=
  match d with Asc => "asc" | Desc => "desc" end.

Definition flip (d : Direction) : Direction :=
  match d with Asc => Desc | Desc => Asc end.

Record Column : Type := { key : string; title : string }.

Record ServerRequestParams : Type := {
  p_page : number;
  p_pageSize : number;
  p_search : string;
  p_sortBy : option string;
  p_sortDir : Direction;
  p_draw : Z
}.

Definition opt_string_value (o : option string) : value :=
  match o with Some s => VStr s | None => VNull end.

Definition params_value (p : ServerRequestParams) : value :=
  VObj [ ("page", VNum (p_page p));
         ("pageSize", VNum (p_pageSize p));
         ("search", VStr (p_search p));
         ("sortBy", opt_string_value (p_sortBy p));
         ("sortDir", VStr (direction_name (p_sortDir p)));
         ("draw", VInt (p_draw p)) ].

Record AjaxConfig : Type := {
  url : option string;
  method : string;
  timeout : Z;
  retryAttempts : Z;
  retryDelay : Z;
  data : option (ServerRequestParams -> value);
  beforeSend : option (value -> ServerRequestParams -> value);
  complete : bool;     (* a [complete] callback is configured *)
  error : bool         (* an [error] callback is configured *)
}.

Record ServerResponseConfig : Type := {
  r_data : string;
  r_totalRecords : string;
  r_error : string;
  r_draw : string
}.

Record Config : Type := {
  cfg_data : list value;
  cfg_columns : list Column;
  cfg_pageSize : number;
  cfg_searchable : bool;
  cfg_multiSelect : bool;
  cfg_serverSide : bool;
  cfg_ajax : AjaxConfig;
  cfg_serverResponse : ServerResponseConfig
}.

Definition DEFAULTS_PAGE_SIZE : Z := 10.
Definition DEFAULTS_SEARCH_DEBOUNCE_DELAY : Z := 300.
Definition DEFAULTS_PAGINATION_DELTA : Z := 2.
Definition DEFAULTS_MAX_VISIBLE_PAGES : Z := 7.
Definition DEFAULTS_SERVER_TIMEOUT : Z := 30000.
Definition DEFAULTS_MAX_RETRY_ATTEMPTS : Z := 3.
Definition DEFAULTS_RETRY_DELAY : Z := 1000.

Definition default_ajax : AjaxConfig :=
  {| url := None; method := "GET";
     timeout := DEFAULTS_SERVER_TIMEOUT;
     retryAttempts := DEFAULTS_MAX_RETRY_ATTEMPTS;
     retryDelay := DEFAULTS_RETRY_DELAY;
     data := None; beforeSend := None; complete := false; error := false |}.

Definition default_serverResponse : ServerResponseConfig :=
  {| r_data := "data"; r_totalRecords := "total";
     r_error := "error"; r_draw := "draw" |}.

Definition default_config : Config :=
  {| cfg_data := []; cfg_columns := [];
     cfg_pageSize := num_of_Z DEFAULTS_PAGE_SIZE;
     cfg_searchable := true;
     cfg_multiSelect := false; cfg_serverSide := false;
     cfg_ajax := default_ajax;
     cfg_serverResponse := default_serverResponse |}.

(** ** Events, effects and the host's pending work *)

Record RequestInfo : Type := {
  i_page : number;
  i_search : string;
  i_sort : option string;
  i_direction : Direction
}.

Inductive Event : Type :=
| SEARCH (term : string)
| SORT (column : string) (direction : Direction)
| PAGE_CHANGE (page : number)
| PAGE_SIZE_CHANGE (size : number)
| ROW_SELECT (index : Z) (selected : bool) (selection : list Z)
| ROW_REMOVE (row : value) (index : number)
| SERVER_REQUEST_START (info : RequestInfo)
| SERVER_REQUEST_END (info : RequestInfo)
| SERVER_ERROR (message : string) (info : RequestInfo)
| SERVER_DATA_LOADED (rows : list value) (total : number) (info : RequestInfo).

Inductive ConsoleLevel : Type := LogLevel | WarnLevel | ErrorLevel.

(** What the grid does to the outside, newest first in [trace]. *)
Inductive Effect : Type :=
| Emit (e : Event)
| Console (level : ConsoleLevel) (message : string)
| Render
| ShowLoading
| HideLoading
| Fetch (controller : nat) (verb : string) (requestData : value)
| Abort (controller : nat)
| CompleteHook
| ErrorHook (message : string) (page : number) (search : string).

Inductive TimerAction : Type :=
| DebouncedSearch                (* [() => func.apply(this, args)] of [debounce] *)
| RetryLoad                      (* [() => this.loadServerData()] *)
| TimeoutAbort (controller : nat) (* [() => controller.abort()] *).

Record Timer : Type := {
  tm_id : nat;
  tm_deadline : Z;
  tm_action : TimerAction
}.

(** A suspended invocation of [loadServerData]: its local [requestId],
    its controller, its timeout timer and the [await] it is parked at. *)
Inductive Stage : Type := AwaitFetch | AwaitJson.

Record Call : Type := {
  call_requestId : Z;
  call_controller : nat;
  call_timeoutId : nat;
  call_stage : Stage
}.

Record JsError : Type := { err_name : string; err_message : string }.

Definition Error (message : string) : JsError :=
  {| err_name := "Error"; err_message := message |}.

Definition AbortError : JsError :=
  {| err_name := "AbortError"; err_message := "The operation was aborted." |}.

Record Grid : Type := {
  config : Config;
  pageSize : number;
  config_data : list value;
  currentPage : number;
  sortColumn : option string;
  sortDirection : Direction;
  searchTerm : string;
  selectedRows : list Z;
  filteredData : list value;
  originalData : list value;
  searchTimeout : option nat;
  totalRecords : number;
  isLoading : bool;
  currentRequest : option nat;
  requestId : Z;
  retryCount : Z;
  searchInput : string;
  now : Z;
  timers : list Timer;
  nextTimer : nat;
  nextController : nat;
  aborted : list nat;
  pending : list Call;
  trace : list Effect
}.

(** Assignments to the fields of [this]. *)

Definition set_pageSize (x : number) (g : Grid) : Grid :=
  {| config := config g; pageSize := x; config_data := config_data g;
     currentPage := currentPage g; sortColumn := sortColumn g;
     sortDirection := sortDirection g; searchTerm := searchTerm g;
     selectedRows := selectedRows g; filteredData := filteredData g;
     originalData := originalData g; searchTimeout := searchTimeout g;
     totalRecords := totalRecords g; isLoading := isLoading g;
     currentRequest := currentRequest g; requestId := requestId g;
     retryCount := retryCount g; searchInput := searchInput g; now := now g;
     timers := timers g; nextTimer := nextTimer g;
     nextController := nextController g; aborted := aborted g;
     pending := pending g; trace := trace g |}.

Definition set_config_data (x : list value) (g : Grid) : Grid :=
  {| config := config g; pageSize := pageSize g; config_data := x;
     currentPage := currentPage g; sortColumn := sortColumn g;
     sortDirection := sortDirection g; searchTerm := searchTerm g;
     selectedRows := selectedRows g; filteredData := filteredData g;
     originalData := originalData g; searchTimeout := searchTimeout g;
     totalRecords := totalRecords g; isLoading := isLoading g;
     currentRequest := currentRequest g; requestId := requestId g;
     retryCount := retryCount g; searchInput := searchInput g; now := now g;
     timers := timers g; nextTimer := nextTimer g;
     nextController := nextController g; aborted := aborted g;
     pending := pending g; trace := trace g |}.

Definition set_currentPage (x : number) (g : Grid) : Grid :=
  {| config := config g; pageSize := pageSize g;
     config_data := config_data g; currentPage := x;
     sortColumn := sortColumn g; sortDirection := sortDirection g;
     searchTerm := searchTerm g; selectedRows := selectedRows g;
     filteredData := filteredData g; originalData := originalData g;
     searchTimeout := searchTimeout g; totalRecords := totalRecords g;
     isLoading := isLoading g; currentRequest := currentRequest g;
     requestId := requestId g; retryCount := retryCount g;
     searchInput := searchInput g; now := now g; timers := timers g;
     nextTimer := nextTimer g; nextController := nextController g;
     aborted := aborted g; pending := pending g; trace := trace g |}.

Definition set_sortColumn (x : option string) (g : Grid) : Grid :=
  {| config := config g; pageSize := pageSize g;
     config_data := config_data g; currentPage := currentPage g;
     sortColumn := x; sortDirection := sortDirection g;
     searchTerm := searchTerm g; selectedRows := selectedRows g;
     filteredData := filteredData g; originalData := originalData g;
     searchTimeout := searchTimeout g; totalRecords := totalRecords g;
     isLoading := isLoading g; currentRequest := currentRequest g;
     requestId := requestId g; retryCount := retryCount g;
     searchInput := searchInput g; now := now g; timers := timers g;
     nextTimer := nextTimer g; nextController := nextController g;
     aborted := aborted g; pending := pending g; trace := trace g |}.

Definition set_sortDirection (x : Direction) (g : Grid) : Grid :=
  {| config := config g; pageSize := pageSize g;
     config_data := config_data g; currentPage := currentPage g;
     sortColumn := sortColumn g; sortDirection := x;
     searchTerm := searchTerm g; selectedRows := selectedRows g;
     filteredData := filteredData g; originalData := originalData g;
     searchTimeout := searchTimeout g; totalRecords := totalRecords g;
     isLoading := isLoading g; currentRequest := currentRequest g;
     requestId := requestId g; retryCount := retryCount g;
     searchInput := searchInput g; now := now g; timers := timers g;
     nextTimer := nextTimer g; nextController := nextController g;
     aborted := aborted g; pending := pending g; trace := trace g |}.

Definition set_searchTerm (x : string) (g : Grid) : Grid :=
  {| config := config g; pageSize := pageSize g;
     config_data := config_data g; currentPage := currentPage g;
     sortColumn := sortColumn g; sortDirection := sortDirection g;
     searchTerm := x; selectedRows := selectedRows g;
     filteredData := filteredData g; originalData := originalData g;
     searchTimeout := searchTimeout g; totalRecords := totalRecords g;
     isLoading := isLoading g; currentRequest := currentRequest g;
     requestId := requestId g; retryCount := retryCount g;
     searchInput := searchInput g; now := now g; timers := timers g;
     nextTimer := nextTimer g; nextController := nextController g;
     aborted := aborted g; pending := pending g; trace := trace g |}.

Definition set_selectedRows (x : list Z) (g : Grid) : Grid :=
  {| config := config g; pageSize := pageSize g;
     config_data := config_data g; currentPage := currentPage g;
     sortColumn := sortColumn g; sortDirection := sortDirection g;
     searchTerm := searchTerm g; selectedRows := x;
     filteredData := filteredData g; originalData := originalData g;
     searchTimeout := searchTimeout g; totalRecords := totalRecords g;
     isLoading := isLoading g; currentRequest := currentRequest g;
     requestId := requestId g; retryCount := retryCount g;
     searchInput := searchInput g; now := now g; timers := timers g;
     nextTimer := nextTimer g; nextController := nextController g;
     aborted := aborted g; pending := pending g; trace := trace g |}.

Definition set_filteredData (x : list value) (g : Grid) : Grid :=
  {| config := config g; pageSize := pageSize g;
     config_data := config_data g; currentPage := currentPage g;
     sortColumn := sortColumn g; sortDirection := sortDirection g;
     searchTerm := searchTerm g; selectedRows := selectedRows g;
     filteredData := x; originalData := originalData g;
     searchTimeout := searchTimeout g; totalRecords := totalRecords g;
     isLoading := isLoading g; currentRequest := currentRequest g;
     requestId := requestId g; retryCount := retryCount g;
     searchInput := searchInput g; now := now g; timers := timers g;
     nextTimer := nextTimer g; nextController := nextController g;
     aborted := aborted g; pending := pending g; trace := trace g |}.

Definition set_originalData (x : list value) (g : Grid) : Grid :=
  {| config := config g; pageSize := pageSize g;
     config_data := config_data g; currentPage := currentPage g;
     sortColumn := sortColumn g; sortDirection := sortDirection g;
     searchTerm := searchTerm g; selectedRows := selectedRows g;
     filteredData := filteredData g; originalData := x;
     searchTimeout := searchTimeout g; totalRecords := totalRecords g;
     isLoading := isLoading g; currentRequest := currentRequest g;
     requestId := requestId g; retryCount := retryCount g;
     searchInput := searchInput g; now := now g; timers := timers g;
     nextTimer := nextTimer g; nextController := nextController g;
     aborted := aborted g; pending := pending g; trace := trace g |}.

Definition set_searchTimeout (x : option nat) (g : Grid) : Grid :=
  {| config := config g; pageSize := pageSize g;
     config_data := config_data g; currentPage := currentPage g;
     sortColumn := sortColumn g; sortDirection := sortDirection g;
     searchTerm := searchTerm g; selectedRows := selectedRows g;
     filteredData := filteredData g; originalData := originalData g;
     searchTimeout := x; totalRecords := totalRecords g;
     isLoading := isLoading g; currentRequest := currentRequest g;
     requestId := requestId g; retryCount := retryCount g;
     searchInput := searchInput g; now := now g; timers := timers g;
     nextTimer := nextTimer g; nextController := nextController g;
     aborted := aborted g; pending := pending g; trace := trace g |}.

Definition set_totalRecords (x : number) (g : Grid) : Grid :=
  {| config := config g; pageSize := pageSize g;
     config_data := config_data g; currentPage := currentPage g;
     sortColumn := sortColumn g; sortDirection := sortDirection g;
     searchTerm := searchTerm g; selectedRows := selectedRows g;
     filteredData := filteredData g; originalData := originalData g;
     searchTimeout := searchTimeout g; totalRecords := x;
     isLoading := isLoading g; currentRequest := currentRequest g;
     requestId := requestId g; retryCount := retryCount g;
     searchInput := searchInput g; now := now g; timers := timers g;
     nextTimer := nextTimer g; nextController := nextController g;
     aborted := aborted g; pending := pending g; trace := trace g |}.

Definition set_isLoading (x : bool) (g : Grid) : Grid :=
  {| config := config g; pageSize := pageSize g;
     config_data := config_data g; currentPage := currentPage g;
     sortColumn := sortColumn g; sortDirection := sortDirection g;
     searchTerm := searchTerm g; selectedRows := selectedRows g;
     filteredData := filteredData g; originalData := originalData g;
     searchTimeout := searchTimeout g; totalRecords := totalRecords g;
     isLoading := x; currentRequest := currentRequest g;
     requestId := requestId g; retryCount := retryCount g;
     searchInput := searchInput g; now := now g; timers := timers g;
     nextTimer := nextTimer g; nextController := nextController g;
     aborted := aborted g; pending := pending g; trace := trace g |}.

Definition set_currentRequest (x : option nat) (g : Grid) : Grid :=
  {| config := config g; pageSize := pageSize g;
     config_data := config_data g; currentPage := currentPage g;
     sortColumn := sortColumn g; sortDirection := sortDirection g;
     searchTerm := searchTerm g; selectedRows := selectedRows g;
     filteredData := filteredData g; originalData := originalData g;
     searchTimeout := searchTimeout g; totalRecords := totalRecords g;
     isLoading := isLoading g; currentRequest := x; requestId := requestId g;
     retryCount := retryCount g; searchInput := searchInput g; now := now g;
     timers := timers g; nextTimer := nextTimer g;
     nextController := nextController g; aborted := aborted g;
     pending := pending g; trace := trace g |}.

Definition set_requestId (x : Z) (g : Grid) : Grid :=
  {| config := config g; pageSize := pageSize g;
     config_data := config_data g; currentPage := currentPage g;
     sortColumn := sortColumn g; sortDirection := sortDirection g;
     searchTerm := searchTerm g; selectedRows := selectedRows g;
     filteredData := filteredData g; originalData := originalData g;
     searchTimeout := searchTimeout g; totalRecords := totalRecords g;
     isLoading := isLoading g; currentRequest := currentRequest g;
     requestId := x; retryCount := retryCount g;
     searchInput := searchInput g; now := now g; timers := timers g;
     nextTimer := nextTimer g; nextController := nextController g;
     aborted := aborted g; pending := pending g; trace := trace g |}.

Definition set_retryCount (x : Z) (g : Grid) : Grid :=
  {| config := config g; pageSize := pageSize g;
     config_data := config_data g; currentPage := currentPage g;
     sortColumn := sortColumn g; sortDirection := sortDirection g;
     searchTerm := searchTerm g; selectedRows := selectedRows g;
     filteredData := filteredData g; originalData := originalData g;
     searchTimeout := searchTimeout g; totalRecords := totalRecords g;
     isLoading := isLoading g; currentRequest := currentRequest g;
     requestId := requestId g; retryCount := x; searchInput := searchInput g;
     now := now g; timers := timers g; nextTimer := nextTimer g;
     nextController := nextController g; aborted := aborted g;
     pending := pending g; trace := trace g |}.

Definition set_searchInput (x : string) (g : Grid) : Grid :=
  {| config := config g; pageSize := pageSize g;
     config_data := config_data g; currentPage := currentPage g;
     sortColumn := sortColumn g; sortDirection := sortDirection g;
     searchTerm := searchTerm g; selectedRows := selectedRows g;
     filteredData := filteredData g; originalData := originalData g;
     searchTimeout := searchTimeout g; totalRecords := totalRecords g;
     isLoading := isLoading g; currentRequest := currentRequest g;
     requestId := requestId g; retryCount := retryCount g; searchInput := x;
     now := now g; timers := timers g; nextTimer := nextTimer g;
     nextController := nextController g; aborted := aborted g;
     pending := pending g; trace := trace g |}.

Definition set_now (x : Z) (g : Grid) : Grid :=
  {| config := config g; pageSize := pageSize g;
     config_data := config_data g; currentPage := currentPage g;
     sortColumn := sortColumn g; sortDirection := sortDirection g;
     searchTerm := searchTerm g; selectedRows := selectedRows g;
     filteredData := filteredData g; originalData := originalData g;
     searchTimeout := searchTimeout g; totalRecords := totalRecords g;
     isLoading := isLoading g; currentRequest := currentRequest g;
     requestId := requestId g; retryCount := retryCount g;
     searchInput := searchInput g; now := x; timers := timers g;
     nextTimer := nextTimer g; nextController := nextController g;
     aborted := aborted g; pending := pending g; trace := trace g |}.

Definition set_timers (x : list Timer) (g : Grid) : Grid :=
  {| config := config g; pageSize := pageSize g;
     config_data := config_data g; currentPage := currentPage g;
     sortColumn := sortColumn g; sortDirection := sortDirection g;
     searchTerm := searchTerm g; selectedRows := selectedRows g;
     filteredData := filteredData g; originalData := originalData g;
     searchTimeout := searchTimeout g; totalRecords := totalRecords g;
     isLoading := isLoading g; currentRequest := currentRequest g;
     requestId := requestId g; retryCount := retryCount g;
     searchInput := searchInput g; now := now g; timers := x;
     nextTimer := nextTimer g; nextController := nextController g;
     aborted := aborted g; pending := pending g; trace := trace g |}.

Definition set_nextTimer (x : nat) (g : Grid) : Grid :=
  {| config := config g; pageSize := pageSize g;
     config_data := config_data g; currentPage := currentPage g;
     sortColumn := sortColumn g; sortDirection := sortDirection g;
     searchTerm := searchTerm g; selectedRows := selectedRows g;
     filteredData := filteredData g; originalData := originalData g;
     searchTimeout := searchTimeout g; totalRecords := totalRecords g;
     isLoading := isLoading g; currentRequest := currentRequest g;
     requestId := requestId g; retryCount := retryCount g;
     searchInput := searchInput g; now := now g; timers := timers g;
     nextTimer := x; nextController := nextController g;
     aborted := aborted g; pending := pending g; trace := trace g |}.

Definition set_nextController (x : nat) (g : Grid) : Grid :=
  {| config := config g; pageSize := pageSize g;
     config_data := config_data g; currentPage := currentPage g;
     sortColumn := sortColumn g; sortDirection := sortDirection g;
     searchTerm := searchTerm g; selectedRows := selectedRows g;
     filteredData := filteredData g; originalData := originalData g;
     searchTimeout := searchTimeout g; totalRecords := totalRecords g;
     isLoading := isLoading g; currentRequest := currentRequest g;
     requestId := requestId g; retryCount := retryCount g;
     searchInput := searchInput g; now := now g; timers := timers g;
     nextTimer := nextTimer g; nextController := x; aborted := aborted g;
     pending := pending g; trace := trace g |}.

Definition set_aborted (x : list nat) (g : Grid) : Grid :=
  {| config := config g; pageSize := pageSize g;
     config_data := config_data g; currentPage := currentPage g;
     sortColumn := sortColumn g; sortDirection := sortDirection g;
     searchTerm := searchTerm g; selectedRows := selectedRows g;
     filteredData := filteredData g; originalData := originalData g;
     searchTimeout := searchTimeout g; totalRecords := totalRecords g;
     isLoading := isLoading g; currentRequest := currentRequest g;
     requestId := requestId g; retryCount := retryCount g;
     searchInput := searchInput g; now := now g; timers := timers g;
     nextTimer := nextTimer g; nextController := nextController g;
     aborted := x; pending := pending g; trace := trace g |}.

Definition set_pending (x : list Call) (g : Grid) : Grid :=
  {| config := config g; pageSize := pageSize g;
     config_data := config_data g; currentPage := currentPage g;
     sortColumn := sortColumn g; sortDirection := sortDirection g;
     searchTerm := searchTerm g; selectedRows := selectedRows g;
     filteredData := filteredData g; originalData := originalData g;
     searchTimeout := searchTimeout g; totalRecords := totalRecords g;
     isLoading := isLoading g; currentRequest := currentRequest g;
     requestId := requestId g; retryCount := retryCount g;
     searchInput := searchInput g; now := now g; timers := timers g;
     nextTimer := nextTimer g; nextController := nextController g;
     aborted := aborted g; pending := x; trace := trace g |}.

Definition set_trace (x : list Effect) (g : Grid) : Grid :=
  {| config := config g; pageSize := pageSize g;
     config_data := config_data g; currentPage := currentPage g;
     sortColumn := sortColumn g; sortDirection := sortDirection g;
     searchTerm := searchTerm g; selectedRows := selectedRows g;
     filteredData := filteredData g; originalData := originalData g;
     searchTimeout := searchTimeout g; totalRecords := totalRecords g;
     isLoading := isLoading g; currentRequest := currentRequest g;
     requestId := requestId g; retryCount := retryCount g;
     searchInput := searchInput g; now := now g; timers := timers g;
     nextTimer := nextTimer g; nextController := nextController g;
     aborted := aborted g; pending := pending g; trace := x |}.

(** ** The event registry: [on], [off], [emit] *)

Module EventBus.

(** The property names of [Object.prototype].  [this.events] starts as the
    plain object [{}]: for an event of one of these names that has no entry
    of its own, [this.events[event]] finds the inherited value, which is
    truthy and no array, so that [on], [off] and [emit] raise a [TypeError]
    at [push], [filter] and [forEach].  The registry below holds the entries
    of [this.events] itself; what is proved of [on] and [off] is proved for
    the event names outside this list. *)
Definition Object_prototype : list string :=
  ["constructor"; "__defineGetter__"; "__defineSetter__"; "hasOwnProperty";
   "__lookupGetter__"; "__lookupSetter__"; "isPrototypeOf";
   "propertyIsEnumerable"; "toString"; "valueOf"; "__proto__";
   "toLocaleString"].

(** [event in Object.prototype] *)
Definition inherited (event : string) : bool :=
  existsb (String.eqb event) Object_prototype.

Section Bus.

(** [Payload] is what an event carries, [World] what the subscribers can
    change outside the grid. *)
Variables Payload World : Type.

(** How a call of a subscriber ends. *)
Inductive Completion : Type :=
| Returns (w : World)
| Throws (e : JsError) (w : World).

(** A subscriber; [cb_id] stands for the identity of the function object,
    which [off] compares with [!==]. *)
Record Callback : Type := {
  cb_id : nat;
  cb_call : Payload -> World -> Completion
}.

(** [this.events]: its own entries, the subscribers of each event name in
    the order of their subscription. *)
Definition Events : Type := list (string * list Callback).

Fixpoint subscribers (event : string) (events : Events) : option (list Callback) :=
  match events with
  | [] => None
  | (name, cbs) :: rest => if name =? event then Some cbs else subscribers event rest
  end.

Fixpoint assign (event : string) (cbs : list Callback) (events : Events) : Events :=
  match events with
  | [] => [(event, cbs)]
  | (name, old) :: rest =>
      if name =? event then (name, cbs) :: rest
      else (name, old) :: assign event cbs rest
  end.

(** [on(event, callback)] *)
Definition on (event : string) (callback : Callback) (events : Events) : Events :=
  match subscribers event events with
  | None => assign event [callback] events
  | Some cbs => assign event (cbs ++ [callback]) events
  end.

(** [off(event, callback)] *)
Definition off (event : string) (callback : Callback) (events : Events) : Events :=
  match subscribers event events with
  | None => events
  | Some cbs =>
      assign event
        (filter (fun cb => negb (cb_id cb =? cb_id callback)%nat) cbs) events
  end.

(** [cbs.forEach(callback => callback(data))]: an exception leaves the loop. *)
Fixpoint forEach (cbs : list Callback) (d : Payload) (w : World) : Completion :=
  match cbs with
  | [] => Returns w
  | cb :: rest =>
      match cb_call cb d w with
      | Returns w' => forEach rest d w'
      | Throws e w' => Throws e w'
      end
  end.

(** [emit(event, data)] *)
Definition emit (event : string) (d : Payload) (events : Events) (w : World) : Completion :=
  match subscribers event events with
  | None => Returns w
  | Some cbs => forEach cbs d w
  end.

(** The subscribers that [forEach] has called, in the order of the calls. *)
Fixpoint called (cbs : list Callback) (d : Payload) (w : World) : list nat :=
  match cbs with
  | [] => []
  | cb :: rest =>
      cb_id cb :: match cb_call cb d w with
                  | Returns w' => called rest d w'
                  | Throws _ _ => []
                  end
  end.

(** The subscribers [emit] has called for [event]. *)
Definition delivered (event : string) (d : Payload) (events : Events) (w : World) : list nat :=
  match subscribers event events with
  | None => []
  | Some cbs => called cbs d w
  end.

End Bus.

Arguments Returns {World} w.
Arguments Throws {World} e w.
Arguments cb_id {Payload World} c.
Arguments cb_call {Payload World} c d w.
Arguments subscribers {Payload World} event events.
Arguments on {Payload World} event callback events.
Arguments off {Payload World} event callback events.
Arguments forEach {Payload World} cbs d w.
Arguments emit {Payload World} event d events w.
Arguments called {Payload World} cbs d w.
Arguments delivered {Payload World} event d events w.

End EventBus.

(** ** Operations of the class *)

(** A text between double quotes. *)
Definition quoted (s : string) : string :=
  String (ascii_of_nat 34) s ++ String (ascii_of_nat 34) EmptyString.

Inductive FetchResult : Type :=
| FetchRejected (e : JsError)
| FetchResponse (ok : bool) (status : Z) (statusText : string).

Inductive JsonResult : Type :=
| JsonRejected (e : JsError)
| JsonParsed (result : value).

Definition stage_eqb (a b : Stage) : bool :=
  match a, b with
  | AwaitFetch, AwaitFetch | AwaitJson, AwaitJson => true
  | _, _ => false
  end.

(** [splice(i, 1)] *)
Definition remove_at {A : Type} (i : Z) (l : list A) : list A :=
  if (i <? 0)%Z then l
  else firstn (Z.to_nat i) l ++ skipn (S (Z.to_nat i)) l.

(** [Set.prototype.add] and [delete] on the selection, which keeps the
    order of insertion. *)
Definition set_add (x : Z) (s : list Z) : list Z :=
  if existsb (Z.eqb x) s then s else s ++ [x].

Definition set_delete (x : Z) (s : list Z) : list Z :=
  filter (fun j => negb (Z.eqb j x)) s.

Definition set_delete_num (n : number) (s : list Z) : list Z :=
  filter (fun j => negb (num_eqb (num_of_Z j) n)) s.

(** [!url] is false *)
Definition url_set (u : option string) : bool :=
  match u with Some s => negb (s =? "") | None => false end.

Section Host.

(** Built-ins of the host that the grid calls and whose results it only
    passes along: [Number.prototype.toString], the relational comparison
    [a < b] on arbitrary values, and [Array.prototype.sort]. *)
Variable number_to_string : number -> string.
Variable js_lt : value -> value -> bool.
Variable array_sort : (value -> value -> Z) -> list value -> list value.

(** [String(v)]; also [v.toString()] where [v] is neither [null] nor
    [undefined]. *)
Fixpoint js_toString (v : value) : string :=
  match v with
  | VUndefined => "undefined"
  | VNull => "null"
  | VBool true => "true"
  | VBool false => "false"
  | VNum n => number_to_string n
  | VStr s => s
  | VArr items =>
      String.concat ","
        (map (fun x => match x with
                       | VUndefined | VNull => ""
                       | _ => js_toString x
                       end) items)
  | VObj _ => "[object Object]"
  end.

Definition effect (x : Effect) (g : Grid) : Grid := set_trace (x :: trace g) g.
Definition emit (e : Event) (g : Grid) : Grid := effect (Emit e) g.
Definition console_log (m : string) : Grid -> Grid := effect (Console LogLevel m).
Definition console_warn (m : string) : Grid -> Grid := effect (Console WarnLevel m).
Definition console_error (m : string) : Grid -> Grid := effect (Console ErrorLevel m).
Definition render : Grid -> Grid := effect Render.
Definition showLoading : Grid -> Grid := effect ShowLoading.
Definition hideLoading : Grid -> Grid := effect HideLoading.

Definition request_info (g : Grid) : RequestInfo :=
  {| i_page := currentPage g; i_search := searchTerm g;
     i_sort := sortColumn g; i_direction := sortDirection g |}.

(** [setTimeout(action, delay)]; the identifier it returns is the value of
    [nextTimer] before the call. *)
Definition setTimeout (action : TimerAction) (delay : Z) (g : Grid) : Grid :=
  set_nextTimer (S (nextTimer g))
    (set_timers (timers g ++ [ {| tm_id := nextTimer g;
                                  tm_deadline := now g + Z.max 0 delay;
                                  tm_action := action |} ]) g).

Definition clearTimeout (id : option nat) (g : Grid) : Grid :=
  match id with
  | None => g
  | Some i => set_timers (filter (fun t => negb (tm_id t =? i)%nat) (timers g)) g
  end.

(** [controller.abort()] *)
Definition abort (c : nat) (g : Grid) : Grid :=
  effect (Abort c) (set_aborted (c :: aborted g) g).

(** *** Local filter *)

(** The callback of [originalData.filter] in [applyFilters]. *)
Definition row_matches (columns : list Column) (term : string) (row : value) : bool :=
  if term =? "" then true
  else existsb
         (fun column =>
            let v := getCellValue row (key column) in
            truthy v && includes (toLowerCase (js_toString v)) term)
         columns.

Definition applyFilters (g : Grid) : Grid :=
  set_filteredData
    (filter (row_matches (cfg_columns (config g)) (searchTerm g)) (originalData g)) g.

(** Every text that [applyFilters] lower-cases, the text of the cell of a
    row of [originalData] in a configured column, is of ASCII characters. *)
Definition ascii_cells (g : Grid) : bool :=
  forallb
    (fun row =>
       forallb (fun column => is_ascii (js_toString (getCellValue row (key column))))
               (cfg_columns (config g)))
    (originalData g).

(** *** Remote path: [loadServerData] *)

(** The [finally] block. *)
Definition loadServerData_finally (g : Grid) : Grid :=
  let g := set_isLoading false g in
  let g := hideLoading g in
  let g := set_currentRequest None g in
  let g := if complete (cfg_ajax (config g)) then effect CompleteHook g else g in
  emit (SERVER_REQUEST_END (request_info g)) g.

(** The [catch] block. *)
Definition loadServerData_catch (e : JsError) (g : Grid) : Grid :=
  let ajax := cfg_ajax (config g) in
  if err_name e =? "AbortError" then console_log "Request was cancelled" g
  else
    let g := console_error ("Failed to load server data: " ++ err_message e) g in
    if (retryCount g <? retryAttempts ajax)%Z then
      let g := set_retryCount (retryCount g + 1) g in
      let g := console_log
                 ("Retrying request (" ++ number_to_string (num_of_Z (retryCount g))
                    ++ "/" ++ number_to_string (num_of_Z (retryAttempts ajax))
                    ++ ")...") g in
      setTimeout RetryLoad (retryDelay ajax * retryCount g) g
    else
      let g := if error ajax
               then effect (ErrorHook (err_message e) (currentPage g) (searchTerm g)) g
               else g in
      emit (SERVER_ERROR (err_message e) (request_info g)) g.

(** [params] and [requestData] of [loadServerData], once [this.requestId]
    has been incremented. *)
Definition request_params (g : Grid) : ServerRequestParams :=
  {| p_page := currentPage g; p_pageSize := pageSize g;
     p_search := searchTerm g; p_sortBy := sortColumn g;
     p_sortDir := sortDirection g; p_draw := requestId g |}.

Definition request_data (g : Grid) : value :=
  match data (cfg_ajax (config g)) with
  | Some f => f (request_params g)
  | None => params_value (request_params g)
  end.

(** [shouldContinue === false] *)
Definition vetoed (g : Grid) : bool :=
  match beforeSend (cfg_ajax (config g)) with
  | Some hook => strict_eq_false (hook (request_data g) (request_params g))
  | None => false
  end.

(** [loadServerData] up to [await fetch(url, requestOptions)]. *)
Definition loadServerData (g : Grid) : Grid :=
  let ajax := cfg_ajax (config g) in
  if negb (url_set (url ajax))
  then console_error "Server-side processing enabled but no URL provided" g
  else
    let g := match currentRequest g with
             | Some c => abort c g
             | None => g
             end in
    if isLoading g then g
    else
      let g := set_isLoading true g in
      let g := showLoading g in
      let g := emit (SERVER_REQUEST_START (request_info g)) g in
      let g := set_requestId (requestId g + 1) g in
      let requestData := request_data g in
      if vetoed g
      then loadServerData_finally (hideLoading (set_isLoading false g))
      else
        let controller := nextController g in
        let g := set_nextController (S controller) g in
        let g := set_currentRequest (Some controller) g in
        let timeoutId := nextTimer g in
        let g := setTimeout (TimeoutAbort controller) (timeout ajax) g in
        let g := effect (Fetch controller (method ajax) requestData) g in
        set_pending (pending g ++ [ {| call_requestId := requestId g;
                                       call_controller := controller;
                                       call_timeoutId := timeoutId;
                                       call_stage := AwaitFetch |} ]) g.

Definition find_call (c : nat) (stage : Stage) (g : Grid) : option Call :=
  find (fun k => (call_controller k =? c)%nat && stage_eqb (call_stage k) stage)
       (pending g).

Definition remove_call (c : nat) (g : Grid) : Grid :=
  set_pending (filter (fun k => negb (call_controller k =? c)%nat) (pending g)) g.

Definition park_at_json (c : nat) (g : Grid) : Grid :=
  set_pending
    (map (fun k => if (call_controller k =? c)%nat
                   then {| call_requestId := call_requestId k;
                           call_controller := call_controller k;
                           call_timeoutId := call_timeoutId k;
                           call_stage := AwaitJson |}
                   else k) (pending g)) g.

(** The continuation of [await fetch(...)] for the call with controller [c]. *)
Definition fetch_settles (c : nat) (r : FetchResult) (g : Grid) : Grid :=
  match find_call c AwaitFetch g with
  | None => g
  | Some call =>
      match r with
      | FetchRejected e =>
          loadServerData_finally (loadServerData_catch e (remove_call c g))
      | FetchResponse ok status statusText =>
          let g := clearTimeout (Some (call_timeoutId call)) g in
          if ok then park_at_json c g
          else loadServerData_finally
                 (loadServerData_catch
                    (Error ("HTTP error! status: "
                              ++ number_to_string (num_of_Z status)
                              ++ " - " ++ statusText))
                    (remove_call c g))
      end
  end.

(** [loadServerData] from [const result = await response.json()] on, for a
    call whose local [requestId] is [call_requestId call]. *)
Definition loadServerData_result (call : Call) (result : value) (g : Grid) : Grid :=
  let sr := cfg_serverResponse (config g) in
  let responseDraw := getNestedValue result (r_draw sr) in
  if truthy responseDraw
     && negb (strict_eq_num responseDraw (num_of_Z (call_requestId call)))
  then loadServerData_finally
         (console_warn "Response draw ID mismatch, ignoring stale response" g)
  else
    let rows := getNestedValue result (r_data sr) in
    let total := getNestedValue result (r_totalRecords sr) in
    let err := getNestedValue result (r_error sr) in
    if truthy err
    then loadServerData_finally (loadServerData_catch (Error (js_toString err)) g)
    else
      match rows with
      | VArr items =>
          let g := set_originalData items g in
          let g := set_filteredData items g in
          let g := set_totalRecords
                     (match total with
                      | VNum n => n
                      | _ => num_of_nat (List.length items)
                      end) g in
          let g := set_retryCount 0 g in
          let g := console_log "Server data loaded:" g in
          let g := render g in
          let g := emit (SERVER_DATA_LOADED items (totalRecords g) (request_info g)) g in
          loadServerData_finally g
      | _ =>
          loadServerData_finally
            (loadServerData_catch (Error "Server response data is not an array") g)
      end.

(** The continuation of [await response.json()]. *)
Definition json_settles (c : nat) (r : JsonResult) (g : Grid) : Grid :=
  match find_call c AwaitJson g with
  | None => g
  | Some call =>
      match r with
      | JsonRejected e =>
          loadServerData_finally (loadServerData_catch e (remove_call c g))
      | JsonParsed result => loadServerData_result call result (remove_call c g)
      end
  end.

(** *** Public methods *)

(** [search(term)] *)
Definition search (term : value) (g : Grid) : Grid :=
  let term := match term with
              | VStr s => s
              | other => js_toString (if truthy other then other else VStr "")
              end in
  let g := set_searchTerm (toLowerCase term) g in
  let g := if cfg_serverSide (config g)
           then loadServerData (set_currentPage (num_of_Z 1) g)
           else render (set_currentPage (num_of_Z 1) (applyFilters g)) in
  emit (SEARCH term) g.

(** The comparator handed to [filteredData.sort] by [sort]. *)
Definition sort_compare (column : string) (d : Direction) (a b : value) : Z :=
  let aVal := getCellValue a column in
  let bVal := getCellValue b column in
  let result := if js_lt aVal bVal then -1
                else if js_lt bVal aVal then 1 else 0 in
  match d with Desc => - result | Asc => result end.

Definition string_opt_eqb (o : option string) (s : string) : bool :=
  match o with Some t => t =? s | None => false end.

Definition is_direction (v : value) : bool :=
  match v with VStr s => (s =? "asc") || (s =? "desc") | _ => false end.

(** [direction || 'asc'] for a direction that passed the validation. *)
Definition direction_or_asc (v : value) : Direction :=
  match v with
  | VStr s => if s =? "desc" then Desc else Asc
  | _ => Asc
  end.

(** The assignment to [sortColumn] and [sortDirection] in [sort], for a
    direction that passed the validation or was replaced by [null]. *)
Definition sort_update (c : string) (direction : value) (g : Grid) : Grid :=
  if string_opt_eqb (sortColumn g) c && is_null direction
  then set_sortDirection (flip (sortDirection g)) g
  else set_sortDirection (direction_or_asc direction) (set_sortColumn (Some c) g).

(** The rest of [sort]: the reconciliation and the [sort] event. *)
Definition sort_reconcile (c : string) (g : Grid) : Grid :=
  let g := if cfg_serverSide (config g)
           then loadServerData (set_currentPage (num_of_Z 1) g)
           else render
                  (set_filteredData
                     (array_sort (sort_compare c (sortDirection g))
                        (filteredData g)) g) in
  emit (SORT c (sortDirection g)) g.

(** [sort(column, direction = null)] *)
Definition sort (column direction : value) (g : Grid) : Grid :=
  match column with
  | VStr c =>
      if c =? "" then console_warn "Sort column must be a non-empty string" g
      else if negb (existsb (fun col => key col =? c) (cfg_columns (config g)))
      then console_warn ("Column '" ++ c ++ "' does not exist") g
      else
        let direction := if is_undefined direction then VNull else direction in
        let invalid := truthy direction && negb (is_direction direction) in
        let g := if invalid
                 then console_warn
                        ("Sort direction must be " ++ quoted "asc" ++ " or "
                           ++ quoted "desc") g
                 else g in
        let direction := if invalid then VNull else direction in
        sort_reconcile c (sort_update c direction g)
  | _ => console_warn "Sort column must be a non-empty string" g
  end.

(** [Math.ceil(n / this.config.pageSize)] *)
Definition page_count (n : number) (g : Grid) : number :=
  num_ceil (num_div n (pageSize g)).

(** [goToPage(page)] *)
Definition goToPage (page : number) (g : Grid) : Grid :=
  if cfg_serverSide (config g) then
    let totalPages := page_count (totalRecords g) g in
    if num_geb page (num_of_Z 1) && num_leb page totalPages
    then emit (PAGE_CHANGE page) (loadServerData (set_currentPage page g))
    else g
  else
    let totalPages := page_count (num_of_nat (List.length (filteredData g))) g in
    if num_geb page (num_of_Z 1) && num_leb page totalPages
    then emit (PAGE_CHANGE page) (render (set_currentPage page g))
    else g.

(** [setPageSize(size)] *)
Definition setPageSize (size : value) (g : Grid) : Grid :=
  match size with
  | VNum n =>
      if num_ltb n (num_of_Z 1)
      then console_warn "Page size must be a positive number" g
      else
        let g := set_currentPage (num_of_Z 1) (set_pageSize n g) in
        let g := if cfg_serverSide (config g) then loadServerData g else render g in
        emit (PAGE_SIZE_CHANGE n) g
  | _ => console_warn "Page size must be a positive number" g
  end.

(** [selectRow(index, selected)] *)
Definition selectRow (index : Z) (selected : bool) (g : Grid) : Grid :=
  let g := if cfg_multiSelect (config g) then g else set_selectedRows [] g in
  let g := if selected
           then set_selectedRows (set_add index (selectedRows g)) g
           else set_selectedRows (set_delete index (selectedRows g)) g in
  emit (ROW_SELECT index selected (selectedRows g)) (render g).

(** The [forEach] over the selection in [removeRow]. *)
Definition shift_selection (index : number) (selection : list Z) : list Z :=
  fold_left
    (fun newSelectedRows selectedIndex =>
       if num_gtb (num_of_Z selectedIndex) index
       then set_add (selectedIndex - 1) newSelectedRows
       else if num_ltb (num_of_Z selectedIndex) index
            then set_add selectedIndex newSelectedRows
            else newSelectedRows)
    selection [].

(** [removeRow(index)] *)
Definition removeRow (index : value) (g : Grid) : Grid :=
  match index with
  | VNum i =>
      if num_ltb i (num_of_Z 0)
         || num_geb i (num_of_nat (List.length (originalData g)))
      then console_warn ("Invalid row index: " ++ js_toString index) g
      else if cfg_serverSide (config g)
      then console_warn
             "removeRow() not supported in server-side mode. Use server API to remove data." g
      else
        let removedRow := nth (Z.to_nat (num_to_index i)) (originalData g) VUndefined in
        let g := set_originalData (remove_at (num_to_index i) (originalData g)) g in
        let g := set_config_data (remove_at (num_to_index i) (config_data g)) g in
        let g := set_selectedRows (set_delete_num i (selectedRows g)) g in
        let g := set_selectedRows (shift_selection i (selectedRows g)) g in
        emit (ROW_REMOVE removedRow i) (render (applyFilters g))
  | _ => console_warn ("Invalid row index: " ++ js_toString index) g
  end.

(** [getSelectedRows()] *)
Definition getSelectedRows (g : Grid) : list value :=
  filter truthy
    (map (fun index => if (index <? 0)%Z then VUndefined
                       else nth (Z.to_nat index) (filteredData g) VUndefined)
         (selectedRows g)).

(** [refresh()] *)
Definition refresh (g : Grid) : Grid :=
  if cfg_serverSide (config g) then loadServerData g
  else render (applyFilters g).

(** *** The data and the selection: the other public methods *)

(** The events of the methods below.  Each of these methods emits its event
    as its last effect, after [render]; the event is handed back with the
    state. *)
Inductive DataEvent : Type :=
| DATA_CHANGE (data : list value)
| ROW_ADD (row : value)
| SELECT_ALL (selected : bool) (selection : list Z)
| SELECTION_CLEAR.





(** [selectAll(selected)] *)
Definition selectAll (selected : bool) (g : Grid) : Grid * DataEvent :=
  let g := if selected
           then set_selectedRows
                  (fold_left (fun selection index => set_add (Z.of_nat index) selection)
                             (seq 0 (List.length (filteredData g)))
                             (selectedRows g)) g
           else set_selectedRows [] g in
  (render g, SELECT_ALL selected (selectedRows g)).

(** [clearSelection()] *)
Definition clearSelection (g : Grid) : Grid * DataEvent :=
  (render (set_selectedRows [] g), SELECTION_CLEAR).

(** [getExportData(options)], for the truth values of [options.selectedOnly]
    and [options.visibleOnly]. *)
Definition getExportData (selectedOnly visibleOnly : bool) (g : Grid) : list value :=
  if selectedOnly && (0 <? List.length (selectedRows g))%nat
  then filter truthy
         (map (fun index => if (index <? 0)%Z then VUndefined
                            else nth (Z.to_nat index) (filteredData g) VUndefined)
              (selectedRows g))
  else if visibleOnly then
    let startIndex := num_mul (num_sub (currentPage g) (num_of_Z 1)) (pageSize g) in
    let endIndex := num_add startIndex (pageSize g) in
    slice startIndex endIndex (filteredData g)
  else filteredData g.

(** *** What [render] shows *)

(** A row of the table body: its [data-index], whether it is marked as
    selected, and the record it shows. *)
Record BodyRow : Type := {
  tr_index : number;
  tr_selected : bool;
  tr_row : value
}.

(** [this.selectedRows.has(n)] *)
Definition set_has (n : number) (s : list Z) : bool :=
  existsb (fun j => num_eqb (num_of_Z j) n) s.

(** The rows that [renderBody] puts in the table body; [pagination] is
    [this.config.pagination]. *)
Definition renderBody (pagination : bool) (g : Grid) : list BodyRow :=
  if (List.length (filteredData g) =? 0)%nat then []
  else
    let startIndex :=
      if cfg_serverSide (config g)
      then num_mul (num_sub (currentPage g) (num_of_Z 1)) (pageSize g)
      else if pagination
           then num_mul (num_sub (currentPage g) (num_of_Z 1)) (pageSize g)
           else num_of_Z 0 in
    let pageData :=
      if cfg_serverSide (config g) then filteredData g
      else
        let endIndex := if pagination then num_add startIndex (pageSize g)
                        else num_of_nat (List.length (filteredData g)) in
        slice startIndex endIndex (filteredData g) in
    map (fun entry =>
           let index := num_add startIndex (num_of_nat (fst entry)) in
           {| tr_index := index;
              tr_selected := set_has index (selectedRows g);
              tr_row := snd entry |})
        (combine (seq 0 (List.length pageData)) pageData).

(** A child of the [page-numbers] element. *)
Inductive PageItem : Type :=
| PageButton (pageNum : number) (active : bool)
| PageEllipsis.

(** [createPageButton(pageNum)] and [createEllipsis()] *)
Definition createPageButton (pageNum : number) (g : Grid) : PageItem :=
  PageButton pageNum (num_eqb pageNum (currentPage g)).

Definition createEllipsis : PageItem := PageEllipsis.

(** [totalPages] of [renderPagination] and of the pagination listener. *)
Definition totalPages (g : Grid) : number :=
  if cfg_serverSide (config g)
  then page_count (totalRecords g) g
  else page_count (num_of_nat (List.length (filteredData g))) g.

(** The children that [renderPagination] gives the [page-numbers] element;
    [None] when one of its loops does not end. *)
Definition renderPagination (g : Grid) : option (list PageItem) :=
  let total := totalPages g in
  if num_leb total (num_of_Z DEFAULTS_MAX_VISIBLE_PAGES)
  then option_map (map (fun i => createPageButton i g)) (for_up (num_of_Z 1) total)
  else
    let first := num_max (num_of_Z 2)
                   (num_sub (currentPage g) (num_of_Z DEFAULTS_PAGINATION_DELTA)) in
    let last := num_min (num_sub total (num_of_Z 1))
                  (num_add (currentPage g) (num_of_Z DEFAULTS_PAGINATION_DELTA)) in
    option_map
      (fun middle =>
         [createPageButton (num_of_Z 1) g]
           ++ (if num_gtb (currentPage g) (num_of_Z 4) then [createEllipsis] else [])
           ++ map (fun i => createPageButton i g) middle
           ++ (if num_ltb (currentPage g) (num_sub total (num_of_Z 3))
               then [createEllipsis] else [])
           ++ (if num_gtb total (num_of_Z 1) then [createPageButton total g] else []))%list
      (for_up first last).

(** The controls of the pagination bar; a page-number button is given by
    the number that [parseInt] reads from its [data-page]. *)
Inductive PageControl : Type :=
| FirstPage
| PrevPage
| NextPage
| LastPage
| PageNumber (page : number).

(** The listener that [attachEvents] puts on the pagination bar, for a
    click on [target]. *)
Definition paginationHandler (target : PageControl) (g : Grid) : Grid :=
  let total := totalPages g in
  match target with
  | FirstPage => goToPage (num_of_Z 1) g
  | PrevPage =>
      goToPage (num_max (num_of_Z 1) (num_sub (currentPage g) (num_of_Z 1))) g
  | NextPage =>
      goToPage (num_min total (num_add (currentPage g) (num_of_Z 1))) g
  | LastPage => goToPage total g
  | PageNumber page =>
      let g := if cfg_serverSide (config g)
               then console_log "Server-side pagination:" g else g in
      if num_geb page (num_of_Z 1) && num_leb page total
      then goToPage page g
      else console_warn "Invalid page number:" g
  end.

(** The listener that [attachEvents] puts on the search box: the function
    returned by [debounce((e) => this.search(e.target.value), 300)], called
    for an [input] event after the box has taken the text [text]. *)
Definition debouncedSearch (text : string) (g : Grid) : Grid :=
  if cfg_searchable (config g) then
    let g := set_searchInput text g in
    let g := clearTimeout (searchTimeout g) g in
    let g := set_searchTimeout (Some (nextTimer g)) g in
    setTimeout DebouncedSearch DEFAULTS_SEARCH_DEBOUNCE_DELAY g
  else g.

(** What a timer does when the host runs it. *)
Definition run_timer (a : TimerAction) (g : Grid) : Grid :=
  match a with
  | DebouncedSearch => search (VStr (searchInput g)) g
  | RetryLoad => loadServerData g
  | TimeoutAbort c => abort c g
  end.

(** The host runs the timer [id]: only a timer that is still set and whose
    delay has passed can run. *)
Definition timer_fires (id : nat) (g : Grid) : Grid :=
  match find (fun t => (tm_id t =? id)%nat) (timers g) with
  | Some t =>
      if (tm_deadline t <=? now g)%Z
      then run_timer (tm_action t) (clearTimeout (Some id) g)
      else g
  | None => g
  end.

Definition elapse (ms : Z) (g : Grid) : Grid :=
  set_now (now g + Z.max 0 ms) g.

(** *** Construction: the constructor and [init] *)

Definition initial (cfg : Config) : Grid :=
  {| config := cfg; pageSize := cfg_pageSize cfg; config_data := cfg_data cfg;
     currentPage := num_of_Z 1; sortColumn := None; sortDirection := Asc;
     searchTerm := ""; selectedRows := [];
     filteredData := if cfg_serverSide cfg then [] else cfg_data cfg;
     originalData := if cfg_serverSide cfg then [] else cfg_data cfg;
     searchTimeout := None; totalRecords := num_of_Z 0; isLoading := false;
     currentRequest := None; requestId := 0; retryCount := 0;
     searchInput := ""; now := 0; timers := []; nextTimer := 0;
     nextController := 0; aborted := []; pending := []; trace := [] |}.

(** [new QMGrid(selector, options)]; [None] when [init] throws. *)
Definition QMGrid_new (cfg : Config) : option Grid :=
  if cfg_serverSide cfg then
    if url_set (url (cfg_ajax cfg)) then Some (loadServerData (initial cfg))
    else None
  else Some (render (initial cfg)).

(** *** The grid driven by its environment *)

Inductive Stimulus : Type :=
| CallSearch (term : value)
| CallSort (column direction : value)
| CallGoToPage (page : number)
| CallSetPageSize (size : value)
| CallSelectRow (index : Z) (selected : bool)
| CallRemoveRow (index : value)
| CallRefresh
| InputSearch (text : string)
| Elapse (ms : Z)
| TimerFires (id : nat)
| FetchSettles (controller : nat) (r : FetchResult)
| JsonSettles (controller : nat) (r : JsonResult).

Definition step (g : Grid) (s : Stimulus) : Grid :=
  match s with
  | CallSearch term => search term g
  | CallSort column direction => sort column direction g
  | CallGoToPage page => goToPage page g
  | CallSetPageSize size => setPageSize size g
  | CallSelectRow index selected => selectRow index selected g
  | CallRemoveRow index => removeRow index g
  | CallRefresh => refresh g
  | InputSearch text => debouncedSearch text g
  | Elapse ms => elapse ms g
  | TimerFires id => timer_fires id g
  | FetchSettles c r => fetch_settles c r g
  | JsonSettles c r => json_settles c r g
  end.

Definition run (g : Grid) (script : list Stimulus) : Grid :=
  fold_left step script g.

(** The states a grid built from [cfg] can be in. *)
Definition reachable (cfg : Config) (g : Grid) : Prop :=
  exists g0 script, QMGrid_new cfg = Some g0 /\ g = run g0 script.

(** *** Reading the trace *)

Definition is_fetch (x : Effect) : bool :=
  match x with Fetch _ _ _ => true | _ => false end.
Definition is_emit (x : Effect) : bool :=
  match x with Emit _ => true | _ => false end.
Definition is_server_error (x : Effect) : bool :=
  match x with Emit (SERVER_ERROR _ _) => true | _ => false end.
Definition is_data_loaded (x : Effect) : bool :=
  match x with Emit (SERVER_DATA_LOADED _ _ _) => true | _ => false end.
Definition is_render (x : Effect) : bool :=
  match x with Render => true | _ => false end.
Definition is_warning (x : Effect) : bool :=
  match x with Console WarnLevel _ => true | _ => false end.

Definition count (p : Effect -> bool) (g : Grid) : nat :=
  List.length (filter p (trace g)).

(** The payloads of the transport calls made so far, oldest first. *)
Definition requests (g : Grid) : list value :=
  rev (flat_map (fun x => match x with Fetch _ _ d => [d] | _ => [] end) (trace g)).

(** ** Observations of a state and runs of failing attempts *)

(** The page, the page size, the sort, the search term, the selection, the
    rows and the total. *)
Definition view_state (g : Grid) :=
  (currentPage g, pageSize g, sortColumn g, sortDirection g, searchTerm g,
   selectedRows g, filteredData g, originalData g, totalRecords g).

(** The fields the sequencing of requests depends on. *)
Definition core (g : Grid) :=
  (config g, isLoading g, requestId g, pending g, timers g, nextTimer g).

(** At most one invocation of [loadServerData] is suspended; its local
    [requestId] is the last one issued and [isLoading] is set while it is
    suspended; the identifiers of the pending timers are below the next
    one. *)
Definition sequenced (g : Grid) : Prop :=
  match pending g with
  | [] => True
  | [call] => call_requestId call = requestId g /\ isLoading g = true
  | _ => False
  end
  /\ Forall (fun t => (tm_id t < nextTimer g)%nat) (timers g).

(** The rows, the total and the number of [serverDataLoaded] events. *)
Definition kept (g : Grid) :=
  (originalData g, filteredData g, totalRecords g, count is_data_loaded g).

(** [++this.requestId] *)
Definition issued (g : Grid) : Grid := set_requestId (requestId g + 1) g.

(** The ways an attempt fails without being cancelled: [fetch] rejects,
    the status is not a success, [response.json()] rejects, or the parsed
    body carries an error or no array of rows.  [respond] is the server's
    answer as a function of the token it received. *)
Inductive Failure : Type :=
| NetworkFailure (e : JsError)
| HttpFailure (status : Z) (statusText : string)
| BodyFailure (e : JsError)
| ResultFailure (respond : Z -> value).

Definition is_abort (e : JsError) : bool := err_name e =? "AbortError".

(** The parsed [result] for the request [token] is not discarded as stale
    and is thrown to the [catch] block. *)
Definition result_fails (cfg : Config) (token : Z) (result : value) : bool :=
  let sr := cfg_serverResponse cfg in
  let responseDraw := getNestedValue result (r_draw sr) in
  negb (truthy responseDraw && negb (strict_eq_num responseDraw (num_of_Z token)))
  && (truthy (getNestedValue result (r_error sr))
      || negb (isArray (getNestedValue result (r_data sr)))).

Definition failing (cfg : Config) (f : Failure) : Prop :=
  match f with
  | NetworkFailure e | BodyFailure e => is_abort e = false
  | HttpFailure _ _ => True
  | ResultFailure respond => forall token, result_fails cfg token (respond token) = true
  end.

(** The transport settles the suspended request with the failure [f]. *)
Definition fail_with (f : Failure) (g : Grid) : Grid :=
  match pending g with
  | call :: _ =>
      let c := call_controller call in
      match f with
      | NetworkFailure e => fetch_settles c (FetchRejected e) g
      | HttpFailure status statusText =>
          fetch_settles c (FetchResponse false status statusText) g
      | BodyFailure e =>
          json_settles c (JsonRejected e)
            (fetch_settles c (FetchResponse true 200 "OK") g)
      | ResultFailure respond =>
          json_settles c (JsonParsed (respond (call_requestId call)))
            (fetch_settles c (FetchResponse true 200 "OK") g)
      end
  | [] => g
  end.

Definition is_retry (t : Timer) : bool :=
  match tm_action t with RetryLoad => true | _ => false end.

(** The host lets the delay of the pending retry pass and runs it. *)
Definition run_retry (g : Grid) : Grid :=
  match find is_retry (timers g) with
  | Some t => timer_fires (tm_id t) (elapse (tm_deadline t - now g) g)
  | None => g
  end.


(** What a failed attempt leaves alone. *)
Definition untouched (g g' : Grid) : Prop :=
  config g' = config g /\ kept g' = kept g /\ view_state g' = view_state g
  /\ now g' = now g.

(** The state in which the [catch] block of a failed attempt starts. *)
Definition failure_start (g g0 : Grid) : Prop :=
  untouched g g0
  /\ retryCount g0 = retryCount g
  /\ pending g0 = []
  /\ requestId g0 = requestId g
  /\ nextTimer g0 = nextTimer g
  /\ trace g0 = trace g
  /\ (find is_retry (timers g) = None -> find is_retry (timers g0) = None)
  /\ (Forall (fun t => (tm_id t < nextTimer g)%nat) (timers g) ->
      Forall (fun t => (tm_id t < nextTimer g)%nat) (timers g0)).

(** The busy flag, the controller of the current request and the suspended
    invocations. *)
Definition busy_part (g : Grid) := (pending g, isLoading g, currentRequest g).

(** The busy flag is set exactly while an invocation of [loadServerData] is
    suspended, and [currentRequest] is then the controller of its request. *)
Definition busy_exact (g : Grid) : Prop :=
  match pending g with
  | [] => isLoading g = false /\ currentRequest g = None
  | [call] => isLoading g = true /\ currentRequest g = Some (call_controller call)
  | _ => False
  end.

(** A suspended attempt with no retry waiting. *)
Definition attempting (cfg : Config) (g : Grid) : Prop :=
  config g = cfg
  /\ (exists call, pending g = [call] /\ call_stage call = AwaitFetch)
  /\ find is_retry (timers g) = None
  /\ Forall (fun t => (tm_id t < nextTimer g)%nat) (timers g).

Definition is_debounce (t : Timer) : bool :=
  match tm_action t with DebouncedSearch => true | _ => false end.

Definition is_search_event (x : Effect) : bool :=
  match x with Emit (SEARCH _) => true | _ => false end.

(** The pending debounce timers are the one [searchTimeout] names. *)
Definition debounce_tracked (g : Grid) : Prop :=
  forall t, In t (timers g) -> is_debounce t = true ->
            searchTimeout g = Some (tm_id t).

(** [g'] has the [searchTimeout] of [g] and no debounce timer that [g]
    has not. *)
Definition no_new_debounce (g g' : Grid) : Prop :=
  searchTimeout g' = searchTimeout g
  /\ (forall t, In t (timers g') -> is_debounce t = true -> In t (timers g)).

(** The fields the debounce depends on. *)
Definition debounce_part (g : Grid) := (searchTimeout g, timers g).

(** Input events on the search box, time passing and the host trying
    timers, with less than the debounce delay passing after each input;
    [since] is the time passed since the last input. *)
Fixpoint burst (since : Z) (script : list Stimulus) : Prop :=
  match script with
  | [] => True
  | InputSearch _ :: rest => burst 0 rest
  | Elapse ms :: rest =>
      (since + Z.max 0 ms < DEFAULTS_SEARCH_DEBOUNCE_DELAY)%Z
      /\ burst (since + Z.max 0 ms) rest
  | TimerFires _ :: rest => burst since rest
  | _ => False
  end.

(** The time passed since the last input at the end of a burst. *)
Fixpoint burst_end (since : Z) (script : list Stimulus) : Z :=
  match script with
  | [] => since
  | InputSearch _ :: rest => burst_end 0 rest
  | Elapse ms :: rest => burst_end (since + Z.max 0 ms) rest
  | _ :: rest => burst_end since rest
  end.

(** The text of the search box at the end of a burst. *)
Fixpoint last_input (text : string) (script : list Stimulus) : string :=
  match script with
  | [] => text
  | InputSearch t :: rest => last_input t rest
  | _ :: rest => last_input text rest
  end.

(** The search box holds [text], and the timer [id] set [since] ago by the
    last input is the one debounce timer pending. *)
Definition waiting (g : Grid) (since : Z) (text : string) (id : nat) : Prop :=
  cfg_searchable (config g) = true
  /\ searchInput g = text
  /\ searchTimeout g = Some id
  /\ In {| tm_id := id;
           tm_deadline := now g - since + DEFAULTS_SEARCH_DEBOUNCE_DELAY;
           tm_action := DebouncedSearch |} (timers g)
  /\ (forall t, In t (timers g) -> tm_id t = id -> is_debounce t = true)
  /\ (forall t, In t (timers g) -> is_debounce t = true ->
                t = {| tm_id := id;
                       tm_deadline := now g - since + DEFAULTS_SEARCH_DEBOUNCE_DELAY;
                       tm_action := DebouncedSearch |}).

(** One step of a walk along a path, with [miss] for a segment that is not
    there. *)
Definition walk_step (miss : value) (current : value) (k : string) : value :=
  if truthy current && negb (is_undefined (get_prop current k))
  then get_prop current k else miss.

(** The timer that the last input has set. *)
Definition debounce_timer (g : Grid) (since : Z) (id : nat) : Timer :=
  {| tm_id := id;
     tm_deadline := now g - since + DEFAULTS_SEARCH_DEBOUNCE_DELAY;
     tm_action := DebouncedSearch |}.

(** The buttons of a row of page items number the pages upwards from
    [prev], and an ellipsis stands exactly where page numbers are left out:
    a button that follows a button shows the next number, a button that
    follows an ellipsis ([skipped]) a later one, and no ellipsis stands
    last or next to another. *)
Fixpoint gaps_marked (prev : Z) (skipped : bool) (items : list PageItem) : Prop :=
  match items with
  | [] => skipped = false
  | PageEllipsis :: rest => skipped = false /\ gaps_marked prev true rest
  | PageButton pageNum _ :: rest =>
      exists k : Z,
        pageNum = num_of_Z k
        /\ (if skipped then (prev + 1 < k)%Z else k = (prev + 1)%Z)
        /\ gaps_marked k false rest
  end.

Definition is_button (item : PageItem) : bool :=
  match item with PageButton _ _ => true | PageEllipsis => false end.

(** The buttons for the pages [first], ..., [first + count - 1]. *)
Definition page_run (g : Grid) (first : Z) (count : nat) : list PageItem :=
  map (fun i => createPageButton i g)
      (map (fun k => num_of_Z (first + Z.of_nat k)) (seq 0 count)).

(** ** Facts about numbers and selection sets *)

Lemma Qle_bool_inject_Z (a b : Z) :
  Qle_bool (inject_Z a) (inject_Z b) = (a <=? b)%Z.
Proof.
  unfold Qle_bool, inject_Z. simpl. now rewrite !Z.mul_1_r.
Qed.

Lemma Qeq_bool_inject_Z (a b : Z) :
  Qeq_bool (inject_Z a) (inject_Z b) = (a =? b)%Z.
Proof.
  apply eq_true_iff_eq.
  rewrite Qeq_bool_iff, Z.eqb_eq. apply inject_Z_injective.
Qed.

Lemma num_ltb_Z (a b : Z) : num_ltb (num_of_Z a) (num_of_Z b) = (a <? b)%Z.
Proof.
  unfold num_ltb, num_of_Z. rewrite Qle_bool_inject_Z.
  rewrite Z.ltb_antisym. reflexivity.
Qed.

Lemma num_leb_Z (a b : Z) : num_leb (num_of_Z a) (num_of_Z b) = (a <=? b)%Z.
Proof. unfold num_leb, num_of_Z. apply Qle_bool_inject_Z. Qed.

Lemma num_eqb_Z (a b : Z) : num_eqb (num_of_Z a) (num_of_Z b) = (a =? b)%Z.
Proof. unfold num_eqb, num_of_Z. apply Qeq_bool_inject_Z. Qed.

Lemma num_to_index_Z (i : Z) : (0 <= i)%Z -> num_to_index (num_of_Z i) = i.
Proof.
  intros Hi. unfold num_to_index, num_of_Z.
  change 0%Q with (inject_Z 0). rewrite Qle_bool_inject_Z.
  apply Z.leb_le in Hi. rewrite Hi. apply Qfloor_Z.
Qed.

(** A number that is at least 1 is not below 1. *)
Lemma num_geb_not_ltb (n m : number) : num_geb n m = true -> num_ltb n m = false.
Proof.
  unfold num_geb, num_leb, num_ltb.
  destruct n as [x| |a], m as [y| |b]; simpl; try discriminate; try easy.
  - intros H. now rewrite H.
  - destruct b; simpl; congruence.
  - destruct a; simpl; congruence.
  - destruct a, b; simpl; congruence.
Qed.

Lemma In_set_add (x j : Z) (s : list Z) : In j (set_add x s) <-> In j s \/ j = x.
Proof.
  unfold set_add. destruct (existsb (Z.eqb x) s) eqn:E.
  - split; [now left|]. intros [H|H]; [exact H|]. subst.
    apply existsb_exists in E. destruct E as [y [Hy Hxy]].
    apply Z.eqb_eq in Hxy. now subst.
  - rewrite in_app_iff. simpl. split.
    + intros [H|[H|[]]]; [now left|now right].
    + intros [H|H]; [now left|right; now left].
Qed.

Lemma In_set_delete_num (i j : Z) (s : list Z) :
  In j (set_delete_num (num_of_Z i) s) <-> In j s /\ j <> i.
Proof.
  unfold set_delete_num. rewrite filter_In. rewrite num_eqb_Z.
  rewrite negb_true_iff, Z.eqb_neq. reflexivity.
Qed.

(** The [forEach] of [removeRow], started from any set [acc]. *)
Lemma In_shift_from (i : Z) (sel acc : list Z) (j : Z) :
  In j (fold_left
          (fun newSelectedRows selectedIndex =>
             if num_gtb (num_of_Z selectedIndex) (num_of_Z i)
             then set_add (selectedIndex - 1) newSelectedRows
             else if num_ltb (num_of_Z selectedIndex) (num_of_Z i)
                  then set_add selectedIndex newSelectedRows
                  else newSelectedRows) sel acc)
  <-> In j acc
      \/ (exists k, In k sel /\ ((i < k /\ j = k - 1) \/ (k < i /\ j = k)))%Z.
Proof.
  revert acc. induction sel as [|k sel IH]; intros acc; cbn [fold_left].
  - split; [now left|]. intros [H|[k [[] _]]]. exact H.
  - rewrite IH. unfold num_gtb. rewrite !num_ltb_Z.
    destruct (i <? k)%Z eqn:E1; [|destruct (k <? i)%Z eqn:E2].
    + apply Z.ltb_lt in E1. rewrite In_set_add. split.
      * intros [[H|H]|[k' [Hk' Hc]]].
        -- now left.
        -- right. exists k. split; [now left|left; lia].
        -- right. exists k'. split; [now right|exact Hc].
      * intros [H|[k' [[Hk'|Hk'] Hc]]].
        -- left. now left.
        -- subst k'. left. right. lia.
        -- right. exists k'. now split.
    + apply Z.ltb_lt in E2. rewrite In_set_add. split.
      * intros [[H|H]|[k' [Hk' Hc]]].
        -- now left.
        -- right. exists k. split; [now left|right; lia].
        -- right. exists k'. split; [now right|exact Hc].
      * intros [H|[k' [[Hk'|Hk'] Hc]]].
        -- left. now left.
        -- subst k'. left. right. lia.
        -- right. exists k'. now split.
    + apply Z.ltb_ge in E1. apply Z.ltb_ge in E2. split.
      * intros [H|[k' [Hk' Hc]]]; [now left|].
        right. exists k'. split; [now right|exact Hc].
      * intros [H|[k' [[Hk'|Hk'] Hc]]]; [now left| |].
        -- subst k'. lia.
        -- right. exists k'. now split.
Qed.

Lemma In_shift_selection (i : Z) (sel : list Z) (j : Z) :
  In j (shift_selection (num_of_Z i) sel)
  <-> (exists k, In k sel /\ ((i < k /\ j = k - 1) \/ (k < i /\ j = k)))%Z.
Proof.
  unfold shift_selection. rewrite In_shift_from. simpl.
  split; [intros [[]|H]; exact H | intros H; now right].
Qed.

Lemma nth_error_remove_at {A : Type} (i : Z) (l : list A) (j : Z) :
  (0 <= i)%Z -> (0 <= j)%Z -> j <> i ->
  nth_error (remove_at i l) (Z.to_nat (if (j <? i)%Z then j else j - 1))
  = nth_error l (Z.to_nat j).
Proof.
  intros Hi Hj Hne. unfold remove_at.
  destruct (i <? 0)%Z eqn:E; [apply Z.ltb_lt in E; lia|].
  destruct (j <? i)%Z eqn:E1.
  - apply Z.ltb_lt in E1.
    destruct (Nat.le_gt_cases (List.length l) (Z.to_nat i)) as [Hlen|Hlen].
    + rewrite firstn_all2 by exact Hlen.
      rewrite skipn_all2 by lia. now rewrite app_nil_r.
    + rewrite nth_error_app1 by (rewrite length_firstn; lia).
      rewrite nth_error_firstn.
      destruct (Z.to_nat j <? Z.to_nat i)%nat eqn:E2; [reflexivity|].
      apply Nat.ltb_ge in E2. lia.
  - apply Z.ltb_ge in E1.
    destruct (Nat.le_gt_cases (List.length l) (Z.to_nat i)) as [Hlen|Hlen].
    + rewrite firstn_all2 by exact Hlen.
      rewrite skipn_all2 by lia. rewrite app_nil_r.
      rewrite (proj2 (nth_error_None l (Z.to_nat (j - 1)))) by lia.
      symmetry. apply nth_error_None. lia.
    + rewrite nth_error_app2 by (rewrite length_firstn; lia).
      rewrite length_firstn. rewrite nth_error_skipn.
      f_equal. lia.
Qed.

(** ** The selection under [removeRow] *)

(** The arithmetic of [removeRow] on the selection.  In local mode, for a
    valid row index [i], [removeRow(i)] takes [i] out of the selection,
    turns every selected index above [i] into its predecessor and keeps
    every selected index below [i]; a selected index other than [i] then
    stands, in its new place, for the row of [originalData] it stood for
    before the removal.  The selection is read against [filteredData],
    though, which is [originalData] only while no term is in force and the
    rows are not sorted. *)
Theorem removeRow_shifts_selection (g : Grid) (i : Z) :
  cfg_serverSide (config g) = false ->
  (0 <= i < Z.of_nat (List.length (originalData g)))%Z ->
  let g' := removeRow (VInt i) g in
  (forall j, In j (selectedRows g') <->
             ((j < i)%Z /\ In j (selectedRows g))
             \/ ((i <= j)%Z /\ In (j + 1)%Z (selectedRows g)))
  /\ originalData g' = remove_at i (originalData g)
  /\ (forall j, In j (selectedRows g) -> j <> i -> (0 <= j)%Z ->
        let j' := if (j <? i)%Z then j else (j - 1)%Z in
        In j' (selectedRows g')
        /\ nth_error (originalData g') (Z.to_nat j')
           = nth_error (originalData g) (Z.to_nat j)).
Proof.
  intros Hlocal Hi g'.
  assert (Hg' : selectedRows g'
                = shift_selection (num_of_Z i)
                    (set_delete_num (num_of_Z i) (selectedRows g))
                /\ originalData g' = remove_at i (originalData g)).
  { subst g'. unfold removeRow, VInt.
    replace (num_ltb (num_of_Z i) (num_of_Z 0)) with false
      by (rewrite num_ltb_Z; symmetry; apply Z.ltb_ge; lia).
    replace (num_geb (num_of_Z i) (num_of_nat (List.length (originalData g))))
      with false
      by (unfold num_geb, num_of_nat; rewrite num_leb_Z; symmetry;
          apply Z.leb_gt; lia).
    rewrite Hlocal. rewrite !num_to_index_Z by lia. split; reflexivity. }
  destruct Hg' as [Hsel Horig].
  assert (Hmem : forall j, In j (selectedRows g') <->
                           ((j < i)%Z /\ In j (selectedRows g))
                           \/ ((i <= j)%Z /\ In (j + 1)%Z (selectedRows g))).
  { intros j. rewrite Hsel, In_shift_selection. split.
    - intros [k [Hk Hc]]. apply In_set_delete_num in Hk. destruct Hk as [Hk Hne].
      destruct Hc as [[Hlt Hj]|[Hlt Hj]]; subst j.
      + right. split; [lia|]. now replace (k - 1 + 1)%Z with k by lia.
      + left. now split.
    - intros [[Hlt Hj]|[Hle Hj]].
      + exists j. split; [apply In_set_delete_num; split; [exact Hj|lia]|].
        right. now split.
      + exists (j + 1)%Z. split; [apply In_set_delete_num; split; [exact Hj|lia]|].
        left. split; lia. }
  split; [exact Hmem|]. split; [exact Horig|].
  intros j Hj Hne Hpos j'. split.
  - apply Hmem. subst j'. destruct (j <? i)%Z eqn:E.
    + apply Z.ltb_lt in E. left. now split.
    + apply Z.ltb_ge in E. right. split; [lia|].
      now replace (j - 1 + 1)%Z with j by lia.
  - rewrite Horig. subst j'. apply nth_error_remove_at; lia.
Qed.

(** ** What [loadServerData] leaves alone *)

(** Case analysis on a grid whose fields are named: the flags first, so
    that no undecided test stays inside a chain of assignments. *)
Ltac open_grid g :=
  let cfg := fresh "cfg" in
  let ajax := fresh "ajax" in
  let busy := fresh "busy" in
  let current := fresh "current" in
  destruct g as [cfg ? ? ? ? ? ? ? ? ? ? ? busy current ? ? ? ? ? ? ? ? ? ?];
  destruct cfg as [? ? ? ? ? ? ajax ?];
  destruct ajax as [? ? ? ? ? ? ? [|] [|]];
  destruct busy; destruct current.

Ltac split_ifs :=
  repeat (cbn;
          match goal with
          | |- context [if ?c then _ else _] => destruct c eqn:?
          | |- context [match ?c with Some _ => _ | None => _ end] => destruct c eqn:?
          end).

Lemma loadServerData_finally_view (g : Grid) :
  view_state (loadServerData_finally g) = view_state g
  /\ config (loadServerData_finally g) = config g
  /\ retryCount (loadServerData_finally g) = retryCount g
  /\ requestId (loadServerData_finally g) = requestId g
  /\ pending (loadServerData_finally g) = pending g
  /\ timers (loadServerData_finally g) = timers g
  /\ nextTimer (loadServerData_finally g) = nextTimer g
  /\ isLoading (loadServerData_finally g) = false
  /\ currentRequest (loadServerData_finally g) = None.
Proof.
  open_grid g; cbn; repeat split; reflexivity.
Qed.

(** The part of [loadServerData] before the first [await] changes neither
    the view state nor the configuration nor the retry counter. *)
Lemma loadServerData_view (g : Grid) :
  view_state (loadServerData g) = view_state g
  /\ config (loadServerData g) = config g
  /\ retryCount (loadServerData g) = retryCount g.
Proof.
  open_grid g; unfold loadServerData; split_ifs; repeat split; reflexivity.
Qed.

(** ** Page size *)

(** C8 (as amended). [setPageSize(n)] is a no-op with a warning when [n] is
    not a number or is a number below 1; for every number [n] that is at
    least 1, whole or not, the page size becomes [n] and the current page
    becomes 1. *)
Theorem setPageSize_validation (g : Grid) (size : value) :
  ((typeof_number size = false
    \/ exists n, size = VNum n /\ num_ltb n (num_of_Z 1) = true) ->
   setPageSize size g = console_warn "Page size must be a positive number" g)
  /\ (forall n, size = VNum n -> num_geb n (num_of_Z 1) = true ->
        pageSize (setPageSize size g) = n
        /\ currentPage (setPageSize size g) = num_of_Z 1).
Proof.
  split.
  - intros [H|[n [-> H]]].
    + destruct size; try discriminate; reflexivity.
    + unfold setPageSize. now rewrite H.
  - intros n -> H. unfold setPageSize.
    rewrite (num_geb_not_ltb _ _ H).
    destruct (cfg_serverSide (config (set_currentPage (num_of_Z 1) (set_pageSize n g)))).
    + destruct (loadServerData_view (set_currentPage (num_of_Z 1) (set_pageSize n g)))
        as [Hv _].
      unfold view_state in Hv. injection Hv as Hpage Hsize _ _ _ _ _ _ _.
      cbn [emit effect set_trace pageSize currentPage].
      rewrite Hpage, Hsize. split; reflexivity.
    + split; reflexivity.
Qed.

(** ** What holds in every state of the remote path *)

Lemma sequenced_core (g g' : Grid) : core g' = core g -> sequenced g -> sequenced g'.
Proof.
  unfold core, sequenced. intros H. injection H as _ Hl Hr Hp Ht Hn.
  now rewrite Hl, Hr, Hp, Ht, Hn.
Qed.

Lemma core_effect (x : Effect) (g : Grid) : core (effect x g) = core g.
Proof. reflexivity. Qed.

Lemma core_abort (c : nat) (g : Grid) : core (abort c g) = core g.
Proof. reflexivity. Qed.

Lemma Forall_timers_app (n : nat) (ts : list Timer) (a : TimerAction) (d : Z) :
  Forall (fun t => (tm_id t < n)%nat) ts ->
  Forall (fun t => (tm_id t < S n)%nat)
         (ts ++ [ {| tm_id := n; tm_deadline := d; tm_action := a |} ]).
Proof.
  intros H. apply Forall_app. split.
  - eapply Forall_impl; [|exact H]. cbn. intros t Ht. lia.
  - constructor; [cbn; lia|constructor].
Qed.

Lemma Forall_timers_filter (n : nat) (ts : list Timer) (p : Timer -> bool) :
  Forall (fun t => (tm_id t < n)%nat) ts ->
  Forall (fun t => (tm_id t < n)%nat) (filter p ts).
Proof.
  intros H. apply Forall_forall. intros t Ht. apply filter_In in Ht.
  destruct Ht as [Ht _]. revert t Ht. now apply Forall_forall.
Qed.

Lemma sequenced_clearTimeout (id : option nat) (g : Grid) :
  sequenced g -> sequenced (clearTimeout id g).
Proof.
  unfold sequenced. intros [Hp Ht]. destruct id as [i|]; [|now split].
  split; [exact Hp|]. now apply Forall_timers_filter.
Qed.

Lemma sequenced_finally (g : Grid) :
  pending g = [] ->
  Forall (fun t => (tm_id t < nextTimer g)%nat) (timers g) ->
  sequenced (loadServerData_finally g).
Proof.
  intros Hp Ht. unfold sequenced.
  destruct (loadServerData_finally_view g) as (_ & _ & _ & _ & Hp' & Ht' & Hn' & _).
  rewrite Hp', Ht', Hn', Hp. now split.
Qed.

Lemma loadServerData_catch_frame (e : JsError) (g : Grid) :
  view_state (loadServerData_catch e g) = view_state g
  /\ config (loadServerData_catch e g) = config g
  /\ requestId (loadServerData_catch e g) = requestId g
  /\ pending (loadServerData_catch e g) = pending g
  /\ isLoading (loadServerData_catch e g) = isLoading g
  /\ (Forall (fun t => (tm_id t < nextTimer g)%nat) (timers g) ->
      Forall (fun t => (tm_id t < nextTimer (loadServerData_catch e g))%nat)
             (timers (loadServerData_catch e g))).
Proof.
  unfold loadServerData_catch.
  destruct (err_name e =? "AbortError"); [repeat split; auto|].
  destruct (_ <? _)%Z; [|destruct (error _); repeat split; auto].
  repeat split; try reflexivity. cbn. apply Forall_timers_app.
Qed.

(** [loadServerData] keeps the sequencing: a request is sent only when no
    invocation is suspended. *)
Lemma sequenced_loadServerData (g : Grid) :
  sequenced g -> sequenced (loadServerData g).
Proof.
  intros [Hp Ht]. unfold loadServerData.
  destruct (negb _); [now split|].
  set (g1 := match currentRequest g with Some c => abort c g | None => g end).
  assert (Hc : core g1 = core g) by (subst g1; now destruct (currentRequest g)).
  assert (H1 : sequenced g1) by (apply (sequenced_core g); [exact Hc|now split]).
  destruct (isLoading g1) eqn:Hbusy; [exact H1|].
  destruct H1 as [Hp1 Ht1].
  assert (Hnil : pending g1 = []).
  { destruct (pending g1) as [|call [|]]; [reflexivity| |contradiction].
    destruct Hp1 as [_ Hp1]. congruence. }
  match goal with |- context [if ?c then _ else _] => destruct c end.
  - apply sequenced_finally; cbn; [exact Hnil|exact Ht1].
  - unfold sequenced. cbn. rewrite Hnil. cbn. split; [now split|].
    now apply Forall_timers_app.
Qed.

Ltac unfold_effects :=
  unfold emit, console_warn, console_error, console_log, render, showLoading,
    hideLoading, applyFilters.

(** Assignments to the view state and effects do not touch the
    sequencing. *)
Ltac seq :=
  repeat first
    [ assumption
    | apply sequenced_loadServerData
    | apply sequenced_clearTimeout
    | match goal with
      | |- sequenced (if ?c then _ else _) => destruct c
      | |- sequenced (match ?c with Some _ => _ | None => _ end) => destruct c
      | |- sequenced (effect _ ?g) => apply (sequenced_core g); [reflexivity|]
      | |- sequenced (abort _ ?g) => apply (sequenced_core g); [reflexivity|]
      | |- sequenced (set_currentPage _ ?g) => apply (sequenced_core g); [reflexivity|]
      | |- sequenced (set_pageSize _ ?g) => apply (sequenced_core g); [reflexivity|]
      | |- sequenced (set_searchTerm _ ?g) => apply (sequenced_core g); [reflexivity|]
      | |- sequenced (set_sortColumn _ ?g) => apply (sequenced_core g); [reflexivity|]
      | |- sequenced (set_sortDirection _ ?g) => apply (sequenced_core g); [reflexivity|]
      | |- sequenced (set_filteredData _ ?g) => apply (sequenced_core g); [reflexivity|]
      | |- sequenced (set_originalData _ ?g) => apply (sequenced_core g); [reflexivity|]
      | |- sequenced (set_config_data _ ?g) => apply (sequenced_core g); [reflexivity|]
      | |- sequenced (set_selectedRows _ ?g) => apply (sequenced_core g); [reflexivity|]
      | |- sequenced (set_searchInput _ ?g) => apply (sequenced_core g); [reflexivity|]
      | |- sequenced (set_searchTimeout _ ?g) => apply (sequenced_core g); [reflexivity|]
      | |- sequenced (set_now _ ?g) => apply (sequenced_core g); [reflexivity|]
      end ].

Lemma sequenced_search (term : value) (g : Grid) :
  sequenced g -> sequenced (search term g).
Proof. intros H. unfold search. unfold_effects. cbv zeta. seq. Qed.

Lemma sequenced_sort (column direction : value) (g : Grid) :
  sequenced g -> sequenced (sort column direction g).
Proof.
  intros H. unfold sort, sort_reconcile, sort_update. unfold_effects.
  destruct column; cbv zeta; seq.
Qed.

Lemma sequenced_goToPage (page : number) (g : Grid) :
  sequenced g -> sequenced (goToPage page g).
Proof. intros H. unfold goToPage. unfold_effects. cbv zeta. seq. Qed.

Lemma sequenced_setPageSize (size : value) (g : Grid) :
  sequenced g -> sequenced (setPageSize size g).
Proof.
  intros H. unfold setPageSize. unfold_effects. destruct size; cbv zeta; seq.
Qed.

Lemma sequenced_selectRow (index : Z) (selected : bool) (g : Grid) :
  sequenced g -> sequenced (selectRow index selected g).
Proof. intros H. unfold selectRow. unfold_effects. cbv zeta. seq. Qed.

Lemma sequenced_removeRow (index : value) (g : Grid) :
  sequenced g -> sequenced (removeRow index g).
Proof.
  intros H. unfold removeRow. unfold_effects. destruct index; cbv zeta; seq.
Qed.

Lemma sequenced_refresh (g : Grid) : sequenced g -> sequenced (refresh g).
Proof. intros H. unfold refresh. unfold_effects. seq. Qed.

Lemma sequenced_setTimeout (a : TimerAction) (d : Z) (g : Grid) :
  sequenced g -> sequenced (setTimeout a d g).
Proof.
  intros [Hp Ht]. unfold sequenced, setTimeout. cbn. split; [exact Hp|].
  now apply Forall_timers_app.
Qed.

Lemma sequenced_debouncedSearch (text : string) (g : Grid) :
  sequenced g -> sequenced (debouncedSearch text g).
Proof.
  intros H. unfold debouncedSearch. destruct (cfg_searchable _); [|exact H].
  cbv zeta. apply sequenced_setTimeout. seq.
Qed.

Lemma sequenced_timer_fires (id : nat) (g : Grid) :
  sequenced g -> sequenced (timer_fires id g).
Proof.
  intros H. unfold timer_fires. destruct (find _ _) as [t|]; [|exact H].
  destruct (_ <=? _)%Z; [|exact H].
  destruct (tm_action t); cbn [run_timer].
  - apply sequenced_search. now apply sequenced_clearTimeout.
  - seq.
  - seq.
Qed.

(** The suspended invocation a settlement resumes. *)
Lemma find_call_sequenced (c : nat) (stage : Stage) (g : Grid) (call : Call) :
  sequenced g -> find_call c stage g = Some call ->
  pending g = [call] /\ call_controller call = c /\ call_stage call = stage
  /\ call_requestId call = requestId g
  /\ pending (remove_call c g) = [].
Proof.
  intros [Hp _] Hf. unfold find_call in Hf.
  destruct (pending g) as [|k [|]] eqn:E; [discriminate| |contradiction].
  cbn in Hf. destruct ((call_controller k =? c)%nat) eqn:Ec; [|discriminate].
  destruct (stage_eqb (call_stage k) stage) eqn:Es; [|discriminate].
  injection Hf as <-. apply Nat.eqb_eq in Ec.
  repeat split; try tauto.
  - destruct (call_stage k), stage; try discriminate; reflexivity.
  - unfold remove_call. cbn. rewrite E. cbn.
    apply Nat.eqb_eq in Ec. now rewrite Ec.
Qed.

Lemma sequenced_failed (e : JsError) (g : Grid) :
  pending g = [] ->
  Forall (fun t => (tm_id t < nextTimer g)%nat) (timers g) ->
  sequenced (loadServerData_finally (loadServerData_catch e g)).
Proof.
  intros Hp Ht.
  destruct (loadServerData_catch_frame e g) as (_ & _ & _ & Hp' & _ & Ht').
  apply sequenced_finally; [congruence|auto].
Qed.

Lemma sequenced_fetch_settles (c : nat) (r : FetchResult) (g : Grid) :
  sequenced g -> sequenced (fetch_settles c r g).
Proof.
  intros H. unfold fetch_settles.
  destruct (find_call c AwaitFetch g) as [call|] eqn:Hf; [|exact H].
  destruct (find_call_sequenced _ _ _ _ H Hf) as (Hp & Hc & Hs & Hr & Hrm).
  destruct H as [Hseq Ht].
  destruct r as [e|ok status statusText].
  - apply sequenced_failed; [exact Hrm|exact Ht].
  - cbv zeta. destruct ok.
    + unfold sequenced, park_at_json. cbn. rewrite Hp in *. cbn.
      rewrite Hc, Nat.eqb_refl. cbn. split; [exact Hseq|].
      now apply Forall_timers_filter.
    + apply sequenced_failed.
      * unfold remove_call in *. cbn in *. exact Hrm.
      * cbn. now apply Forall_timers_filter.
Qed.

Lemma sequenced_result (call : Call) (result : value) (g : Grid) :
  pending g = [] ->
  Forall (fun t => (tm_id t < nextTimer g)%nat) (timers g) ->
  sequenced (loadServerData_result call result g).
Proof.
  intros Hp Ht. unfold loadServerData_result. cbv zeta.
  destruct (_ && _).
  - apply sequenced_finally; assumption.
  - destruct (truthy _); [now apply sequenced_failed|].
    destruct (getNestedValue result (r_data _)) as [ | | | | |items| ].
    6: (apply sequenced_finally; [exact Hp|exact Ht]).
    all: apply sequenced_failed; assumption.
Qed.

Lemma sequenced_json_settles (c : nat) (r : JsonResult) (g : Grid) :
  sequenced g -> sequenced (json_settles c r g).
Proof.
  intros H. unfold json_settles.
  destruct (find_call c AwaitJson g) as [call|] eqn:Hf; [|exact H].
  destruct (find_call_sequenced _ _ _ _ H Hf) as (Hp & Hc & Hs & Hr & Hrm).
  destruct H as [Hseq Ht].
  destruct r as [e|result].
  - apply sequenced_failed; [exact Hrm|exact Ht].
  - apply sequenced_result; [exact Hrm|exact Ht].
Qed.

Lemma sequenced_step (g : Grid) (s : Stimulus) :
  sequenced g -> sequenced (step g s).
Proof.
  intros H. destruct s; cbn [step].
  - now apply sequenced_search.
  - now apply sequenced_sort.
  - now apply sequenced_goToPage.
  - now apply sequenced_setPageSize.
  - now apply sequenced_selectRow.
  - now apply sequenced_removeRow.
  - now apply sequenced_refresh.
  - now apply sequenced_debouncedSearch.
  - unfold elapse. seq.
  - now apply sequenced_timer_fires.
  - now apply sequenced_fetch_settles.
  - now apply sequenced_json_settles.
Qed.

Lemma sequenced_run (script : list Stimulus) (g : Grid) :
  sequenced g -> sequenced (run g script).
Proof.
  revert g. induction script as [|s script IH]; intros g H; [exact H|].
  cbn. apply IH. now apply sequenced_step.
Qed.

Lemma sequenced_initial (cfg : Config) : sequenced (initial cfg).
Proof. unfold sequenced. cbn. split; [exact I|constructor]. Qed.

Lemma sequenced_reachable (cfg : Config) (g : Grid) :
  reachable cfg g -> sequenced g.
Proof.
  intros (g0 & script & Hnew & ->). apply sequenced_run.
  unfold QMGrid_new in Hnew.
  destruct (cfg_serverSide cfg).
  - destruct (url_set _); [|discriminate]. injection Hnew as <-.
    apply sequenced_loadServerData, sequenced_initial.
  - injection Hnew as <-. apply (sequenced_core (initial cfg)); [reflexivity|].
    apply sequenced_initial.
Qed.

(** ** What only a commit changes *)

Lemma kept_loadServerData (g : Grid) : kept (loadServerData g) = kept g.
Proof. open_grid g; unfold loadServerData; split_ifs; reflexivity. Qed.

Lemma kept_finally (g : Grid) : kept (loadServerData_finally g) = kept g.
Proof. open_grid g; reflexivity. Qed.

Lemma kept_catch (e : JsError) (g : Grid) : kept (loadServerData_catch e g) = kept g.
Proof.
  unfold loadServerData_catch.
  destruct (err_name e =? "AbortError"); [reflexivity|].
  destruct (_ <? _)%Z; [reflexivity|]. destruct (error _); reflexivity.
Qed.

Lemma config_loadServerData (g : Grid) : config (loadServerData g) = config g.
Proof. apply loadServerData_view. Qed.

Lemma config_finally (g : Grid) : config (loadServerData_finally g) = config g.
Proof. apply loadServerData_finally_view. Qed.

Lemma config_catch (e : JsError) (g : Grid) : config (loadServerData_catch e g) = config g.
Proof. apply loadServerData_catch_frame. Qed.

Ltac plain_update f :=
  lazymatch f with
  | effect => idtac
  | abort => idtac
  | set_pageSize => idtac
  | set_config_data => idtac
  | set_currentPage => idtac
  | set_sortColumn => idtac
  | set_sortDirection => idtac
  | set_searchTerm => idtac
  | set_selectedRows => idtac
  | set_filteredData => idtac
  | set_originalData => idtac
  | set_totalRecords => idtac
  | set_searchTimeout => idtac
  | set_isLoading => idtac
  | set_currentRequest => idtac
  | set_requestId => idtac
  | set_retryCount => idtac
  | set_searchInput => idtac
  | set_now => idtac
  | set_timers => idtac
  | set_nextTimer => idtac
  | set_pending => idtac
  | setTimeout _ => idtac
  | clearTimeout => idtac
  | remove_call => idtac
  | park_at_json => idtac
  end.

(** Goals [F (op g) = F g0] for a projection [F] that [op] leaves alone. *)
Ltac frame :=
  repeat first
    [ reflexivity
    | assumption
    | match goal with
      | |- _ (if ?c then _ else _) = _ =>
          let E := fresh "E" in destruct c eqn:E; try (cbn in E; congruence)
      | |- _ (match ?c with Some _ => _ | None => _ end) = _ => destruct c
      | |- ?F (loadServerData ?g) = _ =>
          transitivity (F g);
          [first [apply kept_loadServerData | apply config_loadServerData]|]
      | |- ?F (loadServerData_finally ?g) = _ =>
          transitivity (F g);
          [first [apply kept_finally | apply config_finally]|]
      | |- ?F (loadServerData_catch ?e ?g) = _ =>
          transitivity (F g);
          [first [apply kept_catch | apply config_catch]|]
      | |- ?F (?f ?x ?g) = _ =>
          plain_update f; transitivity (F g);
          [first [reflexivity | destruct x; reflexivity]|]
      end ].

Lemma config_result (call : Call) (result : value) (g : Grid) :
  config (loadServerData_result call result g) = config g.
Proof.
  unfold loadServerData_result. unfold_effects. cbv zeta.
  destruct (_ && _); [frame|]. destruct (truthy _); [frame|].
  destruct (getNestedValue result (r_data _)); frame.
Qed.

Lemma config_step (g : Grid) (s : Stimulus) : config (step g s) = config g.
Proof.
  destruct s; cbn [step].
  - unfold search. unfold_effects. cbv zeta. frame.
  - unfold sort, sort_reconcile, sort_update. unfold_effects.
    destruct column; cbv zeta; frame.
  - unfold goToPage. unfold_effects. cbv zeta. frame.
  - unfold setPageSize. unfold_effects. destruct size; cbv zeta; frame.
  - unfold selectRow. unfold_effects. cbv zeta. frame.
  - unfold removeRow. unfold_effects. destruct index; cbv zeta; frame.
  - unfold refresh. unfold_effects. frame.
  - unfold debouncedSearch. cbv zeta. frame.
  - reflexivity.
  - unfold timer_fires. destruct (find _ _) as [t|]; [|reflexivity].
    destruct (_ <=? _)%Z; [|reflexivity].
    destruct (tm_action t); cbn [run_timer].
    + unfold search. unfold_effects. cbv zeta. frame.
    + frame.
    + frame.
  - unfold fetch_settles. destruct (find_call _ _ _); [|reflexivity].
    destruct r; cbv zeta; frame.
  - unfold json_settles. destruct (find_call _ _ _); [|reflexivity].
    destruct r; [frame|]. rewrite config_result. frame.
Qed.

Lemma config_run (script : list Stimulus) (g : Grid) : config (run g script) = config g.
Proof.
  revert g. induction script as [|s script IH]; intros g; [reflexivity|].
  change (config (run (step g s) script) = config g).
  rewrite IH. apply config_step.
Qed.

Lemma config_reachable (cfg : Config) (g : Grid) : reachable cfg g -> config g = cfg.
Proof.
  intros (g0 & script & Hnew & ->). rewrite config_run.
  unfold QMGrid_new in Hnew. destruct (cfg_serverSide cfg).
  - destruct (url_set _); [|discriminate]. injection Hnew as <-.
    apply config_loadServerData.
  - now injection Hnew as <-.
Qed.

Lemma kept_search_remote (term : value) (g : Grid) :
  cfg_serverSide (config g) = true -> kept (search term g) = kept g.
Proof. intros H. unfold search. unfold_effects. cbv zeta. frame. Qed.

Lemma kept_sort_remote (column direction : value) (g : Grid) :
  cfg_serverSide (config g) = true -> kept (sort column direction g) = kept g.
Proof.
  intros H. unfold sort. unfold_effects. destruct column; try reflexivity.
  destruct (s =? ""); [reflexivity|]. destruct (negb _); [reflexivity|].
  cbv zeta. unfold sort_reconcile, sort_update. unfold_effects. cbv zeta.
  set (d := if is_undefined direction then VNull else direction).
  destruct (truthy d && negb (is_direction d)); cbv iota;
    match goal with
    | |- context [string_opt_eqb ?a ?b && is_null ?c] =>
        destruct (string_opt_eqb a b && is_null c)
    end; frame.
Qed.

Lemma kept_result_stale (call : Call) (result : value) (g : Grid) :
  truthy (getNestedValue result (r_draw (cfg_serverResponse (config g)))) = true ->
  strict_eq_num (getNestedValue result (r_draw (cfg_serverResponse (config g))))
                (num_of_Z (call_requestId call)) = false ->
  kept (loadServerData_result call result g) = kept g
  /\ view_state (loadServerData_result call result g) = view_state g.
Proof.
  intros Ht He. unfold loadServerData_result. cbv zeta. rewrite Ht, He. cbn [andb negb].
  split.
  - rewrite kept_finally. reflexivity.
  - destruct (loadServerData_finally_view
                (console_warn "Response draw ID mismatch, ignoring stale response" g))
      as (Hv & _).
    rewrite Hv. reflexivity.
Qed.

(** In remote mode no step other than the continuation of a parsed response
    changes the rows, the total or the number of [serverDataLoaded] events. *)
Lemma kept_step_remote (g : Grid) (s : Stimulus) :
  cfg_serverSide (config g) = true ->
  (forall c result, s <> JsonSettles c (JsonParsed result)) ->
  kept (step g s) = kept g.
Proof.
  intros H Hs. destruct s; cbn [step].
  - now apply kept_search_remote.
  - now apply kept_sort_remote.
  - unfold goToPage. unfold_effects. cbv zeta. frame.
  - unfold setPageSize. unfold_effects. destruct size; cbv zeta; frame.
  - unfold selectRow. unfold_effects. cbv zeta. frame.
  - unfold removeRow. unfold_effects. destruct index; cbv zeta; frame.
  - unfold refresh. unfold_effects. frame.
  - unfold debouncedSearch. cbv zeta. frame.
  - reflexivity.
  - unfold timer_fires. destruct (find _ _) as [t|]; [|reflexivity].
    destruct (_ <=? _)%Z; [|reflexivity].
    destruct (tm_action t); cbn [run_timer].
    + rewrite kept_search_remote by exact H. reflexivity.
    + frame.
    + frame.
  - unfold fetch_settles. destruct (find_call _ _ _); [|reflexivity].
    destruct r; cbv zeta; frame.
  - unfold json_settles. destruct (find_call _ _ _); [|reflexivity].
    destruct r as [e|result]; [frame|]. now destruct (Hs controller result).
Qed.

(** ** Stale responses *)

(** C1 (as amended). In remote mode, in every state the grid can reach, each
    suspended request carries the latest issued token (no request is sent
    while another is suspended, so no response of an older request can
    arrive once a newer one has been issued).  The rows, the total and the
    [serverDataLoaded] events change only when a parsed response is resumed
    whose echoed token is absent (falsy) or strictly equal to that token;
    a response whose echoed token is present and differs is discarded: the
    rows, the total and the rest of the view state stay as they are. *)
Theorem commit_requires_latest_token (cfg : Config) (g : Grid) (s : Stimulus) :
  cfg_serverSide cfg = true ->
  reachable cfg g ->
  (forall call, In call (pending g) -> call_requestId call = requestId g)
  /\ (kept (step g s) <> kept g ->
      exists c result,
        s = JsonSettles c (JsonParsed result)
        /\ (truthy (getNestedValue result (r_draw (cfg_serverResponse cfg))) = false
            \/ strict_eq_num (getNestedValue result (r_draw (cfg_serverResponse cfg)))
                             (num_of_Z (requestId g)) = true))
  /\ (forall c result,
        truthy (getNestedValue result (r_draw (cfg_serverResponse cfg))) = true ->
        strict_eq_num (getNestedValue result (r_draw (cfg_serverResponse cfg)))
                      (num_of_Z (requestId g)) = false ->
        kept (json_settles c (JsonParsed result) g) = kept g
        /\ view_state (json_settles c (JsonParsed result) g) = view_state g).
Proof.
  intros Hremote Hreach.
  pose proof (sequenced_reachable _ _ Hreach) as Hseq.
  pose proof (config_reachable _ _ Hreach) as Hcfg.
  assert (Hpending : forall call, In call (pending g) ->
                                  call_requestId call = requestId g).
  { intros call Hin. destruct Hseq as [Hp _].
    destruct (pending g) as [|k [|]]; [destruct Hin| |contradiction].
    destruct Hin as [<-|[]]. apply Hp. }
  assert (Hstale : forall c result,
             truthy (getNestedValue result (r_draw (cfg_serverResponse cfg))) = true ->
             strict_eq_num (getNestedValue result (r_draw (cfg_serverResponse cfg)))
                           (num_of_Z (requestId g)) = false ->
             kept (json_settles c (JsonParsed result) g) = kept g
             /\ view_state (json_settles c (JsonParsed result) g) = view_state g).
  { intros c result Ht He. unfold json_settles.
    destruct (find_call c AwaitJson g) as [call|] eqn:Hf; [|split; reflexivity].
    destruct (find_call_sequenced _ _ _ _ Hseq Hf) as (Hp & _ & _ & Hr & _).
    destruct (kept_result_stale call result (remove_call c g)) as [Hk Hv].
    - cbn [remove_call config set_pending]. now rewrite Hcfg.
    - cbn [remove_call config set_pending]. now rewrite Hcfg, Hr.
    - rewrite Hk, Hv. split; reflexivity. }
  split; [exact Hpending|]. split; [|exact Hstale].
  intros Hchanged.
  destruct s;
    try (exfalso; apply Hchanged; apply kept_step_remote;
         [now rewrite Hcfg | intros; discriminate]).
  destruct r as [e|result];
    [exfalso; apply Hchanged; apply kept_step_remote;
     [now rewrite Hcfg | intros; discriminate]|].
  exists controller, result. split; [reflexivity|].
  destruct (truthy (getNestedValue result (r_draw (cfg_serverResponse cfg)))) eqn:Ht;
    [|now left].
  destruct (strict_eq_num (getNestedValue result (r_draw (cfg_serverResponse cfg)))
                          (num_of_Z (requestId g))) eqn:He; [now right|].
  exfalso. apply Hchanged. cbn [step]. now apply Hstale.
Qed.

(** ** The three ways [loadServerData] goes *)

Lemma vetoed_issued (g : Grid) :
  vetoed (set_requestId
            (requestId (emit (SERVER_REQUEST_START
                                (request_info (showLoading (set_isLoading true g))))
                          (showLoading (set_isLoading true g))) + 1)
            (emit (SERVER_REQUEST_START
                     (request_info (showLoading (set_isLoading true g))))
                  (showLoading (set_isLoading true g))))
  = vetoed (issued g).
Proof. reflexivity. Qed.

(** While a request is suspended, [loadServerData] aborts it and returns:
    nothing is sent. *)
Lemma loadServerData_busy (g : Grid) :
  url_set (url (cfg_ajax (config g))) = true ->
  isLoading g = true ->
  loadServerData g = match currentRequest g with
                     | Some c => abort c g
                     | None => g
                     end.
Proof.
  intros Hurl Hbusy. unfold loadServerData. rewrite Hurl. cbn [negb].
  destruct (currentRequest g); cbn; now rewrite Hbusy.
Qed.

(** The pre-send hook returned [false]. *)
Lemma loadServerData_vetoed (g : Grid) :
  url_set (url (cfg_ajax (config g))) = true ->
  isLoading g = false ->
  currentRequest g = None ->
  vetoed (issued g) = true ->
  loadServerData g
  = loadServerData_finally
      (hideLoading
         (set_isLoading false
            (issued (emit (SERVER_REQUEST_START (request_info g))
                       (showLoading (set_isLoading true g)))))).
Proof.
  intros Hurl Hidle Hcur Hveto. unfold loadServerData.
  rewrite Hurl, Hcur, Hidle. cbn [negb]. cbv zeta.
  rewrite vetoed_issued, Hveto. reflexivity.
Qed.

(** The request goes out. *)
Lemma loadServerData_sent (g : Grid) :
  url_set (url (cfg_ajax (config g))) = true ->
  isLoading g = false ->
  currentRequest g = None ->
  vetoed (issued g) = false ->
  pending (loadServerData g)
  = (pending g ++ [ {| call_requestId := requestId g + 1;
                       call_controller := nextController g;
                       call_timeoutId := nextTimer g;
                       call_stage := AwaitFetch |} ])%list
  /\ timers (loadServerData g)
     = (timers g ++ [ {| tm_id := nextTimer g;
                         tm_deadline := now g + Z.max 0 (timeout (cfg_ajax (config g)));
                         tm_action := TimeoutAbort (nextController g) |} ])%list
  /\ trace (loadServerData g)
     = Fetch (nextController g) (method (cfg_ajax (config g))) (request_data (issued g))
         :: Emit (SERVER_REQUEST_START (request_info g)) :: ShowLoading :: trace g
  /\ isLoading (loadServerData g) = true
  /\ currentRequest (loadServerData g) = Some (nextController g)
  /\ requestId (loadServerData g) = requestId g + 1
  /\ retryCount (loadServerData g) = retryCount g
  /\ nextTimer (loadServerData g) = S (nextTimer g)
  /\ now (loadServerData g) = now g.
Proof.
  intros Hurl Hidle Hcur Hveto. unfold loadServerData.
  rewrite Hurl, Hcur, Hidle. cbn [negb]. cbv zeta.
  rewrite vetoed_issued, Hveto. repeat split; reflexivity.
Qed.

(** ** A vetoed request *)

(** C4 (as amended). When the pre-send hook returns [false], no transport
    call is made, nothing is left pending, the view state is unchanged and
    neither [serverDataLoaded] nor [serverError] is emitted; the
    reconciliation still emits [serverRequestStart] before the hook is
    asked and, leaving through [finally], calls the [complete] hook and
    emits [serverRequestEnd]; the request counter has advanced by one. *)
Theorem vetoed_request_effects (g : Grid) :
  url_set (url (cfg_ajax (config g))) = true ->
  isLoading g = false ->
  currentRequest g = None ->
  vetoed (issued g) = true ->
  let g' := loadServerData g in
  count is_fetch g' = count is_fetch g
  /\ pending g' = pending g
  /\ timers g' = timers g
  /\ view_state g' = view_state g
  /\ count is_data_loaded g' = count is_data_loaded g
  /\ count is_server_error g' = count is_server_error g
  /\ trace g'
     = (Emit (SERVER_REQUEST_END (request_info g))
          :: (if complete (cfg_ajax (config g)) then [CompleteHook] else [])
          ++ [HideLoading; HideLoading;
              Emit (SERVER_REQUEST_START (request_info g)); ShowLoading]
          ++ trace g)%list
  /\ count is_emit g' = (2 + count is_emit g)%nat
  /\ requestId g' = requestId g + 1
  /\ isLoading g' = false.
Proof.
  intros Hurl Hidle Hcur Hveto g'. subst g'.
  rewrite (loadServerData_vetoed g Hurl Hidle Hcur Hveto).
  unfold loadServerData_finally, issued, count. cbn.
  destruct (complete (cfg_ajax (config g))); cbn; repeat split; reflexivity.
Qed.

(** ** Failures and the retry budget *)

Lemma untouched_refl (g : Grid) : untouched g g.
Proof. repeat split. Qed.

Lemma untouched_trans (g1 g2 g3 : Grid) :
  untouched g1 g2 -> untouched g2 g3 -> untouched g1 g3.
Proof.
  unfold untouched. intros (A1 & A2 & A3 & A4) (B1 & B2 & B3 & B4).
  repeat split; congruence.
Qed.

(** A failure while retries remain: the counter goes up and a retry is set. *)
Lemma failed_with_retry (e : JsError) (g : Grid) :
  is_abort e = false ->
  (retryCount g < retryAttempts (cfg_ajax (config g)))%Z ->
  let g1 := loadServerData_finally (loadServerData_catch e g) in
  untouched g g1
  /\ retryCount g1 = retryCount g + 1
  /\ timers g1
     = (timers g
          ++ [ {| tm_id := nextTimer g;
                  tm_deadline := now g + Z.max 0 (retryDelay (cfg_ajax (config g))
                                                  * (retryCount g + 1));
                  tm_action := RetryLoad |} ])%list
  /\ nextTimer g1 = S (nextTimer g)
  /\ pending g1 = pending g
  /\ isLoading g1 = false
  /\ currentRequest g1 = None
  /\ requestId g1 = requestId g
  /\ count is_server_error g1 = count is_server_error g.
Proof.
  intros Hab Hlt g1. subst g1. unfold loadServerData_catch. cbv zeta.
  unfold is_abort in Hab. rewrite Hab.
  apply Z.ltb_lt in Hlt.
  cbn [retryCount config console_error effect set_trace]. rewrite Hlt.
  unfold loadServerData_finally, untouched, kept, view_state, count.
  destruct (complete (cfg_ajax (config g))) eqn:Hc; cbn; rewrite Hc; cbn;
    repeat split; reflexivity.
Qed.


Lemma find_call_single (g : Grid) (call : Call) :
  pending g = [call] ->
  find_call (call_controller call) (call_stage call) g = Some call.
Proof.
  intros Hp. unfold find_call. rewrite Hp. cbn. rewrite Nat.eqb_refl.
  now destruct (call_stage call).
Qed.

Lemma find_filter_none {A : Type} (p q : A -> bool) (l : list A) :
  find p l = None -> find p (filter q l) = None.
Proof.
  induction l as [|x l IH]; cbn; [reflexivity|].
  destruct (p x) eqn:Hp; [discriminate|]. intros H.
  destruct (q x); cbn; [rewrite Hp|]; auto.
Qed.

Lemma failure_start_removed (g : Grid) (call : Call) :
  pending g = [call] ->
  failure_start g (remove_call (call_controller call) g).
Proof.
  intros Hp. unfold failure_start, untouched, remove_call.
  repeat split; auto. cbn. rewrite Hp. cbn. now rewrite Nat.eqb_refl.
Qed.

Lemma failure_start_cleared (g : Grid) (call : Call) (id : nat) :
  pending g = [call] ->
  failure_start g (remove_call (call_controller call) (clearTimeout (Some id) g)).
Proof.
  intros Hp. unfold failure_start, untouched, remove_call.
  repeat split; auto.
  - cbn. rewrite Hp. cbn. now rewrite Nat.eqb_refl.
  - cbn. apply find_filter_none.
  - cbn. apply Forall_timers_filter.
Qed.

Lemma failure_start_parked (g : Grid) (call : Call) (id : nat) :
  pending g = [call] ->
  failure_start g
    (remove_call (call_controller call)
       (park_at_json (call_controller call) (clearTimeout (Some id) g))).
Proof.
  intros Hp. unfold failure_start, untouched, remove_call, park_at_json.
  repeat split; auto.
  - cbn. rewrite Hp. cbn. rewrite Nat.eqb_refl. cbn. now rewrite Nat.eqb_refl.
  - cbn. apply find_filter_none.
  - cbn. apply Forall_timers_filter.
Qed.

(** Every failure enters the [catch] block with an error that is not a
    cancellation. *)
Lemma fail_with_catch (cfg : Config) (f : Failure) (g : Grid) (call : Call) :
  config g = cfg ->
  pending g = [call] ->
  call_stage call = AwaitFetch ->
  failing cfg f ->
  exists e g0,
    fail_with f g = loadServerData_finally (loadServerData_catch e g0)
    /\ is_abort e = false
    /\ failure_start g g0.
Proof.
  intros Hcfg Hp Hs Hf. unfold fail_with. rewrite Hp. cbv zeta.
  pose proof (find_call_single g call Hp) as Hfind. rewrite Hs in Hfind.
  set (c := call_controller call) in *.
  set (parked := {| call_requestId := call_requestId call;
                    call_controller := call_controller call;
                    call_timeoutId := call_timeoutId call;
                    call_stage := AwaitJson |}).
  assert (Hpark : fetch_settles c (FetchResponse true 200 "OK") g
                  = park_at_json c (clearTimeout (Some (call_timeoutId call)) g)).
  { unfold fetch_settles. now rewrite Hfind. }
  assert (Hfind2 : find_call c AwaitJson
                     (park_at_json c (clearTimeout (Some (call_timeoutId call)) g))
                   = Some parked).
  { unfold find_call, park_at_json. cbn. rewrite Hp. cbn. subst c.
    rewrite Nat.eqb_refl. cbn. now rewrite Nat.eqb_refl. }
  destruct f as [e|status statusText|e|respond]; cbn in Hf.
  - exists e, (remove_call c g). unfold fetch_settles. rewrite Hfind.
    split; [reflexivity|]. split; [exact Hf|]. now apply failure_start_removed.
  - eexists (Error _), (remove_call c (clearTimeout (Some (call_timeoutId call)) g)).
    unfold fetch_settles. rewrite Hfind.
    split; [reflexivity|]. split; [reflexivity|]. now apply failure_start_cleared.
  - exists e, (remove_call c (park_at_json c (clearTimeout (Some (call_timeoutId call)) g))).
    rewrite Hpark. unfold json_settles. rewrite Hfind2.
    split; [reflexivity|]. split; [exact Hf|]. now apply failure_start_parked.
  - rewrite Hpark. unfold json_settles. rewrite Hfind2.
    specialize (Hf (call_requestId call)).
    unfold result_fails in Hf. cbv zeta in Hf.
    apply andb_true_iff in Hf. destruct Hf as [Hfresh Hbad].
    apply negb_true_iff in Hfresh.
    unfold loadServerData_result. cbv zeta.
    replace (config (remove_call c (park_at_json c
               (clearTimeout (Some (call_timeoutId call)) g)))) with cfg
      by (symmetry; exact Hcfg).
    change (call_requestId parked) with (call_requestId call).
    rewrite Hfresh.
    destruct (truthy (getNestedValue (respond (call_requestId call))
                        (r_error (cfg_serverResponse cfg)))) eqn:Herr.
    + eexists (Error _), _. split; [reflexivity|]. split; [reflexivity|].
      now apply failure_start_parked.
    + cbn in Hbad. apply negb_true_iff in Hbad.
      destruct (getNestedValue (respond (call_requestId call))
                  (r_data (cfg_serverResponse cfg))); try discriminate;
        (eexists (Error _), _; split; [reflexivity|]; split; [reflexivity|];
         now apply failure_start_parked).
Qed.

Lemma find_app_none {A : Type} (p : A -> bool) (l : list A) (x : A) :
  find p l = None -> find p (l ++ [x]) = if p x then Some x else None.
Proof.
  induction l as [|y l IH]; cbn; [reflexivity|].
  destruct (p y); [discriminate|exact IH].
Qed.

Lemma find_id_fresh (n : nat) (ts : list Timer) (t : Timer) :
  Forall (fun t => (tm_id t < n)%nat) ts -> tm_id t = n ->
  find (fun t => (tm_id t =? n)%nat) (ts ++ [t]) = Some t
  /\ filter (fun t => negb (tm_id t =? n)%nat) (ts ++ [t]) = ts.
Proof.
  intros Hts Hid. induction ts as [|y ts IH]; cbn.
  - rewrite Hid, Nat.eqb_refl. now split.
  - inversion Hts as [|? ? Hy Hrest]; subst.
    destruct (Nat.eqb_spec (tm_id y) (tm_id t)) as [E|E]; [lia|]. cbn.
    destruct (IH Hrest) as [H1 H2]. split; [exact H1|]. now rewrite H2.
Qed.

(** The retry that a failure has set is run: a new request goes out. *)
Lemma run_retry_sends (cfg : Config) (g : Grid) (ts : list Timer) (n : nat) (d : Z) :
  url_set (url (cfg_ajax cfg)) = true ->
  beforeSend (cfg_ajax cfg) = None ->
  config g = cfg ->
  pending g = [] -> isLoading g = false -> currentRequest g = None ->
  timers g = (ts ++ [ {| tm_id := n; tm_deadline := now g + Z.max 0 d;
                         tm_action := RetryLoad |} ])%list ->
  find is_retry ts = None ->
  Forall (fun t => (tm_id t < n)%nat) ts ->
  nextTimer g = S n ->
  attempting cfg (run_retry g)
  /\ retryCount (run_retry g) = retryCount g
  /\ kept (run_retry g) = kept g
  /\ count is_server_error (run_retry g) = count is_server_error g.
Proof.
  intros Hurl Hhook Hcfg Hp Hidle Hcur Ht Hnone Hfresh Hnext.
  set (t := {| tm_id := n; tm_deadline := now g + Z.max 0 d; tm_action := RetryLoad |}) in *.
  unfold run_retry. rewrite Ht, (find_app_none _ _ t Hnone). cbn [is_retry tm_action t].
  unfold timer_fires. cbn [timers elapse set_now tm_id t].
  destruct (find_id_fresh n ts t Hfresh eq_refl) as [Hfind Hfilter].
  rewrite Ht, Hfind.
  replace (tm_deadline t <=? now (elapse (tm_deadline t - now g) g))%Z with true
    by (symmetry; apply Z.leb_le; cbn; lia).
  cbn [tm_action t run_timer].
  set (gc := clearTimeout (Some n) (elapse (tm_deadline t - now g) g)).
  assert (Hgc_timers : timers gc = ts).
  { subst gc. cbn. now rewrite Ht. }
  assert (Hveto : vetoed (issued gc) = false).
  { unfold vetoed. cbn [config issued set_requestId]. subst gc. cbn [config clearTimeout elapse set_timers set_now].
    now rewrite Hcfg, Hhook. }
  destruct (loadServerData_sent gc) as (Sp & St & Str & Sl & Sc & Sr & Src & Sn & _);
    [subst gc; cbn; now rewrite Hcfg | exact Hidle | exact Hcur | exact Hveto |].
  repeat split.
  - rewrite config_loadServerData. exact Hcfg.
  - eexists. rewrite Sp. split; [subst gc; cbn; rewrite Hp; reflexivity|reflexivity].
  - rewrite St, Hgc_timers. now rewrite (find_app_none _ _ _ Hnone).
  - rewrite St, Sn, Hgc_timers.
    replace (nextTimer gc) with (S n) by (subst gc; cbn; now rewrite Hnext).
    apply Forall_timers_app. eapply Forall_impl; [|exact Hfresh]. cbn. intros; lia.
  - exact Src.
  - rewrite kept_loadServerData. reflexivity.
  - unfold count. rewrite Str. reflexivity.
Qed.







(** ** Local mode: what the filter keeps *)

Lemma prefix_iff (a b : string) :
  String.prefix a b = true <-> exists post, b = a ++ post.
Proof.
  revert b. induction a as [|c a IH]; intros b.
  - destruct b; cbn; split; eauto.
  - destruct b as [|d b]; cbn.
    + split; [discriminate|]. intros [post H]. discriminate.
    + destruct (ascii_dec c d) as [->|Hne].
      * rewrite IH. split; intros [post H]; exists post.
        -- now rewrite H.
        -- now injection H.
      * split; [discriminate|]. intros [post H]. injection H as H _. congruence.
Qed.

(** [includes] is the substring test. *)
Lemma includes_iff (s sub : string) :
  includes s sub = true <-> exists pre post, s = pre ++ sub ++ post.
Proof.
  induction s as [|c s IH]; cbn [includes].
  - destruct (String.prefix sub "") eqn:E.
    + apply prefix_iff in E. destruct E as [post E].
      split; [|reflexivity]. intros _. exists "", post. exact E.
    + split; [discriminate|]. intros (pre & post & H).
      destruct pre; [|discriminate]. cbn in H.
      assert (String.prefix sub "" = true) by (apply prefix_iff; eauto). congruence.
  - destruct (String.prefix sub (String c s)) eqn:E.
    + apply prefix_iff in E. destruct E as [post E].
      split; [|reflexivity]. intros _. exists "", post. exact E.
    + rewrite IH. split.
      * intros (pre & post & ->). exists (String c pre), post. reflexivity.
      * intros (pre & post & H). destruct pre as [|d pre].
        -- cbn in H. assert (String.prefix sub (String c s) = true)
             by (apply prefix_iff; eauto). congruence.
        -- injection H as _ H. eauto.
Qed.

Lemma toLowerCase_empty (s : string) : toLowerCase s = "" <-> s = "".
Proof. destruct s; cbn; split; intros H; try discriminate; reflexivity. Qed.

(** In local mode [search(term)] keeps the rows of [originalData] that, for
    a term that is not empty, have in some configured column a truthy cell
    whose lower-cased text contains the lower-cased term. *)
Lemma local_search_keeps (term : string) (g : Grid) (row : value) :
  cfg_serverSide (config g) = false ->
  In row (filteredData (search (VStr term) g))
  <-> In row (originalData g)
      /\ (term = ""
          \/ exists column,
               In column (cfg_columns (config g))
               /\ truthy (getCellValue row (key column)) = true
               /\ exists pre post,
                    toLowerCase (js_toString (getCellValue row (key column)))
                    = pre ++ toLowerCase term ++ post).
Proof.
  intros Hlocal. unfold search. cbv zeta.
  cbn [config set_searchTerm]. rewrite Hlocal.
  cbn [emit effect render applyFilters filteredData set_trace set_currentPage
       set_filteredData originalData set_searchTerm config searchTerm].
  rewrite filter_In. unfold row_matches.
  destruct (toLowerCase term =? "") eqn:E.
  - apply String.eqb_eq in E. apply (proj1 (toLowerCase_empty term)) in E. subst.
    split; intros [Hin _]; split; auto.
  - apply String.eqb_neq in E. rewrite existsb_exists.
    split; intros [Hin H]; split; try exact Hin.
    + right. destruct H as (column & Hc & Hm). apply andb_true_iff in Hm.
      destruct Hm as [Ht Hi]. apply includes_iff in Hi. eauto.
    + destruct H as [->|(column & Hc & Ht & Hi)]; [now destruct E|].
      exists column. split; [exact Hc|]. rewrite Ht. now apply includes_iff.
Qed.

(** ** Sorting *)

Definition column_exists (c : string) (g : Grid) : bool :=
  existsb (fun col => key col =? c) (cfg_columns (config g)).

(** A column that is not configured, or no column name at all: a no-op
    with a warning. *)
Lemma sort_unknown_column (c : string) (direction : value) (g : Grid) :
  column_exists c g = false ->
  exists message, sort (VStr c) direction g = console_warn message g.
Proof.
  intros H. unfold sort. destruct (c =? ""); [eauto|].
  unfold column_exists in H. rewrite H. cbn [negb]. eauto.
Qed.

Lemma sort_reconcile_state (c : string) (g : Grid) :
  sortColumn (sort_reconcile c g) = sortColumn g
  /\ sortDirection (sort_reconcile c g) = sortDirection g
  /\ (cfg_serverSide (config g) = true ->
      currentPage (sort_reconcile c g) = num_of_Z 1)
  /\ (cfg_serverSide (config g) = false ->
      currentPage (sort_reconcile c g) = currentPage g).
Proof.
  unfold sort_reconcile. cbv zeta.
  destruct (cfg_serverSide (config g)).
  - destruct (loadServerData_view (set_currentPage (num_of_Z 1) g)) as [Hv _].
    unfold view_state in Hv. injection Hv as Hp _ Hc Hd _ _ _ _ _.
    cbn [emit effect set_trace sortColumn sortDirection currentPage].
    rewrite Hp, Hc, Hd. repeat split; try reflexivity. discriminate.
  - repeat split; try reflexivity. discriminate.
Qed.

(** What a successful [sort] does to the sort state and to the page: the
    column is set; with no direction the direction is flipped when the
    column is the current one; a direction ['asc'] or ['desc'] is set as
    given; the page becomes 1 in remote mode and stays in local mode. *)
Lemma sort_state (c : string) (direction : value) (g : Grid) :
  c <> "" -> column_exists c g = true ->
  let g' := sort (VStr c) direction g in
  sortColumn g' = Some c
  /\ (direction = VUndefined \/ direction = VNull ->
      sortDirection g' = if string_opt_eqb (sortColumn g) c
                         then flip (sortDirection g) else Asc)
  /\ (forall d, direction = VStr (direction_name d) -> sortDirection g' = d)
  /\ (cfg_serverSide (config g) = true -> currentPage g' = num_of_Z 1)
  /\ (cfg_serverSide (config g) = false -> currentPage g' = currentPage g).
Proof.
  intros Hc Hex g'. subst g'. unfold sort.
  apply String.eqb_neq in Hc. rewrite Hc.
  unfold column_exists in Hex. rewrite Hex. cbn [negb]. cbv zeta.
  set (d := if is_undefined direction then VNull else direction).
  set (invalid := truthy d && negb (is_direction d)).
  set (g1 := if invalid then _ else g).
  set (d1 := if invalid then VNull else d).
  assert (H1 : sortColumn g1 = sortColumn g /\ sortDirection g1 = sortDirection g
               /\ config g1 = config g /\ currentPage g1 = currentPage g)
    by (subst g1; destruct invalid; repeat split).
  destruct H1 as (H1c & H1d & H1f & H1p).
  destruct (sort_reconcile_state c (sort_update c d1 g1)) as (Rc & Rd & Rr & Rl).
  rewrite Rc, Rd.
  assert (Hcfg : config (sort_update c d1 g1) = config g)
    by (unfold sort_update;
        destruct (string_opt_eqb (sortColumn g1) c && is_null d1); exact H1f).
  assert (Hpg : currentPage (sort_update c d1 g1) = currentPage g)
    by (unfold sort_update;
        destruct (string_opt_eqb (sortColumn g1) c && is_null d1); exact H1p).
  rewrite Hcfg in Rr, Rl. rewrite Hpg in Rl.
  split; [|split; [|split; [|split]]]; try assumption.
  - unfold sort_update. rewrite H1c.
    destruct (string_opt_eqb (sortColumn g) c && is_null d1) eqn:E; [|reflexivity].
    apply andb_true_iff in E. destruct E as [E _].
    cbn [sortColumn set_sortDirection]. rewrite H1c.
    destruct (sortColumn g) as [c0|]; [|discriminate].
    cbn in E. apply String.eqb_eq in E. now subst.
  - intros Hd. assert (Hnull : d1 = VNull).
    { subst d1 invalid d. destruct Hd as [-> | ->]; reflexivity. }
    unfold sort_update. rewrite Hnull, H1c, H1d. cbn [is_null]. rewrite andb_true_r.
    destruct (string_opt_eqb (sortColumn g) c); reflexivity.
  - intros dd ->. assert (Hd1 : d1 = VStr (direction_name dd)).
    { subst d1 invalid d. destruct dd; reflexivity. }
    unfold sort_update. rewrite Hd1. cbn [is_null]. rewrite andb_false_r.
    destruct dd; reflexivity.
Qed.

(** ** How many requests a reconciliation sends *)

(** With no hook to veto it, [loadServerData] sends one request when the
    grid is idle and none while a request is suspended. *)
Lemma loadServerData_fetches (g : Grid) :
  url_set (url (cfg_ajax (config g))) = true ->
  beforeSend (cfg_ajax (config g)) = None ->
  count is_fetch (loadServerData g)
  = if isLoading g then count is_fetch g else S (count is_fetch g).
Proof.
  intros Hurl Hhook. unfold loadServerData. rewrite Hurl. cbn [negb]. cbv zeta.
  destruct (currentRequest g) as [c|];
    cbn [isLoading abort effect set_trace set_aborted];
    (destruct (isLoading g); [reflexivity|]);
    unfold vetoed; cbn [config set_requestId emit effect set_trace showLoading
                        set_isLoading abort set_aborted];
    rewrite Hhook; reflexivity.
Qed.

(** In remote mode, on an idle grid with no hook to veto it, each mutation
    that passes its validation sends exactly one request. *)
Lemma idle_mutation_sends_once (g : Grid) :
  cfg_serverSide (config g) = true ->
  url_set (url (cfg_ajax (config g))) = true ->
  beforeSend (cfg_ajax (config g)) = None ->
  isLoading g = false ->
  (forall term, count is_fetch (search term g) = S (count is_fetch g))
  /\ (forall c direction,
         c <> "" -> column_exists c g = true ->
         count is_fetch (sort (VStr c) direction g) = S (count is_fetch g))
  /\ (forall page,
         num_geb page (num_of_Z 1) && num_leb page (page_count (totalRecords g) g) = true ->
         count is_fetch (goToPage page g) = S (count is_fetch g))
  /\ (forall n,
         num_geb n (num_of_Z 1) = true ->
         count is_fetch (setPageSize (VNum n) g) = S (count is_fetch g)).
Proof.
  intros Hremote Hurl Hhook Hidle.
  assert (Hone : forall g0 : Grid,
             config g0 = config g -> isLoading g0 = false ->
             count is_fetch g0 = count is_fetch g ->
             forall e, count is_fetch (emit e (loadServerData g0)) = S (count is_fetch g)).
  { intros g0 Hc Hi Hn e.
    change (count is_fetch (emit e (loadServerData g0)))
      with (count is_fetch (loadServerData g0)).
    rewrite loadServerData_fetches by (rewrite Hc; assumption).
    now rewrite Hi, Hn. }
  repeat split.
  - intros term. unfold search. cbv zeta. cbn [config set_searchTerm].
    rewrite Hremote. now apply Hone.
  - intros c direction Hc Hex. unfold sort.
    apply String.eqb_neq in Hc. rewrite Hc.
    unfold column_exists in Hex. rewrite Hex. cbn [negb]. cbv zeta.
    set (d := if is_undefined direction then VNull else direction).
    unfold sort_reconcile, sort_update. cbv zeta.
    destruct (truthy d && negb (is_direction d)); cbv iota;
      match goal with
      | |- context [string_opt_eqb ?a c && is_null ?b] =>
          destruct (string_opt_eqb a c && is_null b)
      end;
      cbn [config set_sortDirection set_sortColumn console_warn effect set_trace];
      rewrite Hremote; now apply Hone.
  - intros page Hvalid. unfold goToPage. rewrite Hremote, Hvalid. now apply Hone.
  - intros n Hn. unfold setPageSize. rewrite (num_geb_not_ltb _ _ Hn). cbv zeta.
    cbn [config set_currentPage set_pageSize]. rewrite Hremote. now apply Hone.
Qed.

(** ** The debounce of the search box *)

Lemma no_new_debounce_refl (g : Grid) : no_new_debounce g g.
Proof. split; auto. Qed.

Lemma no_new_debounce_trans (g1 g2 g3 : Grid) :
  no_new_debounce g1 g2 -> no_new_debounce g2 g3 -> no_new_debounce g1 g3.
Proof.
  intros [A1 A2] [B1 B2]. split; [congruence|]. intros t Ht Hd. auto.
Qed.

Lemma no_new_debounce_same (g g' : Grid) :
  searchTimeout g' = searchTimeout g -> timers g' = timers g ->
  no_new_debounce g g'.
Proof. intros H1 H2. split; [exact H1|]. intros t Ht _. now rewrite <- H2. Qed.

Lemma no_new_debounce_part (g g' : Grid) :
  debounce_part g' = debounce_part g -> no_new_debounce g g'.
Proof.
  unfold debounce_part. intros H. injection H as H1 H2.
  now apply no_new_debounce_same.
Qed.

Lemma no_new_debounce_clearTimeout (id : option nat) (g : Grid) :
  no_new_debounce g (clearTimeout id g).
Proof.
  destruct id as [i|]; [|apply no_new_debounce_refl].
  split; [reflexivity|]. cbn. intros t Ht _. apply filter_In in Ht. tauto.
Qed.

Lemma no_new_debounce_setTimeout (a : TimerAction) (d : Z) (g : Grid) :
  a <> DebouncedSearch -> no_new_debounce g (setTimeout a d g).
Proof.
  intros Ha. split; [reflexivity|]. cbn. intros t Ht Hd.
  apply in_app_iff in Ht. destruct Ht as [Ht|[<-|[]]]; [exact Ht|].
  unfold is_debounce in Hd. cbn in Hd. destruct a; try discriminate. congruence.
Qed.

Lemma no_new_debounce_finally (g : Grid) :
  no_new_debounce g (loadServerData_finally g).
Proof.
  apply no_new_debounce_same.
  - unfold loadServerData_finally. cbv zeta.
    destruct (complete _); reflexivity.
  - apply loadServerData_finally_view.
Qed.

Lemma no_new_debounce_catch (e : JsError) (g : Grid) :
  no_new_debounce g (loadServerData_catch e g).
Proof.
  unfold loadServerData_catch. cbv zeta.
  destruct (err_name e =? "AbortError"); [now apply no_new_debounce_same|].
  destruct (_ <? _)%Z.
  - eapply no_new_debounce_trans; [|apply no_new_debounce_setTimeout; discriminate].
    now apply no_new_debounce_same.
  - destruct (error _); now apply no_new_debounce_same.
Qed.

(** What [loadServerData] does to the timers and to the search box. *)
Lemma loadServerData_timers (g : Grid) :
  searchInput (loadServerData g) = searchInput g
  /\ searchTimeout (loadServerData g) = searchTimeout g
  /\ now (loadServerData g) = now g
  /\ count is_search_event (loadServerData g) = count is_search_event g
  /\ (timers (loadServerData g) = timers g
      \/ exists d c,
           timers (loadServerData g)
           = (timers g ++ [ {| tm_id := nextTimer g; tm_deadline := d;
                               tm_action := TimeoutAbort c |} ])%list).
Proof.
  open_grid g; unfold loadServerData; split_ifs;
    (split; [|split; [|split; [|split]]]); try reflexivity;
    first [left; reflexivity | right; eexists; eexists; reflexivity].
Qed.

Lemma no_new_debounce_loadServerData (g : Grid) :
  no_new_debounce g (loadServerData g).
Proof.
  destruct (loadServerData_timers g) as (_ & Hs & _ & _ & [Ht|(d & c & Ht)]).
  - now apply no_new_debounce_same.
  - split; [exact Hs|]. rewrite Ht. intros t Hin Hd.
    apply in_app_iff in Hin. destruct Hin as [Hin|[<-|[]]]; [exact Hin|discriminate].
Qed.

Ltac nodeb :=
  repeat first
    [ match goal with
      | |- no_new_debounce ?g ?g => apply no_new_debounce_refl
      | |- no_new_debounce _ (if ?c then _ else _) => destruct c
      | |- no_new_debounce _ (match ?c with Some _ => _ | None => _ end) => destruct c
      | |- no_new_debounce ?g (loadServerData ?h) =>
          apply (no_new_debounce_trans g h); [|apply no_new_debounce_loadServerData]
      | |- no_new_debounce ?g (loadServerData_finally ?h) =>
          apply (no_new_debounce_trans g h); [|apply no_new_debounce_finally]
      | |- no_new_debounce ?g (loadServerData_catch ?e ?h) =>
          apply (no_new_debounce_trans g h); [|apply no_new_debounce_catch]
      | |- no_new_debounce ?g (clearTimeout ?i ?h) =>
          apply (no_new_debounce_trans g h); [|apply no_new_debounce_clearTimeout]
      | |- no_new_debounce ?g (?f ?x ?h) =>
          plain_update f; apply (no_new_debounce_trans g h);
          [|apply (fun x' h' => no_new_debounce_part h' (f x' h') eq_refl)]
      end ].

Lemma no_new_debounce_search (term : value) (g : Grid) :
  no_new_debounce g (search term g).
Proof. unfold search. unfold_effects. cbv zeta. nodeb. Qed.

Lemma no_new_debounce_result (call : Call) (result : value) (g : Grid) :
  no_new_debounce g (loadServerData_result call result g).
Proof.
  unfold loadServerData_result. unfold_effects. cbv zeta.
  destruct (_ && _); [nodeb|]. destruct (truthy _); [nodeb|].
  destruct (getNestedValue result (r_data _)); nodeb.
Qed.

(** Every step but an input on the search box leaves the debounce alone. *)
Lemma no_new_debounce_step (g : Grid) (s : Stimulus) :
  (forall text, s <> InputSearch text) ->
  no_new_debounce g (step g s).
Proof.
  intros Hs. destruct s; cbn [step].
  - apply no_new_debounce_search.
  - unfold sort, sort_reconcile, sort_update. unfold_effects.
    destruct column; cbv zeta; nodeb.
  - unfold goToPage. unfold_effects. cbv zeta. nodeb.
  - unfold setPageSize. unfold_effects. destruct size; cbv zeta; nodeb.
  - unfold selectRow. unfold_effects. cbv zeta. nodeb.
  - unfold removeRow. unfold_effects. destruct index; cbv zeta; nodeb.
  - unfold refresh. unfold_effects. nodeb.
  - now destruct (Hs text).
  - now apply no_new_debounce_same.
  - unfold timer_fires. destruct (find _ _) as [t|]; [|apply no_new_debounce_refl].
    destruct (_ <=? _)%Z; [|apply no_new_debounce_refl].
    destruct (tm_action t); cbn [run_timer].
    + eapply no_new_debounce_trans; [apply no_new_debounce_clearTimeout|].
      apply no_new_debounce_search.
    + nodeb.
    + nodeb.
  - unfold fetch_settles. destruct (find_call _ _ _); [|apply no_new_debounce_refl].
    destruct r; cbv zeta; nodeb.
  - unfold json_settles. destruct (find_call _ _ _); [|apply no_new_debounce_refl].
    destruct r; [nodeb|].
    eapply no_new_debounce_trans; [|apply no_new_debounce_result].
    now apply no_new_debounce_same.
Qed.

Lemma debounce_tracked_kept (g g' : Grid) :
  no_new_debounce g g' -> debounce_tracked g -> debounce_tracked g'.
Proof.
  intros [Hs Ht] Hd t Hin Hdeb. rewrite Hs. apply Hd; auto.
Qed.

(** ** The busy flag *)

Lemma busy_exact_part (g g' : Grid) :
  busy_part g' = busy_part g -> busy_exact g -> busy_exact g'.
Proof.
  unfold busy_part, busy_exact. intros H. injection H as Hp Hl Hc.
  now rewrite Hp, Hl, Hc.
Qed.

Lemma busy_part_catch (e : JsError) (g : Grid) :
  busy_part (loadServerData_catch e g) = busy_part g.
Proof.
  unfold loadServerData_catch.
  destruct (err_name e =? "AbortError"); [reflexivity|].
  destruct (_ <? _)%Z; [reflexivity|]. destruct (error _); reflexivity.
Qed.

Lemma busy_exact_finally (g : Grid) :
  pending g = [] -> busy_exact (loadServerData_finally g).
Proof.
  intros Hp. unfold busy_exact.
  destruct (loadServerData_finally_view g) as (_ & _ & _ & _ & Hp' & _ & _ & Hl & Hc).
  rewrite Hp', Hp. now split.
Qed.

Lemma busy_exact_failed (e : JsError) (g : Grid) :
  pending g = [] -> busy_exact (loadServerData_finally (loadServerData_catch e g)).
Proof.
  intros Hp. apply busy_exact_finally.
  pose proof (busy_part_catch e g) as H. unfold busy_part in H.
  injection H as H _ _. congruence.
Qed.

Lemma busy_exact_loadServerData (g : Grid) :
  busy_exact g -> busy_exact (loadServerData g).
Proof.
  intros H. unfold loadServerData.
  destruct (negb _); [apply (busy_exact_part g); [reflexivity|exact H]|].
  set (g1 := match currentRequest g with Some c => abort c g | None => g end).
  assert (Hc : busy_part g1 = busy_part g) by (subst g1; now destruct (currentRequest g)).
  assert (H1 : busy_exact g1) by (apply (busy_exact_part g); assumption).
  destruct (isLoading g1) eqn:Hbusy; [exact H1|].
  assert (Hnil : pending g1 = []).
  { unfold busy_exact in H1. destruct (pending g1) as [|call [|]];
      [reflexivity| |contradiction]. destruct H1 as [H1 _]. congruence. }
  match goal with |- context [if ?c then _ else _] => destruct c end.
  - apply busy_exact_finally. exact Hnil.
  - unfold busy_exact. cbn. rewrite Hnil. cbn. now split.
Qed.

Lemma busy_exact_clearTimeout (id : option nat) (g : Grid) :
  busy_exact g -> busy_exact (clearTimeout id g).
Proof. intros H. destruct id; [|exact H]. apply (busy_exact_part g); auto. Qed.

Ltac busy :=
  repeat first
    [ assumption
    | apply busy_exact_loadServerData
    | apply busy_exact_clearTimeout
    | match goal with
      | |- busy_exact (if ?c then _ else _) => destruct c
      | |- busy_exact (match ?c with Some _ => _ | None => _ end) => destruct c
      | |- busy_exact (?f ?x ?h) =>
          plain_update f;
          apply (busy_exact_part h (f x h)
                   ((fun x' h' => eq_refl : busy_part (f x' h') = busy_part h') x h))
      end ].

Lemma busy_exact_search (term : value) (g : Grid) :
  busy_exact g -> busy_exact (search term g).
Proof. intros H. unfold search. unfold_effects. cbv zeta. busy. Qed.

Lemma find_call_busy (c : nat) (stage : Stage) (g : Grid) (call : Call) :
  busy_exact g -> find_call c stage g = Some call ->
  pending g = [call] /\ call_controller call = c
  /\ pending (remove_call c g) = [].
Proof.
  intros Hb Hf. unfold find_call in Hf. unfold busy_exact in Hb.
  destruct (pending g) as [|k [|]] eqn:E; [discriminate| |contradiction].
  cbn in Hf. destruct ((call_controller k =? c)%nat) eqn:Ec; [|discriminate].
  destruct (stage_eqb (call_stage k) stage); [|discriminate].
  injection Hf as <-. apply Nat.eqb_eq in Ec.
  repeat split; [exact Ec|].
  unfold remove_call. cbn. rewrite E. cbn. rewrite <- Ec. now rewrite Nat.eqb_refl.
Qed.

Lemma busy_exact_fetch_settles (c : nat) (r : FetchResult) (g : Grid) :
  busy_exact g -> busy_exact (fetch_settles c r g).
Proof.
  intros H. unfold fetch_settles.
  destruct (find_call c AwaitFetch g) as [call|] eqn:Hf; [|exact H].
  destruct (find_call_busy _ _ _ _ H Hf) as (Hp & Hc & Hrm).
  destruct r as [e|ok status statusText].
  - now apply busy_exact_failed.
  - cbv zeta. destruct ok.
    + unfold busy_exact in *. unfold park_at_json. cbn. rewrite Hp in *. cbn.
      rewrite Hc, Nat.eqb_refl. cbn. now rewrite <- Hc.
    + apply busy_exact_failed. exact Hrm.
Qed.

Lemma busy_exact_result (call : Call) (result : value) (g : Grid) :
  pending g = [] -> busy_exact (loadServerData_result call result g).
Proof.
  intros Hp. unfold loadServerData_result. cbv zeta.
  destruct (_ && _).
  - now apply busy_exact_finally.
  - destruct (truthy _); [now apply busy_exact_failed|].
    destruct (getNestedValue result (r_data _)) as [ | | | | |items| ].
    6: (apply busy_exact_finally; exact Hp).
    all: apply busy_exact_failed; assumption.
Qed.

Lemma busy_exact_json_settles (c : nat) (r : JsonResult) (g : Grid) :
  busy_exact g -> busy_exact (json_settles c r g).
Proof.
  intros H. unfold json_settles.
  destruct (find_call c AwaitJson g) as [call|] eqn:Hf; [|exact H].
  destruct (find_call_busy _ _ _ _ H Hf) as (Hp & Hc & Hrm).
  destruct r as [e|result].
  - now apply busy_exact_failed.
  - now apply busy_exact_result.
Qed.

Lemma busy_exact_step (g : Grid) (s : Stimulus) :
  busy_exact g -> busy_exact (step g s).
Proof.
  intros H. destruct s; cbn [step].
  - now apply busy_exact_search.
  - unfold sort, sort_reconcile, sort_update. unfold_effects.
    destruct column; cbv zeta; busy.
  - unfold goToPage. unfold_effects. cbv zeta. busy.
  - unfold setPageSize. unfold_effects. destruct size; cbv zeta; busy.
  - unfold selectRow. unfold_effects. cbv zeta. busy.
  - unfold removeRow. unfold_effects. destruct index; cbv zeta; busy.
  - unfold refresh. unfold_effects. busy.
  - unfold debouncedSearch. cbv zeta. busy.
  - unfold elapse. busy.
  - unfold timer_fires. destruct (find _ _) as [t|]; [|exact H].
    destruct (_ <=? _)%Z; [|exact H].
    destruct (tm_action t); cbn [run_timer].
    + apply busy_exact_search. busy.
    + busy.
    + busy.
  - now apply busy_exact_fetch_settles.
  - now apply busy_exact_json_settles.
Qed.

Lemma busy_exact_run (script : list Stimulus) (g : Grid) :
  busy_exact g -> busy_exact (run g script).
Proof.
  revert g. induction script as [|s script IH]; intros g H; [exact H|].
  cbn. apply IH. now apply busy_exact_step.
Qed.

Lemma busy_exact_reachable (cfg : Config) (g : Grid) :
  reachable cfg g -> busy_exact g.
Proof.
  intros (g0 & script & Hnew & ->). apply busy_exact_run.
  unfold QMGrid_new in Hnew.
  destruct (cfg_serverSide cfg).
  - destruct (url_set _); [|discriminate]. injection Hnew as <-.
    apply busy_exact_loadServerData. unfold busy_exact. cbn. now split.
  - injection Hnew as <-. unfold busy_exact. cbn. now split.
Qed.

(** X17. In every state the grid can reach, at most one invocation of
    [loadServerData] is suspended; the busy flag is set exactly while one
    is, and [currentRequest] is then the controller of its request. *)
Theorem busy_while_request_suspended (cfg : Config) (g : Grid) :
  reachable cfg g ->
  (List.length (pending g) <= 1)%nat
  /\ (isLoading g = true <-> pending g <> [])
  /\ (forall c, currentRequest g = Some c
                <-> exists call, pending g = [call] /\ call_controller call = c).
Proof.
  intros Hr. pose proof (busy_exact_reachable cfg g Hr) as H.
  unfold busy_exact in H.
  destruct (pending g) as [|call [|]]; [| |contradiction]; destruct H as [Hl Hc].
  - split; [cbn; lia|]. split.
    + rewrite Hl. split; [discriminate|congruence].
    + intros c. rewrite Hc. split; [discriminate|]. intros (k & Hk & _). discriminate.
  - split; [cbn; lia|]. split.
    + rewrite Hl. split; [discriminate|reflexivity].
    + intros c. rewrite Hc. split.
      * intros E. injection E as <-. now exists call.
      * intros (k & Hk & <-). now injection Hk as <-.
Qed.

(** ** The search box: one search per burst of input *)

Lemma debounce_tracked_input (text : string) (g : Grid) :
  debounce_tracked g -> debounce_tracked (debouncedSearch text g).
Proof.
  intros H. unfold debouncedSearch. destruct (cfg_searchable _); [|exact H].
  cbv zeta. intros t Hin Hd. cbn in Hin |- *.
  apply in_app_iff in Hin. destruct Hin as [Hin|[<-|[]]]; [|reflexivity].
  exfalso. specialize (H t).
  destruct (searchTimeout g) as [i|]; cbn in Hin.
  - apply filter_In in Hin. destruct Hin as [Hin Hne].
    specialize (H Hin Hd). injection H as ->. now rewrite Nat.eqb_refl in Hne.
  - specialize (H Hin Hd). discriminate.
Qed.

Lemma debounce_tracked_step (g : Grid) (s : Stimulus) :
  debounce_tracked g -> debounce_tracked (step g s).
Proof.
  intros H. destruct s; try (apply (debounce_tracked_kept g); [|exact H];
                             apply no_new_debounce_step; discriminate).
  now apply debounce_tracked_input.
Qed.

Lemma debounce_tracked_run (script : list Stimulus) (g : Grid) :
  debounce_tracked g -> debounce_tracked (run g script).
Proof.
  revert g. induction script as [|s script IH]; intros g H; [exact H|].
  cbn. apply IH. now apply debounce_tracked_step.
Qed.

Lemma debounce_tracked_reachable (cfg : Config) (g : Grid) :
  reachable cfg g -> debounce_tracked g.
Proof.
  intros (g0 & script & Hnew & ->). apply debounce_tracked_run.
  assert (H0 : debounce_tracked (initial cfg)) by (intros t []).
  unfold QMGrid_new in Hnew. destruct (cfg_serverSide cfg).
  - destruct (url_set _); [|discriminate]. injection Hnew as <-.
    apply (debounce_tracked_kept (initial cfg)); [|exact H0].
    apply no_new_debounce_loadServerData.
  - injection Hnew as <-. exact H0.
Qed.

Lemma waiting_tracked (g : Grid) (since : Z) (text : string) (id : nat) :
  waiting g since text id -> debounce_tracked g.
Proof.
  intros (_ & _ & Hs & _ & _ & Hone) t Hin Hd.
  rewrite (Hone t Hin Hd). exact Hs.
Qed.

Lemma waiting_input (text : string) (g : Grid) :
  sequenced g -> debounce_tracked g -> cfg_searchable (config g) = true ->
  waiting (debouncedSearch text g) 0 text (nextTimer g).
Proof.
  intros [_ Hfresh] Htr Hs. unfold debouncedSearch. rewrite Hs. cbv zeta.
  change (searchTimeout (set_searchInput text g)) with (searchTimeout g).
  set (g1 := clearTimeout (searchTimeout g) (set_searchInput text g)).
  assert (H1 : config g1 = config g /\ searchInput g1 = text /\ now g1 = now g
               /\ nextTimer g1 = nextTimer g)
    by (subst g1; destruct (searchTimeout g); repeat split).
  destruct H1 as (Hc1 & Hi1 & Hn1 & Hx1).
  assert (Hold : forall t, In t (timers g1) -> In t (timers g) /\ is_debounce t = false).
  { intros t Hin.
    assert (Hin' : In t (timers g)).
    { subst g1. destruct (searchTimeout g); cbn in Hin;
        [apply filter_In in Hin; tauto|exact Hin]. }
    split; [exact Hin'|].
    destruct (is_debounce t) eqn:Hd; [|reflexivity]. exfalso.
    specialize (Htr t Hin' Hd). subst g1. rewrite Htr in Hin. cbn in Hin.
    apply filter_In in Hin. destruct Hin as [_ Hne]. now rewrite Nat.eqb_refl in Hne. }
  unfold waiting. cbn [config searchInput searchTimeout now timers setTimeout
                       set_nextTimer set_timers set_searchTimeout nextTimer].
  rewrite Hc1, Hi1, Hn1, Hx1.
  replace (now g + Z.max 0 DEFAULTS_SEARCH_DEBOUNCE_DELAY)%Z
    with (now g - 0 + DEFAULTS_SEARCH_DEBOUNCE_DELAY)%Z
    by (unfold DEFAULTS_SEARCH_DEBOUNCE_DELAY; lia).
  split; [exact Hs|]. split; [reflexivity|]. split; [reflexivity|].
  split; [apply in_app_iff; right; now left|]. split.
  - intros t Hin Hid. apply in_app_iff in Hin. destruct Hin as [Hin|[<-|[]]]; [|reflexivity].
    destruct (Hold t Hin) as [Hin' _].
    rewrite Forall_forall in Hfresh. specialize (Hfresh t Hin'). lia.
  - intros t Hin Hd. apply in_app_iff in Hin. destruct Hin as [Hin|[<-|[]]]; [|reflexivity].
    destruct (Hold t Hin) as [_ Hnd]. congruence.
Qed.

(** A state that differs from a waiting one only by timers that are no
    debounce timers and do not carry the identifier of the one waiting. *)
Lemma waiting_kept (g g' : Grid) (since : Z) (text : string) (id : nat) :
  waiting g since text id ->
  config g' = config g -> searchInput g' = searchInput g ->
  searchTimeout g' = searchTimeout g -> now g' = now g ->
  In (debounce_timer g since id) (timers g') ->
  (forall t, In t (timers g') ->
             In t (timers g) \/ (is_debounce t = false /\ tm_id t <> id)) ->
  waiting g' since text id.
Proof.
  intros (Hs & Hi & Ht & Hin & Hid & Hone) Hc Hsi Hst Hn Hin' Hsub.
  unfold waiting. rewrite Hc, Hsi, Hst, Hn.
  split; [exact Hs|]. split; [exact Hi|]. split; [exact Ht|]. split; [exact Hin'|].
  split.
  - intros t Hin0 Hid0. destruct (Hsub t Hin0) as [H|[_ H]]; [now apply Hid|congruence].
  - intros t Hin0 Hd. destruct (Hsub t Hin0) as [H|[H _]]; [now apply Hone|congruence].
Qed.

Lemma waiting_elapse (ms : Z) (g : Grid) (since : Z) (text : string) (id : nat) :
  waiting g since text id -> waiting (elapse ms g) (since + Z.max 0 ms) text id.
Proof.
  intros (Hs & Hi & Ht & Hin & Hid & Hone). unfold waiting, elapse.
  cbn [config searchInput searchTimeout now timers set_now].
  replace (now g + Z.max 0 ms - (since + Z.max 0 ms) + DEFAULTS_SEARCH_DEBOUNCE_DELAY)%Z
    with (now g - since + DEFAULTS_SEARCH_DEBOUNCE_DELAY)%Z by lia.
  repeat split; assumption.
Qed.

Lemma search_events_loadServerData (g : Grid) :
  count is_search_event (loadServerData g) = count is_search_event g.
Proof. apply loadServerData_timers. Qed.

(** While the delay of the waiting timer has not passed, a timer that the
    host runs starts no search and leaves the waiting timer in place. *)
Lemma waiting_timer_fires (k : nat) (g : Grid) (since : Z) (text : string) (id : nat) :
  sequenced g -> waiting g since text id ->
  (since < DEFAULTS_SEARCH_DEBOUNCE_DELAY)%Z ->
  waiting (timer_fires k g) since text id
  /\ count is_search_event (timer_fires k g) = count is_search_event g.
Proof.
  intros [_ Hfresh] Hw Hsince.
  pose proof Hw as (Hs & Hi & Ht & Hin & Hid & Hone).
  unfold timer_fires. destruct (find _ _) as [t|] eqn:Hf; [|now split].
  apply find_some in Hf. destruct Hf as [Htin Hk]. apply Nat.eqb_eq in Hk.
  destruct (tm_deadline t <=? now g)%Z eqn:Hdue; [|now split].
  apply Z.leb_le in Hdue.
  assert (Hnd : is_debounce t = false).
  { destruct (is_debounce t) eqn:Hd; [|reflexivity].
    rewrite (Hone t Htin Hd) in Hdue. cbn in Hdue. lia. }
  assert (Hne : k <> id).
  { intros ->. rewrite (Hid t Htin Hk) in Hnd. discriminate. }
  assert (Hlt : (id < nextTimer g)%nat).
  { rewrite Forall_forall in Hfresh. apply (Hfresh _ Hin). }
  set (g1 := clearTimeout (Some k) g).
  assert (Hin1 : In (debounce_timer g since id) (timers g1)).
  { subst g1. cbn. apply filter_In. split; [exact Hin|].
    cbn. apply negb_true_iff, Nat.eqb_neq. congruence. }
  assert (Hsub1 : forall t0, In t0 (timers g1) -> In t0 (timers g)).
  { subst g1. cbn. intros t0 H0. apply filter_In in H0. tauto. }
  destruct (tm_action t) eqn:Ha; cbn [run_timer].
  - unfold is_debounce in Hnd. rewrite Ha in Hnd. discriminate.
  - destruct (loadServerData_timers g1) as (Li & Ls & Ln & Lc & Lt).
    split; [|rewrite Lc; reflexivity].
    apply (waiting_kept g _ since text id Hw);
      [rewrite config_loadServerData; reflexivity|exact Li|exact Ls|exact Ln| |].
    + destruct Lt as [->|(d & c & ->)]; [exact Hin1|]. apply in_app_iff. now left.
    + intros t0 H0. destruct Lt as [E|(d & c & E)]; rewrite E in H0.
      * left. now apply Hsub1.
      * apply in_app_iff in H0. destruct H0 as [H0|[<-|[]]]; [left; now apply Hsub1|].
        right. split; [reflexivity|]. cbn. subst g1. cbn. lia.
  - split; [|reflexivity].
    apply (waiting_kept g _ since text id Hw); try reflexivity; [exact Hin1|].
    intros t0 H0. left. now apply Hsub1.
Qed.

Lemma search_events_input (text : string) (g : Grid) :
  count is_search_event (debouncedSearch text g) = count is_search_event g.
Proof.
  unfold debouncedSearch. destruct (cfg_searchable _); [|reflexivity]. cbv zeta.
  change (searchTimeout (set_searchInput text g)) with (searchTimeout g).
  destruct (searchTimeout g); reflexivity.
Qed.

(** A burst of input leaves the timer of its last input waiting and starts
    no search. *)
Lemma burst_run (rest : list Stimulus) :
  forall (g : Grid) (since : Z) (text : string) (id : nat),
    sequenced g -> waiting g since text id ->
    (since < DEFAULTS_SEARCH_DEBOUNCE_DELAY)%Z -> burst since rest ->
    sequenced (run g rest)
    /\ (exists id', waiting (run g rest) (burst_end since rest) (last_input text rest) id')
    /\ (burst_end since rest < DEFAULTS_SEARCH_DEBOUNCE_DELAY)%Z
    /\ count is_search_event (run g rest) = count is_search_event g.
Proof.
  induction rest as [|s rest IH]; intros g since text id Hseq Hw Hsince Hb.
  - change (run g []) with g. cbn [burst_end last_input].
    split; [exact Hseq|]. split; [now exists id|]. split; [exact Hsince|reflexivity].
  - pose proof (sequenced_step g s Hseq) as Hseq'.
    change (run g (s :: rest)) with (run (step g s) rest).
    destruct s; cbn [burst] in Hb; try contradiction; cbn [burst_end last_input].
    + assert (Hw' : waiting (step g (InputSearch text0)) 0 text0 (nextTimer g)).
      { apply waiting_input; [exact Hseq|now apply (waiting_tracked g since text id)|apply Hw]. }
      destruct (IH _ 0%Z text0 _ Hseq' Hw') as (H1 & H2 & H3 & H4);
        [unfold DEFAULTS_SEARCH_DEBOUNCE_DELAY; lia|exact Hb|].
      split; [exact H1|]. split; [exact H2|]. split; [exact H3|].
      rewrite H4. apply search_events_input.
    + destruct Hb as [Hlt Hb].
      destruct (IH _ _ text id Hseq' (waiting_elapse ms g since text id Hw) Hlt Hb)
        as (H1 & H2 & H3 & H4).
      split; [exact H1|]. split; [exact H2|]. split; [exact H3|exact H4].
    + destruct (waiting_timer_fires id0 g since text id Hseq Hw Hsince) as [Hw' Hc].
      destruct (IH _ _ text id Hseq' Hw' Hsince Hb) as (H1 & H2 & H3 & H4).
      split; [exact H1|]. split; [exact H2|]. split; [exact H3|]. now rewrite H4.
Qed.

Lemma search_emits_once (term : value) (g : Grid) :
  count is_search_event (search term g) = S (count is_search_event g).
Proof.
  unfold search. cbv zeta. destruct (cfg_serverSide _).
  - unfold count. cbn [emit effect trace set_trace filter is_search_event List.length].
    f_equal. exact (search_events_loadServerData _).
  - reflexivity.
Qed.

(** X24. The listener of the search box.  After input events that follow
    one another by less than the debounce delay (while time passes and the
    host runs the timers that are due), no search has been started; the
    timer of the last input is the one debounce timer pending; run before
    its delay has passed it does nothing, and run after it, it calls
    [search] once, with the text of the last input. *)
Theorem input_burst_searches_once
        (cfg : Config) (g : Grid) (text : string) (rest : list Stimulus) :
  reachable cfg g -> cfg_searchable cfg = true -> burst 0 rest ->
  let g' := run g (InputSearch text :: rest) in
  let final := last_input text rest in
  let since := burst_end 0 rest in
  count is_search_event g' = count is_search_event g
  /\ exists id,
       searchTimeout g' = Some id
       /\ (forall t, In t (timers g') -> is_debounce t = true -> tm_id t = id)
       /\ (forall ms, (since + Z.max 0 ms < DEFAULTS_SEARCH_DEBOUNCE_DELAY)%Z ->
             timer_fires id (elapse ms g') = elapse ms g')
       /\ (forall ms, (DEFAULTS_SEARCH_DEBOUNCE_DELAY <= since + Z.max 0 ms)%Z ->
             timer_fires id (elapse ms g')
             = search (VStr final) (clearTimeout (Some id) (elapse ms g'))
             /\ count is_search_event (timer_fires id (elapse ms g'))
                = S (count is_search_event g)
             /\ forall t, In t (timers (timer_fires id (elapse ms g'))) ->
                          is_debounce t = false).
Proof.
  intros Hr Hs Hb g' final since.
  pose proof (sequenced_reachable cfg g Hr) as Hseq.
  pose proof (debounce_tracked_reachable cfg g Hr) as Htr.
  pose proof (config_reachable cfg g Hr) as Hcfg.
  assert (Hw0 : waiting (step g (InputSearch text)) 0 text (nextTimer g))
    by (apply waiting_input; [exact Hseq|exact Htr|now rewrite Hcfg]).
  destruct (burst_run rest (step g (InputSearch text)) 0%Z text (nextTimer g))
    as (Hseq' & (id & Hw) & Hsince & Hcount);
    [now apply sequenced_step|exact Hw0|unfold DEFAULTS_SEARCH_DEBOUNCE_DELAY; lia|exact Hb|].
  change (run (step g (InputSearch text)) rest) with g' in *.
  fold final in Hw. fold since in Hw, Hsince.
  assert (Hcount' : count is_search_event g' = count is_search_event g).
  { rewrite Hcount. apply search_events_input. }
  split; [exact Hcount'|].
  exists id. pose proof Hw as (Wc & Wi & Wt & Win & Wid & Wone).
  split; [exact Wt|]. split; [intros t Hin Hd; now rewrite (Wone t Hin Hd)|].
  assert (Hfind : forall ms,
             find (fun t => (tm_id t =? id)%nat) (timers (elapse ms g'))
             = Some (debounce_timer g' since id)).
  { intros ms. cbn [elapse timers set_now].
    destruct (find (fun t => (tm_id t =? id)%nat) (timers g')) as [t|] eqn:Hf.
    - apply find_some in Hf. destruct Hf as [Hin Hid]. apply Nat.eqb_eq in Hid.
      now rewrite (Wone t Hin (Wid t Hin Hid)).
    - exfalso. apply (find_none _ _ Hf) in Win. cbn in Win.
      now rewrite Nat.eqb_refl in Win. }
  split.
  - intros ms Hms. unfold timer_fires. rewrite Hfind.
    cbn [tm_deadline debounce_timer now elapse set_now].
    replace (_ <=? _)%Z with false; [reflexivity|].
    symmetry. apply Z.leb_gt. lia.
  - intros ms Hms.
    assert (Hfire : timer_fires id (elapse ms g')
                    = search (VStr final) (clearTimeout (Some id) (elapse ms g'))).
    { unfold timer_fires. rewrite Hfind.
      cbn [tm_deadline debounce_timer now elapse set_now].
      replace (_ <=? _)%Z with true by (symmetry; apply Z.leb_le; lia).
      cbn [tm_action run_timer]. now rewrite <- Wi. }
    split; [exact Hfire|]. rewrite Hfire. split.
    + rewrite search_emits_once. now rewrite <- Hcount'.
    + intros t Hin.
      destruct (is_debounce t) eqn:Hd; [|reflexivity]. exfalso.
      destruct (no_new_debounce_search (VStr final)
                  (clearTimeout (Some id) (elapse ms g'))) as [_ Hsub].
      specialize (Hsub t Hin Hd). cbn in Hsub. apply filter_In in Hsub.
      destruct Hsub as [Hin0 Hne].
      rewrite (Wone t Hin0 Hd) in Hne. cbn in Hne. now rewrite Nat.eqb_refl in Hne.
Qed.

(** ** A request that times out *)

(** X18. A request that gets no answer within [ajax.timeout]: its timer
    aborts it, and the rejection that follows is handled as a cancellation.
    The request ends with no retry set, no [serverError] emitted and no
    change to the retry counter, the rows or the view state. *)
Theorem request_timeout_is_silent (g : Grid) :
  url_set (url (cfg_ajax (config g))) = true ->
  isLoading g = false -> currentRequest g = None -> pending g = [] ->
  vetoed (issued g) = false ->
  Forall (fun t => (tm_id t < nextTimer g)%nat) (timers g) ->
  let sent := loadServerData g in
  let late := timer_fires (nextTimer g)
                (elapse (timeout (cfg_ajax (config g))) sent) in
  let ended := fetch_settles (nextController g) (FetchRejected AbortError) late in
  aborted late = nextController g :: aborted sent
  /\ pending late = pending sent
  /\ pending ended = []
  /\ isLoading ended = false
  /\ currentRequest ended = None
  /\ timers ended = timers g
  /\ retryCount ended = retryCount g
  /\ count is_server_error ended = count is_server_error g
  /\ count is_fetch ended = S (count is_fetch g)
  /\ kept ended = kept g
  /\ view_state ended = view_state g.
Proof.
  intros Hurl Hidle Hcur Hp Hveto Hfresh sent late ended.
  destruct (loadServerData_sent g Hurl Hidle Hcur Hveto)
    as (Sp & St & Str & Sl & Sc & Sr & Src & Sn & Snow).
  pose proof (kept_loadServerData g) as Sk.
  destruct (loadServerData_view g) as (Sv & Scfg & _).
  fold sent in Sp, St, Str, Sl, Sc, Sr, Src, Sn, Snow, Sk, Sv, Scfg.
  rewrite Hp in Sp. cbn [app] in Sp.
  set (t := {| tm_id := nextTimer g;
               tm_deadline := now g + Z.max 0 (timeout (cfg_ajax (config g)));
               tm_action := TimeoutAbort (nextController g) |}) in *.
  destruct (find_id_fresh (nextTimer g) (timers g) t Hfresh eq_refl) as [Hfind Hfilter].
  assert (Hlate : late = abort (nextController g)
                           (clearTimeout (Some (nextTimer g))
                              (elapse (timeout (cfg_ajax (config g))) sent))).
  { subst late. unfold timer_fires. cbn [timers elapse set_now now].
    rewrite St, Hfind, Snow.
    replace (tm_deadline t <=? _)%Z with true by (symmetry; apply Z.leb_le; cbn; lia).
    reflexivity. }
  clearbody sent.
  assert (Hpl : pending late = pending sent) by (rewrite Hlate; reflexivity).
  assert (Htl : timers late = timers g) by (rewrite Hlate; cbn; now rewrite St).
  assert (Hended : ended = loadServerData_finally
                             (loadServerData_catch AbortError
                                (remove_call (nextController g) late))).
  { subst ended. unfold fetch_settles, find_call. rewrite Hpl, Sp. cbn.
    now rewrite Nat.eqb_refl. }
  split; [rewrite Hlate; reflexivity|]. split; [exact Hpl|].
  assert (Hrm : pending (remove_call (nextController g) late) = []).
  { unfold remove_call. cbn. rewrite Hpl, Sp. cbn. now rewrite Nat.eqb_refl. }
  clearbody late. subst late.
  rewrite Hended.
  unfold loadServerData_catch. cbn [err_name AbortError String.eqb Ascii.eqb Bool.eqb].
  unfold loadServerData_finally, kept, view_state, count in *.
  destruct (complete _); cbn; cbn in Htl, Hrm;
    rewrite ?Htl, ?Hrm, ?Src, ?Str; cbn;
    injection Sk as -> -> -> Sk; injection Sv as -> -> -> -> -> -> _ _ _;
    repeat split; try reflexivity; try (now rewrite Sk).
Qed.

(** ** A response that is committed *)

(** X19. The continuation of a parsed response that is neither stale nor an
    error and carries an array of rows: the rows replace [originalData] and
    [filteredData], the total is the number received or else the number of
    rows, the retry counter is reset, the request is over, the table is
    rendered once and [serverDataLoaded] is emitted once; the page, the
    page size, the search term, the sort and the selection stay. *)
Theorem response_commit (g : Grid) (call : Call) (result : value) (items : list value) :
  pending g = [call] -> call_stage call = AwaitJson ->
  (truthy (getNestedValue result (r_draw (cfg_serverResponse (config g)))) = false
   \/ strict_eq_num (getNestedValue result (r_draw (cfg_serverResponse (config g))))
                    (num_of_Z (call_requestId call)) = true) ->
  truthy (getNestedValue result (r_error (cfg_serverResponse (config g)))) = false ->
  getNestedValue result (r_data (cfg_serverResponse (config g))) = VArr items ->
  let g' := json_settles (call_controller call) (JsonParsed result) g in
  originalData g' = items
  /\ filteredData g' = items
  /\ totalRecords g'
     = match getNestedValue result (r_totalRecords (cfg_serverResponse (config g))) with
       | VNum n => n
       | _ => num_of_nat (List.length items)
       end
  /\ retryCount g' = 0
  /\ pending g' = [] /\ isLoading g' = false /\ currentRequest g' = None
  /\ (currentPage g', pageSize g', searchTerm g', sortColumn g', sortDirection g',
      selectedRows g')
     = (currentPage g, pageSize g, searchTerm g, sortColumn g, sortDirection g,
        selectedRows g)
  /\ count is_render g' = S (count is_render g)
  /\ count is_data_loaded g' = S (count is_data_loaded g)
  /\ count is_server_error g' = count is_server_error g
  /\ timers g' = timers g.
Proof.
  intros Hp Hs Hdraw Herr Hrows g'. subst g'.
  pose proof (find_call_single g call Hp) as Hf. rewrite Hs in Hf.
  unfold json_settles. rewrite Hf. unfold loadServerData_result. cbv zeta.
  change (config (remove_call (call_controller call) g)) with (config g).
  rewrite Herr, Hrows.
  replace (truthy _ && negb _) with false
    by (destruct Hdraw as [-> | ->]; [reflexivity|symmetry; apply andb_false_r]).
  unfold loadServerData_finally, count. cbv zeta.
  destruct (complete _) eqn:Hc; cbn; rewrite ?Hc; cbn; rewrite Hp; cbn;
    rewrite Nat.eqb_refl; repeat split.
Qed.

(** ** What a request carries *)



(** ** After the retry budget is used up *)



(** ** Local mode: the search term *)

Lemma filter_all {A : Type} (keep : A -> bool) (l : list A) :
  (forall x, In x l -> keep x = true) -> filter keep l = l.
Proof.
  induction l as [|x l IH]; intros H; cbn; [reflexivity|].
  rewrite (H x (or_introl eq_refl)). f_equal. apply IH. intros y Hy. apply H. now right.
Qed.

Lemma toLowerCase_app (a b : string) :
  toLowerCase (a ++ b) = toLowerCase a ++ toLowerCase b.
Proof. induction a as [|c a IH]; cbn; [reflexivity|now rewrite IH]. Qed.

Lemma string_app_assoc (a b c : string) : (a ++ b) ++ c = a ++ b ++ c.
Proof. induction a as [|x a IH]; cbn; [reflexivity|now rewrite IH]. Qed.

(** X23. [search] in local mode, for terms and cell texts of ASCII
    characters (on which [toLowerCase] is the function of the source).  The
    rows shown are the rows of [originalData] that have in some configured
    column a truthy cell whose lower-cased text contains the lower-cased
    term; the upper and lower case of the term do not matter; a term that
    contains another one shows no row that the other does not show.  For
    any rows: an empty term, or a term that is no string and falsy, shows
    every row. *)
Theorem local_search_filters (g : Grid) :
  cfg_serverSide (config g) = false ->
  (ascii_cells g = true ->
   (forall term row,
      is_ascii term = true ->
      (In row (filteredData (search (VStr term) g))
       <-> In row (originalData g)
           /\ (term = ""
               \/ exists column,
                    In column (cfg_columns (config g))
                    /\ truthy (getCellValue row (key column)) = true
                    /\ includes
                         (toLowerCase (js_toString (getCellValue row (key column))))
                         (toLowerCase term) = true)))
   /\ (forall t u,
         is_ascii t = true -> is_ascii u = true ->
         toLowerCase t = toLowerCase u ->
         filteredData (search (VStr t) g) = filteredData (search (VStr u) g))
   /\ (forall t u row,
         is_ascii t = true -> is_ascii u = true ->
         includes u t = true ->
         In row (filteredData (search (VStr u) g)) ->
         In row (filteredData (search (VStr t) g))))
  /\ (forall term,
        term = VStr "" \/ (typeof_string term = false /\ truthy term = false) ->
        filteredData (search term g) = originalData g
        /\ currentPage (search term g) = num_of_Z 1).
Proof.
  intros Hlocal.
  assert (Hshape : forall term,
             filteredData (search term g)
             = filter (row_matches (cfg_columns (config g))
                         (toLowerCase match term with
                                      | VStr s => s
                                      | other => js_toString
                                                   (if truthy other then other else VStr "")
                                      end))
                      (originalData g)
             /\ currentPage (search term g) = num_of_Z 1).
  { intros term. unfold search. cbv zeta. cbn [config set_searchTerm].
    rewrite Hlocal. split; reflexivity. }
  assert (Hmem : forall term row,
             In row (filteredData (search (VStr term) g))
             <-> In row (originalData g)
                 /\ (term = ""
                     \/ exists column,
                          In column (cfg_columns (config g))
                          /\ truthy (getCellValue row (key column)) = true
                          /\ includes
                               (toLowerCase (js_toString (getCellValue row (key column))))
                               (toLowerCase term) = true)).
  { intros term row. rewrite (local_search_keeps term g row Hlocal).
    split; intros [Hin H]; (split; [exact Hin|]);
      (destruct H as [H|(column & Hc & Ht & Hi)]; [now left|right]);
      exists column; (split; [exact Hc|]); (split; [exact Ht|]);
      now apply includes_iff. }
  split; [intros _; split; [intros term row _; apply Hmem|split]|].
  - intros t u _ _ E. destruct (Hshape (VStr t)) as [-> _].
    destruct (Hshape (VStr u)) as [-> _]. now rewrite E.
  - intros t u row _ _ Htu Hrow. apply Hmem in Hrow. apply Hmem.
    destruct Hrow as [Hin H]. split; [exact Hin|].
    apply includes_iff in Htu. destruct Htu as (a & b & ->).
    destruct H as [H|(column & Hc & Ht & Hi)].
    + left. destruct a; [|discriminate]. cbn in H. destruct t; [reflexivity|discriminate].
    + right. exists column. split; [exact Hc|]. split; [exact Ht|].
      apply includes_iff in Hi. destruct Hi as (pre & post & Hi).
      apply includes_iff. rewrite !toLowerCase_app in Hi.
      exists (pre ++ toLowerCase a), (toLowerCase b ++ post).
      rewrite Hi. now rewrite !string_app_assoc.
  - intros term Hterm. destruct (Hshape term) as [-> Hpage]. split; [|exact Hpage].
    assert (E : toLowerCase match term with
                            | VStr s => s
                            | other => js_toString
                                         (if truthy other then other else VStr "")
                            end = "").
    { destruct Hterm as [->|[Hs Ht]]; [reflexivity|].
      destruct term; try discriminate; cbn in Ht |- *; try rewrite Ht; reflexivity. }
    rewrite E. apply filter_all. intros row _. reflexivity.
Qed.

(** ** Sorting twice *)

Lemma column_exists_sort (c : string) (column direction : value) (g : Grid) :
  column_exists c (sort column direction g) = column_exists c g.
Proof.
  unfold column_exists.
  change (sort column direction g) with (step g (CallSort column direction)).
  now rewrite config_step.
Qed.

Lemma warnings_loadServerData (g : Grid) :
  count is_warning (loadServerData g) = count is_warning g.
Proof. open_grid g; unfold loadServerData; split_ifs; reflexivity. Qed.

Lemma warnings_sort (c : string) (d : value) (g : Grid) :
  count is_warning (sort_reconcile c (sort_update c d g)) = count is_warning g.
Proof.
  transitivity (count is_warning (sort_update c d g)).
  - unfold sort_reconcile. cbv zeta. destruct (cfg_serverSide _); [|reflexivity].
    exact (warnings_loadServerData _).
  - unfold sort_update. destruct (_ && _); reflexivity.
Qed.

(** X22. [sort] on a configured column.  With no direction, a first call on
    a new column sorts it upwards and each further call flips the
    direction, so that two calls bring the direction back; a direction
    ['asc'] or ['desc'] is taken as given, also when the call is repeated;
    any other truthy direction is dropped with a warning and the call then
    does what a call with no direction does. *)
Theorem sort_toggles_direction (c : string) (g : Grid) :
  c <> "" -> column_exists c g = true ->
  let once := sort (VStr c) VUndefined g in
  let twice := sort (VStr c) VUndefined once in
  sortColumn once = Some c
  /\ sortDirection once
     = (if string_opt_eqb (sortColumn g) c then flip (sortDirection g) else Asc)
  /\ sortColumn twice = Some c
  /\ sortDirection twice = flip (sortDirection once)
  /\ (string_opt_eqb (sortColumn g) c = true -> sortDirection twice = sortDirection g)
  /\ (forall d,
        sortDirection (sort (VStr c) (VStr (direction_name d)) g) = d
        /\ sortDirection (sort (VStr c) (VStr (direction_name d))
                            (sort (VStr c) (VStr (direction_name d)) g)) = d)
  /\ (forall v,
        truthy v = true -> is_direction v = false ->
        sortColumn (sort (VStr c) v g) = Some c
        /\ sortDirection (sort (VStr c) v g) = sortDirection once
        /\ count is_warning (sort (VStr c) v g) = S (count is_warning once)).
Proof.
  intros Hc Hex once twice.
  destruct (sort_state c VUndefined g Hc Hex) as (S1 & S2 & _).
  fold once in S1, S2. specialize (S2 (or_introl eq_refl)).
  assert (Hex1 : column_exists c once = true)
    by (subst once; now rewrite column_exists_sort).
  destruct (sort_state c VUndefined once Hc Hex1) as (T1 & T2 & _).
  fold twice in T1, T2. specialize (T2 (or_introl eq_refl)).
  rewrite S1 in T2. cbn [string_opt_eqb] in T2. rewrite String.eqb_refl in T2.
  split; [exact S1|]. split; [exact S2|]. split; [exact T1|]. split; [exact T2|].
  split; [|split].
  - intros E. rewrite T2, S2, E. now destruct (sortDirection g).
  - intros d. destruct (sort_state c (VStr (direction_name d)) g Hc Hex) as (_ & _ & D & _).
    split; [now apply D|].
    assert (Hex2 : column_exists c (sort (VStr c) (VStr (direction_name d)) g) = true)
      by now rewrite column_exists_sort.
    destruct (sort_state c (VStr (direction_name d)) _ Hc Hex2) as (_ & _ & D2 & _).
    now apply D2.
  - intros v Hv Hd.
    assert (Hshape : sort (VStr c) v g
                     = sort_reconcile c
                         (sort_update c VNull
                            (console_warn
                               ("Sort direction must be " ++ quoted "asc" ++ " or "
                                  ++ quoted "desc") g))).
    { unfold sort. apply String.eqb_neq in Hc. rewrite Hc.
      unfold column_exists in Hex. rewrite Hex. cbn [negb]. cbv zeta.
      replace (is_undefined v) with false by (now destruct v).
      now rewrite Hv, Hd. }
    assert (Honce : once = sort_reconcile c (sort_update c VNull g)).
    { subst once. unfold sort. apply String.eqb_neq in Hc. rewrite Hc.
      unfold column_exists in Hex. rewrite Hex. reflexivity. }
    rewrite Hshape, Honce.
    set (w := console_warn _ g).
    destruct (sort_reconcile_state c (sort_update c VNull w)) as (A1 & A2 & _).
    destruct (sort_reconcile_state c (sort_update c VNull g)) as (B1 & B2 & _).
    rewrite A1, A2, B2.
    assert (U : sortColumn (sort_update c VNull w) = sortColumn (sort_update c VNull g)
                /\ sortDirection (sort_update c VNull w)
                   = sortDirection (sort_update c VNull g)).
    { unfold sort_update. subst w.
      cbn [sortColumn sortDirection console_warn effect set_trace].
      destruct (string_opt_eqb (sortColumn g) c && is_null VNull); split; reflexivity. }
    destruct U as [U1 U2]. rewrite U1, U2, <- B1, <- Honce.
    split; [exact S1|]. split; [reflexivity|].
    rewrite Honce, !warnings_sort. reflexivity.
Qed.

(** ** Replacing and adding rows *)





(** ** The retry that a failure sets *)

Lemma fetches_finally (g : Grid) :
  count is_fetch (loadServerData_finally g) = count is_fetch g.
Proof.
  unfold loadServerData_finally, count. cbv zeta. destruct (complete _); reflexivity.
Qed.

Lemma fetches_catch (e : JsError) (g : Grid) :
  count is_fetch (loadServerData_catch e g) = count is_fetch g.
Proof.
  unfold loadServerData_catch.
  destruct (err_name e =? "AbortError"); [reflexivity|].
  destruct (_ <? _)%Z; [reflexivity|]. destruct (error _); reflexivity.
Qed.

(** X27. A failure while retries remain (no cancellation): the retry counter
    goes up by one and one timer is set to call [loadServerData] again,
    [retryDelay] times the new count from now; nothing is suspended, the
    grid is not busy and nothing has been sent meanwhile.  Run before its
    delay has passed the timer does nothing; run when it is due (no hook
    vetoing), it sends the request again. *)
Theorem retry_is_scheduled (cfg : Config) (f : Failure) (g : Grid) :
  attempting cfg g -> failing cfg f ->
  (retryCount g < retryAttempts (cfg_ajax cfg))%Z ->
  let g1 := fail_with f g in
  let due := (now g + Z.max 0 (retryDelay (cfg_ajax cfg) * (retryCount g + 1)))%Z in
  (exists ts,
     timers g1 = (ts ++ [ {| tm_id := nextTimer g; tm_deadline := due;
                             tm_action := RetryLoad |} ])%list
     /\ find is_retry ts = None)
  /\ retryCount g1 = retryCount g + 1
  /\ pending g1 = [] /\ isLoading g1 = false
  /\ count is_fetch g1 = count is_fetch g
  /\ count is_server_error g1 = count is_server_error g
  /\ (forall ms, (now g + Z.max 0 ms < due)%Z ->
        timer_fires (nextTimer g) (elapse ms g1) = elapse ms g1)
  /\ (url_set (url (cfg_ajax cfg)) = true -> beforeSend (cfg_ajax cfg) = None ->
      exists call, pending (run_retry g1) = [call] /\ call_stage call = AwaitFetch).
Proof.
  intros (Hcfg & (call & Hp & Hs) & Hnone & Hfresh) Hf Hlt g1 due. subst g1.
  destruct (fail_with_catch cfg f g call Hcfg Hp Hs Hf)
    as (e & g0 & -> & Hab & (Hu0 & Hrc0 & Hp0 & Hr0 & Hn0 & Htr0 & Hnone0 & Hfresh0)).
  destruct Hu0 as (Hc0 & Hk0 & Hv0 & Hnow0).
  destruct (failed_with_retry e g0 Hab)
    as (Hu1 & Hrc1 & Ht1 & Hn1 & Hp1 & Hl1 & Hcur1 & Hr1 & He1);
    [rewrite Hc0, Hcfg, Hrc0; exact Hlt|].
  destruct Hu1 as (Hc1 & Hk1 & Hv1 & Hnow1).
  set (g1 := loadServerData_finally (loadServerData_catch e g0)) in *.
  assert (Htimers : timers g1
                    = (timers g0 ++ [ {| tm_id := nextTimer g; tm_deadline := due;
                                         tm_action := RetryLoad |} ])%list).
  { rewrite Ht1. subst due. now rewrite Hn0, Hnow0, Hc0, Hcfg, Hrc0. }
  split; [exists (timers g0); split; [exact Htimers|auto]|].
  split; [congruence|]. split; [congruence|]. split; [exact Hl1|].
  assert (Hfetch : count is_fetch g1 = count is_fetch g).
  { subst g1. rewrite fetches_finally, fetches_catch. unfold count. now rewrite Htr0. }
  split; [exact Hfetch|].
  split; [rewrite He1; unfold count; now rewrite Htr0|].
  split.
  - intros ms Hms. unfold timer_fires. cbn [timers elapse set_now now].
    rewrite Htimers.
    destruct (find_id_fresh (nextTimer g) (timers g0)
                {| tm_id := nextTimer g; tm_deadline := due; tm_action := RetryLoad |})
      as [Hfind _]; [auto|reflexivity|].
    rewrite Hfind. cbn [tm_deadline].
    replace (due <=? now g1 + Z.max 0 ms)%Z with false; [reflexivity|].
    symmetry. apply Z.leb_gt. rewrite Hnow1, Hnow0. exact Hms.
  - intros Hurl Hhook.
    destruct (run_retry_sends cfg g1 (timers g0) (nextTimer g0)
                (retryDelay (cfg_ajax (config g0)) * (retryCount g0 + 1)))
      as (Ha & _); try assumption.
    + congruence.
    + congruence.
    + now rewrite Hnow1.
    + auto.
    + rewrite Hn0. auto.
    + apply Ha.
Qed.

End Host.

(** ** The event registry *)

Lemma called_all_when_returns {P W : Type}
      (cbs : list (EventBus.Callback P W)) (d : P) (w w' : W) :
  EventBus.forEach cbs d w = EventBus.Returns w' ->
  EventBus.called cbs d w = map EventBus.cb_id cbs.
Proof.
  revert w. induction cbs as [|cb cbs IH]; intros w H; cbn in *; [reflexivity|].
  destruct (EventBus.cb_call cb d w) as [w1|e w1]; [|discriminate].
  f_equal. now apply IH.
Qed.

Lemma forEach_stops {P W : Type}
      (pre : list (EventBus.Callback P W)) (cb : EventBus.Callback P W)
      (post : list (EventBus.Callback P W)) (d : P) (w w1 w2 : W) (e : JsError) :
  EventBus.forEach pre d w = EventBus.Returns w1 ->
  EventBus.cb_call cb d w1 = EventBus.Throws e w2 ->
  EventBus.forEach (pre ++ cb :: post) d w = EventBus.Throws e w2
  /\ EventBus.called (pre ++ cb :: post) d w
     = (map EventBus.cb_id pre ++ [EventBus.cb_id cb])%list.
Proof.
  revert w. induction pre as [|p pre IH]; intros w Hpre Hcb; cbn in *.
  - injection Hpre as ->. rewrite Hcb. now split.
  - destruct (EventBus.cb_call p d w) as [w0|e0 w0]; [|discriminate].
    destruct (IH w0 Hpre Hcb) as [H1 H2]. split; [exact H1|]. now rewrite H2.
Qed.

(** C9 (as amended). [emit] calls the subscribers of an event in the order
    of their subscription.  When none raises, each of them is called.  When
    one raises, the error leaves [emit] and the subscribers after it are not
    called: the ones called are those before it and itself. *)
Theorem emit_delivery {P W : Type}
        (event : string) (events : EventBus.Events P W) (d : P) (w : W)
        (cbs : list (EventBus.Callback P W)) :
  EventBus.subscribers event events = Some cbs ->
  (forall w', EventBus.emit event d events w = EventBus.Returns w' ->
              EventBus.delivered event d events w = map EventBus.cb_id cbs)
  /\ (forall pre cb post w1 e w2,
         cbs = (pre ++ cb :: post)%list ->
         EventBus.forEach pre d w = EventBus.Returns w1 ->
         EventBus.cb_call cb d w1 = EventBus.Throws e w2 ->
         EventBus.emit event d events w = EventBus.Throws e w2
         /\ EventBus.delivered event d events w
            = (map EventBus.cb_id pre ++ [EventBus.cb_id cb])%list).
Proof.
  intros Hsub. unfold EventBus.emit, EventBus.delivered. rewrite Hsub. split.
  - intros w' H. now apply called_all_when_returns with (w' := w').
  - intros pre cb post w1 e w2 -> Hpre Hcb. now apply forEach_stops with (w1 := w1).
Qed.

(** ** Whole numbers *)

Lemma inject_Z_add (a b : Z) : (inject_Z a + inject_Z b)%Q = inject_Z (a + b).
Proof. unfold Qplus, inject_Z. cbn. now rewrite !Z.mul_1_r. Qed.

Lemma inject_Z_sub (a b : Z) : (inject_Z a + - inject_Z b)%Q = inject_Z (a - b).
Proof. unfold Qplus, Qopp, inject_Z. cbn. now rewrite !Z.mul_1_r. Qed.

Lemma num_add_Z (a b : Z) : num_add (num_of_Z a) (num_of_Z b) = num_of_Z (a + b).
Proof. unfold num_add, num_of_Z. now rewrite inject_Z_add. Qed.

Lemma num_sub_Z (a b : Z) : num_sub (num_of_Z a) (num_of_Z b) = num_of_Z (a - b).
Proof. unfold num_sub, num_add, num_neg, num_of_Z. now rewrite inject_Z_sub. Qed.

Lemma num_mul_Z (a b : Z) : num_mul (num_of_Z a) (num_of_Z b) = num_of_Z (a * b).
Proof. reflexivity. Qed.

Lemma num_max_Z (a b : Z) : num_max (num_of_Z a) (num_of_Z b) = num_of_Z (Z.max a b).
Proof.
  unfold num_max. change (num_of_Z a) with (Fin (inject_Z a)) at 1.
  change (num_of_Z b) with (Fin (inject_Z b)) at 1. cbv iota.
  rewrite num_ltb_Z. destruct (a <? b)%Z eqn:E.
  - apply Z.ltb_lt in E. now rewrite Z.max_r by lia.
  - apply Z.ltb_ge in E. now rewrite Z.max_l by lia.
Qed.

Lemma num_min_Z (a b : Z) : num_min (num_of_Z a) (num_of_Z b) = num_of_Z (Z.min a b).
Proof.
  unfold num_min. change (num_of_Z a) with (Fin (inject_Z a)) at 1.
  change (num_of_Z b) with (Fin (inject_Z b)) at 1. cbv iota.
  rewrite num_ltb_Z. destruct (b <? a)%Z eqn:E.
  - apply Z.ltb_lt in E. now rewrite Z.min_r by lia.
  - apply Z.ltb_ge in E. now rewrite Z.min_l by lia.
Qed.

Lemma Qceiling_div (n d : Z) :
  (0 < d)%Z -> Qceiling (inject_Z n / inject_Z d) = ((n + d - 1) / d)%Z.
Proof.
  intros H. unfold Qceiling, Qfloor, Qdiv, Qmult, Qinv, Qopp, inject_Z. cbn.
  destruct d as [|p|p]; try lia. cbn. rewrite Z.mul_1_r.
  assert (Hp : (0 < Z.pos p)%Z) by lia.
  pose proof (Z.div_mod (- n) (Z.pos p)) as D1.
  pose proof (Z.mod_pos_bound (- n) (Z.pos p) Hp) as B1.
  pose proof (Z.div_mod (n + Z.pos p - 1) (Z.pos p)) as D2.
  pose proof (Z.mod_pos_bound (n + Z.pos p - 1) (Z.pos p) Hp) as B2.
  nia.
Qed.

(** [Math.ceil(n / size)] for whole numbers. *)
Lemma num_ceil_div_Z (n d : Z) :
  (0 < d)%Z ->
  num_ceil (num_div (num_of_Z n) (num_of_Z d)) = num_of_Z ((n + d - 1) / d).
Proof.
  intros H. unfold num_div, num_of_Z.
  change 0%Q with (inject_Z 0). rewrite Qeq_bool_inject_Z.
  destruct (d =? 0)%Z eqn:E; [apply Z.eqb_eq in E; lia|].
  cbn [num_ceil]. now rewrite Qceiling_div.
Qed.

(** The last page is the first whose end reaches the last row. *)
Lemma within_pages (n d p : Z) :
  (0 < d)%Z -> (p <= (n + d - 1) / d)%Z <-> ((p - 1) * d < n)%Z.
Proof.
  intros H.
  pose proof (Z.div_mod (n + d - 1) d) as D.
  pose proof (Z.mod_pos_bound (n + d - 1) d H) as B.
  split; intros; nia.
Qed.

(** ** Slices *)

Lemma slice_index_Z (i : Z) (len : nat) :
  (0 <= i)%Z -> slice_index (num_of_Z i) len = Nat.min (Z.to_nat i) len.
Proof.
  intros H. unfold slice_index. change (num_of_Z i) with (Fin (inject_Z i)) at 1.
  cbv iota zeta. change (Fin (inject_Z i)) with (num_of_Z i).
  rewrite num_to_index_Z by exact H.
  destruct (i <? 0)%Z eqn:E; [apply Z.ltb_lt in E; lia|reflexivity].
Qed.

Lemma slice_Z {A : Type} (a b : Z) (l : list A) :
  (0 <= a <= b)%Z ->
  slice (num_of_Z a) (num_of_Z b) l
  = firstn (Z.to_nat (b - a)) (skipn (Z.to_nat a) l).
Proof.
  intros H. unfold slice. cbv zeta. rewrite !slice_index_Z by lia.
  destruct (Nat.le_gt_cases (List.length l) (Z.to_nat a)) as [Hlen|Hlen].
  - rewrite Nat.min_r by lia. rewrite (skipn_all2 l) by lia.
    rewrite (skipn_all2 l) by lia. now rewrite !firstn_nil.
  - rewrite (Nat.min_l (Z.to_nat a)) by lia.
    destruct (Nat.le_gt_cases (Z.to_nat b) (List.length l)) as [Hb|Hb].
    + rewrite Nat.min_l by lia. f_equal. lia.
    + rewrite Nat.min_r by lia.
      rewrite !firstn_all2; try reflexivity; rewrite length_skipn; lia.
Qed.

Lemma map_snd_combine_seq {A : Type} (l : list A) (start : nat) :
  map snd (combine (seq start (List.length l)) l) = l.
Proof.
  revert start. induction l as [|x l IH]; intros start; [reflexivity|].
  cbn. f_equal. apply IH.
Qed.

(** ** Pages *)

Lemma totalPages_local (g : Grid) (size : Z) :
  cfg_serverSide (config g) = false ->
  pageSize g = num_of_Z size -> (0 < size)%Z ->
  totalPages g
  = num_of_Z ((Z.of_nat (List.length (filteredData g)) + size - 1) / size).
Proof.
  intros Hl Hs Hpos. unfold totalPages, page_count. rewrite Hl, Hs.
  unfold num_of_nat. now apply num_ceil_div_Z.
Qed.

(** The records of the rows that [renderBody] shows in local mode, on the
    whole page [page] of [size] rows. *)
Lemma renderBody_rows (g : Grid) (size page : Z) :
  cfg_serverSide (config g) = false ->
  pageSize g = num_of_Z size -> (0 < size)%Z ->
  currentPage g = num_of_Z page -> (1 <= page)%Z ->
  map tr_row (renderBody true g)
  = firstn (Z.to_nat size) (skipn (Z.to_nat ((page - 1) * size)) (filteredData g)).
Proof.
  intros Hl Hs Hpos Hp Hpage. unfold renderBody.
  destruct (List.length (filteredData g) =? 0)%nat eqn:E.
  - apply Nat.eqb_eq in E. apply length_zero_iff_nil in E. rewrite E.
    now rewrite skipn_nil, firstn_nil.
  - cbv zeta. rewrite Hl, Hs, Hp. rewrite num_sub_Z, num_mul_Z, num_add_Z.
    rewrite map_map. cbn [tr_row].
    rewrite (map_snd_combine_seq _ 0).
    rewrite slice_Z by nia. f_equal. lia.
Qed.

(** [goToPage] in local mode, for whole numbers: the page is taken when it
    holds a row. *)
Lemma goToPage_local (g : Grid) (size page : Z) :
  cfg_serverSide (config g) = false ->
  pageSize g = num_of_Z size -> (0 < size)%Z ->
  goToPage (num_of_Z page) g
  = if (1 <=? page)%Z && ((page - 1) * size <? Z.of_nat (List.length (filteredData g)))%Z
    then emit (PAGE_CHANGE (num_of_Z page)) (render (set_currentPage (num_of_Z page) g))
    else g.
Proof.
  intros Hl Hs Hpos. unfold goToPage. rewrite Hl.
  unfold num_geb, page_count, num_of_nat. rewrite Hs, num_ceil_div_Z by exact Hpos.
  rewrite !num_leb_Z.
  replace (page <=? (Z.of_nat (List.length (filteredData g)) + size - 1) / size)%Z
    with ((page - 1) * size <? Z.of_nat (List.length (filteredData g)))%Z;
    [reflexivity|].
  apply eq_true_iff_eq. rewrite Z.ltb_lt, Z.leb_le. symmetry. now apply within_pages.
Qed.

(** X10. [goToPage] in local mode, for a whole page size and a whole page
    number: the page is taken exactly when it holds a row.  Then the
    current page is set, the body shows the rows of that page, at least
    one, and the grid is rendered and [pageChange] emitted; any other page
    number changes nothing at all. *)
Theorem goToPage_bounds (g : Grid) (size page : Z) :
  cfg_serverSide (config g) = false ->
  pageSize g = num_of_Z size -> (0 < size)%Z ->
  ((1 <= page)%Z /\ ((page - 1) * size < Z.of_nat (List.length (filteredData g)))%Z ->
   currentPage (goToPage (num_of_Z page) g) = num_of_Z page
   /\ map tr_row (renderBody true (goToPage (num_of_Z page) g))
      = firstn (Z.to_nat size)
               (skipn (Z.to_nat ((page - 1) * size)) (filteredData g))
   /\ map tr_row (renderBody true (goToPage (num_of_Z page) g)) <> []
   /\ trace (goToPage (num_of_Z page) g)
      = Emit (PAGE_CHANGE (num_of_Z page)) :: Render :: trace g)
  /\ ((page < 1)%Z \/ (Z.of_nat (List.length (filteredData g)) <= (page - 1) * size)%Z ->
      goToPage (num_of_Z page) g = g).
Proof.
  intros Hl Hs Hpos. rewrite (goToPage_local g size page Hl Hs Hpos). split.
  - intros [H1 H2].
    replace (1 <=? page)%Z with true by (symmetry; apply Z.leb_le; lia).
    replace (_ <? _)%Z with true by (symmetry; apply Z.ltb_lt; lia).
    cbn [andb].
    set (g' := emit (PAGE_CHANGE (num_of_Z page))
                 (render (set_currentPage (num_of_Z page) g))).
    assert (Hrows : map tr_row (renderBody true g')
                    = firstn (Z.to_nat size)
                        (skipn (Z.to_nat ((page - 1) * size)) (filteredData g)))
      by (apply (renderBody_rows g' size page); auto).
    split; [reflexivity|]. split; [exact Hrows|]. split; [|reflexivity].
    rewrite Hrows. intros Hnil.
    apply (f_equal (@List.length value)) in Hnil.
    rewrite length_firstn, length_skipn in Hnil. cbn in Hnil. nia.
  - intros H.
    destruct (1 <=? page)%Z eqn:E1; [|reflexivity].
    destruct (_ <? _)%Z eqn:E2; [|reflexivity].
    apply Z.leb_le in E1. apply Z.ltb_lt in E2. lia.
Qed.

Lemma chunks_concat {A : Type} (size : nat) (pages : nat) (l : list A) :
  (0 < size)%nat -> (List.length l <= pages * size)%nat ->
  List.concat (map (fun p => firstn size (skipn ((p - 1) * size)%nat l)) (seq 1 pages)) = l.
Proof.
  intros Hs. revert l. induction pages as [|pages IH]; intros l Hl.
  - cbn in Hl. destruct l; [reflexivity|cbn in Hl; lia].
  - cbn [seq map List.concat]. cbn [Nat.sub Nat.mul skipn].
    rewrite <- seq_shift, map_map.
    transitivity (firstn size l ++ skipn size l)%list; [|apply firstn_skipn].
    f_equal.
    etransitivity; [|apply (IH (skipn size l)); rewrite length_skipn; simpl in Hl; lia].
    f_equal. apply map_ext_in. intros p Hp. apply in_seq in Hp.
    rewrite skipn_skipn. f_equal. f_equal.
    destruct p as [|p]; [lia|]. cbn. lia.
Qed.

(** X11. In local mode, for a whole page size, the number of pages is the
    number of rows divided by the page size, rounded up, and the rows that
    the body shows on the pages 1, 2, ..., taken one after the other, are
    the rows of [filteredData]: no row is shown twice and none is left
    out. *)
Theorem pages_partition_rows (g : Grid) (size : Z) :
  cfg_serverSide (config g) = false ->
  pageSize g = num_of_Z size -> (0 < size)%Z ->
  totalPages g
  = num_of_Z ((Z.of_nat (List.length (filteredData g)) + size - 1) / size)
  /\ List.concat
       (map (fun page => map tr_row (renderBody true (goToPage (num_of_nat page) g)))
            (seq 1 (Z.to_nat ((Z.of_nat (List.length (filteredData g)) + size - 1) / size))))
     = filteredData g.
Proof.
  intros Hl Hs Hpos. split; [now apply totalPages_local|].
  set (n := Z.of_nat (List.length (filteredData g))).
  assert (Hdiv : (0 <= (n + size - 1) / size)%Z) by (apply Z.div_pos; lia).
  transitivity
    (List.concat
       (map (fun p => firstn (Z.to_nat size)
                        (skipn ((p - 1) * Z.to_nat size)%nat (filteredData g)))
            (seq 1 (Z.to_nat ((n + size - 1) / size))))).
  - f_equal. apply map_ext_in. intros p Hp. apply in_seq in Hp.
    unfold num_of_nat. rewrite (goToPage_local g size (Z.of_nat p) Hl Hs Hpos).
    replace (1 <=? Z.of_nat p)%Z with true by (symmetry; apply Z.leb_le; lia).
    replace (_ <? _)%Z with true
      by (symmetry; apply Z.ltb_lt; apply within_pages; [exact Hpos|fold n; lia]).
    cbn [andb].
    rewrite (renderBody_rows _ size (Z.of_nat p)); auto; [|lia].
    f_equal. cbn. f_equal. nia.
  - apply chunks_concat; [lia|].
    pose proof (Z.div_mod (n + size - 1) size) as D.
    pose proof (Z.mod_pos_bound (n + size - 1) size Hpos) as B.
    subst n. nia.
Qed.

(** ** Rows on the page and the selection *)

Lemma In_combine_seq {A : Type} (l : list A) (start k : nat) (x : A) :
  In (k, x) (combine (seq start (List.length l)) l) ->
  (start <= k)%nat /\ nth_error l (k - start) = Some x.
Proof.
  revert start. induction l as [|y l IH]; intros start H; cbn in H; [contradiction|].
  destruct H as [H|H].
  - injection H as <- <-. split; [lia|]. now rewrite Nat.sub_diag.
  - destruct (IH (S start) H) as [Hle Hn]. split; [lia|].
    replace (k - start)%nat with (S (k - S start)) by lia. exact Hn.
Qed.

Lemma nth_error_firstn_skipn {A : Type} (l : list A) (count first k : nat) (x : A) :
  nth_error (firstn count (skipn first l)) k = Some x ->
  nth_error l (first + k) = Some x.
Proof.
  intros H. rewrite <- nth_error_skipn.
  destruct (Nat.lt_ge_cases k count) as [Hk|Hk].
  - rewrite nth_error_firstn in H.
    destruct (k <? count)%nat eqn:E; [exact H|apply Nat.ltb_ge in E; lia].
  - assert (Hn : nth_error (firstn count (skipn first l)) k = None).
    { apply nth_error_None. rewrite length_firstn. lia. }
    congruence.
Qed.

Lemma set_has_Z (i : Z) (s : list Z) : set_has (num_of_Z i) s = existsb (fun j => (j =? i)%Z) s.
Proof.
  unfold set_has. induction s as [|j s IH]; [reflexivity|].
  cbn [existsb]. now rewrite num_eqb_Z, IH.
Qed.

(** The rows that [renderBody] shows in local mode, on the whole page [page]
    of [size] rows: each carries its position in [filteredData]. *)
Lemma renderBody_local (g : Grid) (size page : Z) (r : BodyRow) :
  cfg_serverSide (config g) = false ->
  pageSize g = num_of_Z size -> (0 < size)%Z ->
  currentPage g = num_of_Z page -> (1 <= page)%Z ->
  In r (renderBody true g) ->
  exists i : Z,
    tr_index r = num_of_Z i /\ (0 <= i)%Z
    /\ nth_error (filteredData g) (Z.to_nat i) = Some (tr_row r)
    /\ tr_selected r = existsb (fun j => (j =? i)%Z) (selectedRows g).
Proof.
  intros Hl Hs Hpos Hp Hpage. unfold renderBody.
  destruct (List.length (filteredData g) =? 0)%nat; [contradiction|].
  cbv zeta. rewrite Hl, Hs, Hp. rewrite num_sub_Z, num_mul_Z, num_add_Z.
  rewrite slice_Z by nia.
  replace (Z.to_nat ((page - 1) * size + size - (page - 1) * size)) with (Z.to_nat size)
    by (f_equal; lia).
  intros H. apply in_map_iff in H. destruct H as ([k row] & <- & Hin).
  apply In_combine_seq in Hin. destruct Hin as [_ Hn]. rewrite Nat.sub_0_r in Hn.
  apply nth_error_firstn_skipn in Hn.
  cbn [fst snd tr_index tr_row tr_selected]. unfold num_of_nat. rewrite num_add_Z.
  exists ((page - 1) * size + Z.of_nat k)%Z. split; [reflexivity|]. split; [nia|].
  split; [|apply set_has_Z].
  replace (Z.to_nat ((page - 1) * size + Z.of_nat k))
    with (Z.to_nat ((page - 1) * size) + k)%nat by nia.
  exact Hn.
Qed.

Lemma In_getSelectedRows (g : Grid) (i : Z) (row : value) :
  (0 <= i)%Z -> In i (selectedRows g) ->
  nth_error (filteredData g) (Z.to_nat i) = Some row -> truthy row = true ->
  In row (getSelectedRows g).
Proof.
  intros Hi Hin Hn Ht. unfold getSelectedRows. apply filter_In. split; [|exact Ht].
  apply in_map_iff. exists i. split; [|exact Hin].
  destruct (i <? 0)%Z eqn:E; [apply Z.ltb_lt in E; lia|].
  now apply nth_error_nth.
Qed.

(** X12. In local mode each row of the body carries as its index its
    position in [filteredData]; it is marked as selected exactly when that
    index is selected; and once the index is selected ([selectRow], as the
    listener of the row's checkbox calls it), [getSelectedRows] returns the
    record of that row. *)
Theorem ticked_row_is_selected (g : Grid) (size page : Z) (r : BodyRow) :
  cfg_serverSide (config g) = false ->
  pageSize g = num_of_Z size -> (0 < size)%Z ->
  currentPage g = num_of_Z page -> (1 <= page)%Z ->
  In r (renderBody true g) ->
  exists i : Z,
    tr_index r = num_of_Z i
    /\ nth_error (filteredData g) (Z.to_nat i) = Some (tr_row r)
    /\ (tr_selected r = true <-> In i (selectedRows g))
    /\ (truthy (tr_row r) = true ->
        In (tr_row r) (getSelectedRows (selectRow i true g))).
Proof.
  intros Hl Hs Hpos Hp Hpage Hin.
  destruct (renderBody_local g size page r Hl Hs Hpos Hp Hpage Hin)
    as (i & Hi & Hi0 & Hn & Hsel).
  exists i. split; [exact Hi|]. split; [exact Hn|]. split.
  - rewrite Hsel, existsb_exists. split.
    + intros (j & Hj & E). apply Z.eqb_eq in E. now subst.
    + intros H. exists i. split; [exact H|apply Z.eqb_refl].
  - intros Ht. apply (In_getSelectedRows _ i); [exact Hi0| | |exact Ht].
    + unfold selectRow. cbv zeta.
      destruct (cfg_multiSelect (config g));
        cbn [emit effect render selectedRows set_trace set_selectedRows];
        apply In_set_add; now right.
    + unfold selectRow. cbv zeta.
      destruct (cfg_multiSelect (config g)); exact Hn.
Qed.

(** ** Export *)

(** X15. [getExportData], which never reads [config.pagination].  In local
    mode the visible-only export is the slice of [filteredData] for the
    current page: these are the rows the body shows when pagination is on;
    with pagination off the body shows all of [filteredData] and the
    visible-only export still that slice of it.  With nothing selected,
    [selectedOnly] changes nothing; with a selection, it exports what
    [getSelectedRows] returns; with neither option, all of [filteredData]
    is exported. *)
Theorem getExportData_rows (g : Grid) :
  (cfg_serverSide (config g) = false ->
   getExportData false true g = map tr_row (renderBody true g)
   /\ map tr_row (renderBody false g) = filteredData g
   /\ (forall size page,
         pageSize g = num_of_Z size -> (0 < size)%Z ->
         currentPage g = num_of_Z page -> (1 <= page)%Z ->
         getExportData false true g
         = firstn (Z.to_nat size)
                  (skipn (Z.to_nat ((page - 1) * size))
                         (map tr_row (renderBody false g)))))
  /\ (forall visibleOnly,
        selectedRows g = [] ->
        getExportData true visibleOnly g = getExportData false visibleOnly g)
  /\ (forall visibleOnly,
        selectedRows g <> [] -> getExportData true visibleOnly g = getSelectedRows g)
  /\ getExportData false false g = filteredData g.
Proof.
  split; [|split; [|split]].
  - intros Hl.
    assert (Hon : getExportData false true g = map tr_row (renderBody true g)).
    { unfold getExportData, renderBody. cbn [andb]. cbv zeta. rewrite Hl.
      destruct (List.length (filteredData g) =? 0)%nat eqn:E.
      + apply Nat.eqb_eq, length_zero_iff_nil in E. rewrite E.
        unfold slice. cbv zeta. now rewrite skipn_nil, firstn_nil.
      + rewrite map_map. cbn [tr_row]. now rewrite (map_snd_combine_seq _ 0). }
    assert (Hoff : map tr_row (renderBody false g) = filteredData g).
    { unfold renderBody. cbv zeta. rewrite Hl.
      destruct (List.length (filteredData g) =? 0)%nat eqn:E.
      + apply Nat.eqb_eq, length_zero_iff_nil in E. now rewrite E.
      + rewrite map_map. cbn [tr_row]. rewrite (map_snd_combine_seq _ 0).
        unfold num_of_nat. rewrite slice_Z by lia.
        rewrite Z.sub_0_r, Nat2Z.id. cbn [Z.to_nat skipn]. apply firstn_all. }
    split; [exact Hon|]. split; [exact Hoff|].
    intros size page Hs Hpos Hp Hpage.
    rewrite Hon, Hoff. now apply renderBody_rows.
  - intros v H. unfold getExportData. now rewrite H.
  - intros v H. unfold getExportData, getSelectedRows.
    destruct (selectedRows g); [congruence|reflexivity].
  - reflexivity.
Qed.

(** ** Remote mode: the offset of the page *)

Lemma getSelectedRows_beyond (g : Grid) (i : Z) :
  (Z.of_nat (List.length (filteredData g)) <= i)%Z ->
  getSelectedRows (selectRow i true g)
  = if cfg_multiSelect (config g) then getSelectedRows g else [].
Proof.
  intros Hi.
  assert (Hmiss : (if (i <? 0)%Z then VUndefined
                   else nth (Z.to_nat i) (filteredData g) VUndefined) = VUndefined).
  { destruct (i <? 0)%Z; [reflexivity|]. apply nth_overflow. lia. }
  unfold selectRow, getSelectedRows. cbv zeta.
  destruct (cfg_multiSelect (config g));
    cbn [emit effect render selectedRows filteredData set_trace set_selectedRows].
  - unfold set_add. destruct (existsb (Z.eqb i) (selectedRows g)); [reflexivity|].
    rewrite map_app, filter_app. cbn [map filter]. rewrite Hmiss. cbn [truthy].
    apply app_nil_r.
  - unfold set_add. cbn [existsb app map filter]. now rewrite Hmiss.
Qed.

(** X16. In remote mode [filteredData] holds the rows of the current page
    only, and the body shows them all, numbered from the offset of the
    page.  On a page after the first (with at most a page of rows loaded)
    these indices address no row of [filteredData]: the visible-only
    export is empty, and selecting a row of the body adds no row to what
    [getSelectedRows] returns. *)
Theorem remote_page_offsets (pagination : bool) (g : Grid) (size page : Z) :
  cfg_serverSide (config g) = true ->
  pageSize g = num_of_Z size -> (0 < size)%Z ->
  currentPage g = num_of_Z page -> (2 <= page)%Z ->
  (Z.of_nat (List.length (filteredData g)) <= size)%Z ->
  map tr_row (renderBody pagination g) = filteredData g
  /\ getExportData false true g = []
  /\ (forall r, In r (renderBody pagination g) ->
        exists i : Z,
          tr_index r = num_of_Z i
          /\ nth_error (filteredData g) (Z.to_nat i) = None
          /\ getSelectedRows (selectRow i true g)
             = if cfg_multiSelect (config g) then getSelectedRows g else []).
Proof.
  intros Hr Hs Hpos Hp Hpage Hlen. split; [|split].
  - unfold renderBody. destruct (List.length (filteredData g) =? 0)%nat eqn:E.
    + apply Nat.eqb_eq, length_zero_iff_nil in E. now rewrite E.
    + cbv zeta. rewrite Hr, map_map. cbn [tr_row]. apply (map_snd_combine_seq _ 0).
  - unfold getExportData. cbn [andb]. cbv zeta. rewrite Hs, Hp.
    rewrite num_sub_Z, num_mul_Z, num_add_Z, slice_Z by nia.
    rewrite skipn_all2 by nia. apply firstn_nil.
  - intros r. unfold renderBody.
    destruct (List.length (filteredData g) =? 0)%nat; [contradiction|].
    cbv zeta. rewrite Hr, Hs, Hp, num_sub_Z, num_mul_Z.
    intros H. apply in_map_iff in H. destruct H as ([k row] & <- & Hin).
    cbn [fst snd tr_index]. unfold num_of_nat. rewrite num_add_Z.
    exists ((page - 1) * size + Z.of_nat k)%Z. split; [reflexivity|]. split.
    + apply nth_error_None. nia.
    + apply getSelectedRows_beyond. nia.
Qed.

(** ** The pagination bar *)

(** X14. The listener of the pagination bar, in local mode with the current
    page within the pages: first goes to page 1, previous to the page
    before (or stays on page 1), next to the page after (or stays on the
    last page), last to the last page; previous after next comes back to
    the page; a page-number button goes to its page when that page exists
    and leaves the page alone otherwise. *)
Theorem paginationHandler_moves (g : Grid) (size page : Z) :
  cfg_serverSide (config g) = false ->
  pageSize g = num_of_Z size -> (0 < size)%Z ->
  currentPage g = num_of_Z page ->
  let last := ((Z.of_nat (List.length (filteredData g)) + size - 1) / size)%Z in
  (1 <= page <= last)%Z ->
  currentPage (paginationHandler FirstPage g) = num_of_Z 1
  /\ currentPage (paginationHandler PrevPage g) = num_of_Z (Z.max 1 (page - 1))
  /\ currentPage (paginationHandler NextPage g) = num_of_Z (Z.min last (page + 1))
  /\ currentPage (paginationHandler LastPage g) = num_of_Z last
  /\ ((page < last)%Z ->
      currentPage (paginationHandler PrevPage (paginationHandler NextPage g))
      = num_of_Z page)
  /\ (forall target : Z,
        currentPage (paginationHandler (PageNumber (num_of_Z target)) g)
        = if (1 <=? target)%Z && (target <=? last)%Z
          then num_of_Z target else num_of_Z page).
Proof.
  intros Hl Hs Hpos Hp last Hpage.
  assert (Htotal : totalPages g = num_of_Z last) by now apply totalPages_local.
  assert (Hgo : forall (h : Grid) (p : Z),
             config h = config g -> pageSize h = pageSize g ->
             filteredData h = filteredData g ->
             currentPage (goToPage (num_of_Z p) h)
             = if (1 <=? p)%Z && (p <=? last)%Z then num_of_Z p else currentPage h).
  { intros h p Hc Hsz Hf.
    rewrite (goToPage_local h size p) by congruence. rewrite Hf.
    replace ((p - 1) * size <? Z.of_nat (List.length (filteredData g)))%Z
      with (p <=? last)%Z
      by (subst last; apply eq_true_iff_eq; rewrite Z.ltb_lt, Z.leb_le;
          now apply within_pages).
    destruct ((1 <=? p)%Z && (p <=? last)%Z); reflexivity. }
  assert (Hin : forall p, (1 <= p <= last)%Z -> (1 <=? p)%Z && (p <=? last)%Z = true).
  { intros p Hrange. apply andb_true_iff. split; apply Z.leb_le; lia. }
  unfold paginationHandler. cbv zeta. rewrite Htotal, Hp.
  rewrite !num_sub_Z, !num_add_Z, num_max_Z, num_min_Z.
  repeat split.
  - rewrite Hgo by reflexivity. now rewrite Hin by lia.
  - rewrite Hgo by reflexivity. now rewrite Hin by lia.
  - rewrite Hgo by reflexivity. now rewrite Hin by lia.
  - rewrite Hgo by reflexivity. now rewrite Hin by lia.
  - intros Hlt.
    assert (Hnext : goToPage (num_of_Z (Z.min last (page + 1))) g
                    = emit (PAGE_CHANGE (num_of_Z (page + 1)))
                        (render (set_currentPage (num_of_Z (page + 1)) g))).
    { rewrite Z.min_r by lia. rewrite (goToPage_local g size (page + 1) Hl Hs Hpos).
      replace (1 <=? page + 1)%Z with true by (symmetry; apply Z.leb_le; lia).
      replace (_ <? _)%Z with true
        by (symmetry; apply Z.ltb_lt; apply within_pages; [exact Hpos|fold last; lia]).
      reflexivity. }
    rewrite Hnext.
    cbn [currentPage emit effect render set_trace set_currentPage].
    rewrite num_sub_Z, num_max_Z, Hgo by reflexivity.
    rewrite Hin by lia. f_equal. lia.
  - intros target. rewrite Hl. unfold num_geb. rewrite !num_leb_Z.
    destruct ((1 <=? target)%Z && (target <=? last)%Z) eqn:E.
    + rewrite Hgo by reflexivity. now rewrite E.
    + exact Hp.
Qed.

(** ** The page numbers *)

Lemma Qfloor_sub_Z (a b : Z) : Qfloor (inject_Z b - inject_Z a) = (b - a)%Z.
Proof. unfold Qminus. rewrite inject_Z_sub. apply Qfloor_Z. Qed.

(** A loop between whole numbers. *)
Lemma for_up_Z (a b : Z) :
  for_up (num_of_Z a) (num_of_Z b)
  = Some (map (fun k => num_of_Z (a + Z.of_nat k)) (seq 0 (Z.to_nat (b - a + 1)))).
Proof.
  unfold for_up, num_of_Z. rewrite Qle_bool_inject_Z, Qfloor_sub_Z. f_equal.
  destruct (a <=? b)%Z eqn:E.
  - apply Z.leb_le in E. replace (Z.to_nat (b - a + 1)) with (S (Z.to_nat (b - a))) by lia.
    apply map_ext. intros k. now rewrite inject_Z_add.
  - apply Z.leb_gt in E. now replace (Z.to_nat (b - a + 1)) with 0%nat by lia.
Qed.

Lemma page_run_S (g : Grid) (first : Z) (count : nat) :
  page_run g first (S count)
  = createPageButton (num_of_Z first) g :: page_run g (first + 1) count.
Proof.
  unfold page_run. cbn [seq map]. rewrite Z.add_0_r. f_equal.
  rewrite <- seq_shift, !map_map. apply map_ext. intros k. do 2 f_equal. lia.
Qed.

Lemma gaps_marked_run (g : Grid) (count : nat) (first : Z) (rest : list PageItem) :
  gaps_marked (first + Z.of_nat count - 1) false rest ->
  gaps_marked (first - 1) false (page_run g first count ++ rest).
Proof.
  revert first. induction count as [|count IH]; intros first H.
  - cbn. now replace (first + Z.of_nat 0 - 1)%Z with (first - 1)%Z in H by lia.
  - rewrite page_run_S. cbn. exists first. split; [reflexivity|]. split; [lia|].
    replace first with (first + 1 - 1)%Z at 1 by lia. apply IH.
    now replace (first + 1 + Z.of_nat count - 1)%Z
      with (first + Z.of_nat (S count) - 1)%Z by lia.
Qed.

Lemma page_run_buttons (g : Grid) (first : Z) (count : nat) :
  List.length (filter is_button (page_run g first count)) = count.
Proof.
  revert first. induction count as [|count IH]; intros first; [reflexivity|].
  rewrite page_run_S. cbn. now rewrite IH.
Qed.

Lemma In_page_run (g : Grid) (first : Z) (count : nat) (page : Z) :
  (first <= page < first + Z.of_nat count)%Z ->
  In (createPageButton (num_of_Z page) g) (page_run g first count).
Proof.
  intros H. unfold page_run.
  apply (in_map (fun i => createPageButton i g)). apply in_map_iff.
  exists (Z.to_nat (page - first)). split; [f_equal; lia|]. apply in_seq. lia.
Qed.

Lemma page_run_active (g : Grid) (first : Z) (count : nat) (n : number) (a : bool) :
  In (PageButton n a) (page_run g first count) -> a = num_eqb n (currentPage g).
Proof.
  unfold page_run. rewrite map_map. intros H. apply in_map_iff in H.
  destruct H as (k & H & _). unfold createPageButton in H. now injection H as <- <-.
Qed.

(** X13. The page numbers that [renderPagination] shows, for a current page
    within the pages: the first item is the button of page 1 and the last
    item the button of the last page; the buttons go upwards, and an
    ellipsis stands exactly where page numbers are left out; at most seven
    buttons are shown; the button of the current page is among them, and it
    is the only one marked active. *)
Theorem renderPagination_marks_gaps (g : Grid) (last page : Z) :
  totalPages g = num_of_Z last -> currentPage g = num_of_Z page ->
  (1 <= page <= last)%Z ->
  exists items,
    renderPagination g = Some items
    /\ hd_error items = Some (PageButton (num_of_Z 1) (1 =? page)%Z)
    /\ gaps_marked 0 false items
    /\ List.last items PageEllipsis = PageButton (num_of_Z last) (last =? page)%Z
    /\ (List.length (filter is_button items) <= 7)%nat
    /\ In (PageButton (num_of_Z page) true) items
    /\ (forall n a, In (PageButton n a) items -> a = num_eqb n (num_of_Z page)).
Proof.
  intros Ht Hp Hrange. unfold renderPagination. cbv zeta. rewrite Ht, Hp.
  unfold DEFAULTS_MAX_VISIBLE_PAGES, DEFAULTS_PAGINATION_DELTA, num_gtb.
  rewrite !num_sub_Z, !num_add_Z, num_max_Z, num_min_Z, num_leb_Z, !num_ltb_Z.
  rewrite !for_up_Z. cbn [option_map].
  assert (Hself : createPageButton (num_of_Z page) g = PageButton (num_of_Z page) true).
  { unfold createPageButton. now rewrite Hp, num_eqb_Z, Z.eqb_refl. }
  assert (Hlast : createPageButton (num_of_Z last) g
                  = PageButton (num_of_Z last) (last =? page)%Z).
  { unfold createPageButton. now rewrite Hp, num_eqb_Z. }
  assert (Hhead : createPageButton (num_of_Z 1) g
                  = PageButton (num_of_Z 1) (1 =? page)%Z).
  { unfold createPageButton. now rewrite Hp, num_eqb_Z. }
  destruct (last <=? 7)%Z eqn:E7.
  - apply Z.leb_le in E7.
    change (map (fun i => createPageButton i g)
              (map (fun k => num_of_Z (1 + Z.of_nat k)) (seq 0 (Z.to_nat (last - 1 + 1)))))
      with (page_run g 1 (Z.to_nat (last - 1 + 1))).
    eexists. split; [reflexivity|]. split; [|split; [|split; [|split; [|split]]]].
    + replace (Z.to_nat (last - 1 + 1)) with (S (Z.to_nat (last - 1))) by lia.
      rewrite page_run_S. cbn [hd_error]. now rewrite Hhead.
    + rewrite <- (app_nil_r (page_run _ _ _)).
      apply (gaps_marked_run g _ 1). reflexivity.
    + replace (Z.to_nat (last - 1 + 1)) with (S (Z.to_nat (last - 1))) by lia.
      unfold page_run. rewrite seq_S, !map_app. cbn [map].
      rewrite last_last, <- Hlast. do 2 f_equal. lia.
    + rewrite page_run_buttons. lia.
    + rewrite <- Hself. apply In_page_run. lia.
    + intros n a H. rewrite <- Hp. now apply page_run_active in H.
  - apply Z.leb_gt in E7.
    replace (1 <? last)%Z with true by (symmetry; apply Z.ltb_lt; lia).
    set (first := Z.max 2 (page - 2)). set (final := Z.min (last - 1) (page + 2)).
    change (map (fun i => createPageButton i g)
              (map (fun k => num_of_Z (first + Z.of_nat k))
                   (seq 0 (Z.to_nat (final - first + 1)))))
      with (page_run g first (Z.to_nat (final - first + 1))).
    eexists. split; [reflexivity|]. split; [|split; [|split; [|split; [|split]]]].
    + cbn [app hd_error]. now rewrite Hhead.
    + cbn [app gaps_marked]. exists 1%Z. split; [reflexivity|]. split; [reflexivity|].
      assert (Htail : gaps_marked final false
                        ((if (page <? last - 3)%Z then [createEllipsis] else [])
                           ++ [createPageButton (num_of_Z last) g])).
      { rewrite Hlast. destruct (page <? last - 3)%Z eqn:E.
        - apply Z.ltb_lt in E. cbn. split; [reflexivity|].
          exists last. split; [reflexivity|]. split; [subst final; lia|reflexivity].
        - apply Z.ltb_ge in E. cbn.
          exists last. split; [reflexivity|]. split; [subst final; lia|reflexivity]. }
      destruct (4 <? page)%Z eqn:E4.
      * apply Z.ltb_lt in E4. cbn [app gaps_marked createEllipsis].
        split; [reflexivity|].
        replace (Z.to_nat (final - first + 1)) with (S (Z.to_nat (final - first)))
          by (subst first final; lia).
        rewrite page_run_S. cbn [app gaps_marked createPageButton].
        exists first. split; [reflexivity|]. split; [subst first; lia|].
        replace first with (first + 1 - 1)%Z at 1 by lia.
        apply gaps_marked_run.
        replace (first + 1 + Z.of_nat (Z.to_nat (final - first)) - 1)%Z with final
          by (subst first final; lia).
        exact Htail.
      * apply Z.ltb_ge in E4. cbn [app].
        replace 1%Z with (first - 1)%Z at 1 by (subst first; lia).
        apply gaps_marked_run.
        replace (first + Z.of_nat (Z.to_nat (final - first + 1)) - 1)%Z with final
          by (subst first final; lia).
        exact Htail.
    + rewrite !app_assoc. rewrite last_last. exact Hlast.
    + rewrite !filter_app, !length_app, page_run_buttons. cbn [filter is_button List.length createPageButton].
      destruct (4 <? page)%Z, (page <? last - 3)%Z; cbn; subst first final; lia.
    + rewrite <- Hself.
      destruct (Z.eq_dec page 1) as [->|H1]; [now left|].
      destruct (Z.eq_dec page last) as [->|H2].
      { rewrite !app_assoc. apply in_or_app. right. now left. }
      cbn [app]. right. apply in_or_app. right. apply in_or_app. left.
      apply In_page_run. subst first final. lia.
    + intros n a H. rewrite <- Hp. cbn [app] in H.
      destruct H as [H|H]; [unfold createPageButton in H; now injection H as <- <-|].
      apply in_app_or in H. destruct H as [H|H].
      { destruct (4 <? page)%Z; [|contradiction].
        destruct H as [H|[]]. discriminate. }
      apply in_app_or in H. destruct H as [H|H]; [now apply page_run_active in H|].
      apply in_app_or in H. destruct H as [H|H].
      { destruct (page <? last - 3)%Z; [|contradiction].
        destruct H as [H|[]]. discriminate. }
      destruct H as [H|[]]. unfold createPageButton in H. now injection H as <- <-.
Qed.

(** ** Reading a record: [getCellValue] and [getNestedValue] *)

Lemma split_dot_cons (s : string) : exists seg segs, split_dot s = seg :: segs.
Proof.
  induction s as [|c s (seg & segs & IH)]; cbn; [eauto|].
  destruct (Ascii.eqb c dot); [eauto|]. rewrite IH. eauto.
Qed.

Lemma split_dot_app (p q : string) :
  split_dot (p ++ "." ++ q) = (split_dot p ++ split_dot q)%list.
Proof.
  induction p as [|c p IH]; [reflexivity|].
  cbn [append split_dot]. destruct (Ascii.eqb c dot).
  - cbn [append] in IH. rewrite IH. reflexivity.
  - cbn [append] in IH. rewrite IH.
    destruct (split_dot_cons p) as (seg & segs & ->). reflexivity.
Qed.

Lemma walk_step_defined (miss current : value) (k : string) :
  miss <> VUndefined -> walk_step miss current k <> VUndefined.
Proof.
  intros Hm. unfold walk_step.
  destruct (truthy current); cbn [andb]; [|exact Hm].
  destruct (get_prop current k); cbn; try discriminate. exact Hm.
Qed.

Lemma walk_defined (miss : value) (segs : list string) (start : value) :
  miss <> VUndefined -> segs <> [] ->
  fold_left (walk_step miss) segs start <> VUndefined.
Proof.
  intros Hm. revert start. induction segs as [|k segs IH]; intros start Hn; [congruence|].
  cbn [fold_left]. destruct segs as [|k' segs].
  - cbn. now apply walk_step_defined.
  - apply IH. discriminate.
Qed.

Lemma walk_falsy (miss : value) (segs : list string) (start : value) :
  truthy miss = false -> truthy start = false -> segs <> [] ->
  fold_left (walk_step miss) segs start = miss.
Proof.
  intros Hm. revert start. induction segs as [|k segs IH]; intros start Hs Hn; [congruence|].
  cbn [fold_left]. assert (E : walk_step miss start k = miss)
    by (unfold walk_step; now rewrite Hs).
  rewrite E. destruct segs as [|k' segs]; [reflexivity|].
  apply IH; [exact Hm|discriminate].
Qed.

Lemma split_dot_nonempty (s : string) : split_dot s <> [].
Proof. destruct (split_dot_cons s) as (seg & segs & ->). discriminate. Qed.

(** X1. Neither accessor hands out [undefined] of its own: [getCellValue]
    never returns [undefined], and for a key without a dot it never returns
    [null] either (a missing or empty cell reads as the empty string);
    [getNestedValue] returns [undefined] only when the object it is given
    is itself [undefined] (a missing segment reads as [null]). *)
Theorem accessors_never_undefined (row obj : value) (k path : string) :
  getCellValue row k <> VUndefined
  /\ (has_dot k = false -> getCellValue row k <> VNull)
  /\ (getNestedValue obj path = VUndefined -> obj = VUndefined).
Proof.
  split; [|split].
  - unfold getCellValue.
    destruct (negb (truthy row) || negb (typeof_object row)); [discriminate|].
    destruct (k =? ""); [discriminate|].
    destruct (has_dot k).
    + apply (walk_defined (VStr "")); [discriminate|apply split_dot_nonempty].
    + cbv zeta. destruct (get_prop row k); cbn; discriminate.
  - intros Hd. unfold getCellValue. rewrite Hd.
    destruct (negb (truthy row) || negb (typeof_object row)); [discriminate|].
    destruct (k =? ""); [discriminate|].
    cbv zeta. destruct (get_prop row k); cbn; discriminate.
  - unfold getNestedValue.
    destruct ((path =? "") || negb (truthy obj)); [auto|].
    intros H. exfalso. revert H.
    apply (walk_defined VNull); [discriminate|apply split_dot_nonempty].
Qed.

Lemma append_nonempty (p q : string) : p <> "" -> (p ++ q =? "") = false.
Proof. destruct p; [congruence|reflexivity]. Qed.

(** X2. Paths compose: for a truthy object and two non-empty paths, reading
    the path [p.q] is reading [q] in what [p] reads, as long as that is
    truthy; when [p] reads a falsy value ([null], [0], [false], the empty
    string), the longer path reads [null]. *)
Theorem getNestedValue_compose (obj : value) (p q : string) :
  truthy obj = true -> p <> "" -> q <> "" ->
  getNestedValue obj (p ++ "." ++ q)
  = if truthy (getNestedValue obj p)
    then getNestedValue (getNestedValue obj p) q
    else VNull.
Proof.
  intros Ho Hp Hq. unfold getNestedValue at 1.
  rewrite (append_nonempty p _ Hp), Ho. cbn [orb negb].
  rewrite split_dot_app, fold_left_app.
  assert (E : getNestedValue obj p
              = fold_left (walk_step VNull) (split_dot p) obj).
  { unfold getNestedValue. apply String.eqb_neq in Hp. now rewrite Hp, Ho. }
  change (fold_left (walk_step VNull) (split_dot q)
            (fold_left (walk_step VNull) (split_dot p) obj)
          = if truthy (getNestedValue obj p)
            then getNestedValue (getNestedValue obj p) q else VNull).
  rewrite <- E. destruct (truthy (getNestedValue obj p)) eqn:Ht.
  - unfold getNestedValue at 2. apply String.eqb_neq in Hq. now rewrite Hq, Ht.
  - apply walk_falsy; [reflexivity|exact Ht|apply split_dot_nonempty].
Qed.

(** ** The selection *)

Lemma In_set_delete (x j : Z) (s : list Z) : In j (set_delete x s) <-> In j s /\ j <> x.
Proof.
  unfold set_delete. rewrite filter_In, negb_true_iff, Z.eqb_neq. reflexivity.
Qed.

(** X5. [selectRow]: in single-select mode the selection becomes the one
    index when the row is selected and becomes empty when any row is
    deselected; in multi-select mode the index is added to or taken out of
    the selection and the other indices stay. *)
Theorem selectRow_selection (index : Z) (selected : bool) (g : Grid) :
  (cfg_multiSelect (config g) = false ->
   selectedRows (selectRow index selected g) = if selected then [index] else [])
  /\ (cfg_multiSelect (config g) = true ->
      forall j, In j (selectedRows (selectRow index selected g))
                <-> if selected then In j (selectedRows g) \/ j = index
                    else In j (selectedRows g) /\ j <> index).
Proof.
  unfold selectRow. cbv zeta. split; intros Hm; rewrite Hm.
  - destruct selected; reflexivity.
  - intros j. destruct selected; cbn [emit effect render selectedRows set_trace
                                      set_selectedRows].
    + apply In_set_add.
    + apply In_set_delete.
Qed.

Lemma In_add_all (count : nat) (start : nat) (s : list Z) (j : Z) :
  In j (fold_left (fun selection index => set_add (Z.of_nat index) selection)
                  (seq start count) s)
  <-> In j s \/ (Z.of_nat start <= j < Z.of_nat (start + count)).
Proof.
  revert start s. induction count as [|count IH]; intros start s; cbn [seq fold_left].
  - split; [now left|]. intros [H|H]; [exact H|lia].
  - rewrite IH, In_set_add. split.
    + intros [[H|H]|H]; [now left| right; lia | right; lia].
    + intros [H|H]; [now left; left|].
      destruct (Z.eq_dec j (Z.of_nat start)); [left; now right|right; lia].
Qed.

(** X6. [selectAll(true)] adds the index of every row of [filteredData] (of
    all pages, and in single-select mode too) to what was selected;
    [selectAll(false)] empties the selection; the event carries the new
    selection, and the rows are left alone and rendered once. *)
Theorem selectAll_selection (g : Grid) :
  (forall j, In j (selectedRows (fst (selectAll true g)))
             <-> In j (selectedRows g)
                 \/ (0 <= j < Z.of_nat (List.length (filteredData g))))
  /\ selectedRows (fst (selectAll false g)) = []
  /\ (forall selected,
        snd (selectAll selected g)
        = SELECT_ALL selected (selectedRows (fst (selectAll selected g))))
  /\ (forall selected,
        filteredData (fst (selectAll selected g)) = filteredData g
        /\ trace (fst (selectAll selected g)) = Render :: trace g).
Proof.
  split; [|split; [|split]].
  - intros j. unfold selectAll. cbn. rewrite In_add_all. cbn. reflexivity.
  - reflexivity.
  - intros []; reflexivity.
  - intros []; split; reflexivity.
Qed.

Lemma add_all_fresh (count start : nat) :
  fold_left (fun selection index => set_add (Z.of_nat index) selection)
            (seq start count) (map Z.of_nat (seq 0 start))
  = map Z.of_nat (seq 0 (start + count)).
Proof.
  revert start. induction count as [|count IH]; intros start; cbn [seq fold_left].
  - now rewrite Nat.add_0_r.
  - assert (E : set_add (Z.of_nat start) (map Z.of_nat (seq 0 start))
                = map Z.of_nat (seq 0 (S start))).
    { unfold set_add.
      destruct (existsb (Z.eqb (Z.of_nat start)) (map Z.of_nat (seq 0 start))) eqn:E.
      - apply existsb_exists in E. destruct E as (x & Hx & Hxe).
        apply in_map_iff in Hx. destruct Hx as (k & <- & Hk).
        apply in_seq in Hk. apply Z.eqb_eq in Hxe. lia.
      - rewrite seq_S, map_app. reflexivity. }
    rewrite E, IH. f_equal. f_equal. lia.
Qed.

Lemma map_nth_seq {A : Type} (l : list A) (d : A) :
  map (fun i => nth i l d) (seq 0 (List.length l)) = l.
Proof.
  induction l as [|x l IH]; [reflexivity|].
  cbn [List.length seq map nth]. f_equal.
  rewrite <- seq_shift, map_map. exact IH.
Qed.

(** X7. After [clearSelection] no row is selected; selecting all rows then
    makes [getSelectedRows] return the (truthy) rows of [filteredData], in
    their order. *)
Theorem selectAll_getSelectedRows (g : Grid) :
  getSelectedRows (fst (clearSelection g)) = []
  /\ getSelectedRows (fst (selectAll true (fst (clearSelection g))))
     = filter truthy (filteredData g).
Proof.
  split; [reflexivity|].
  unfold getSelectedRows, selectAll, clearSelection.
  cbn [fst render effect set_trace selectedRows filteredData set_selectedRows].
  change (@nil Z) with (map Z.of_nat (seq 0 0)) at 1.
  rewrite (add_all_fresh (List.length (filteredData g)) 0). cbn [Nat.add].
  rewrite map_map. f_equal.
  transitivity (map (fun i => nth i (filteredData g) VUndefined)
                    (seq 0 (List.length (filteredData g))));
    [|apply map_nth_seq].
  apply map_ext. intros i.
  destruct (Z.of_nat i <? 0)%Z eqn:E; [apply Z.ltb_lt in E; lia|].
  now rewrite Nat2Z.id.
Qed.

(** ** The event registry: subscribing and unsubscribing *)

Section Registry.

Context {P W : Type}.
Implicit Types (events : EventBus.Events P W) (cb : EventBus.Callback P W).

Lemma subscribers_assign (event : string) (cbs : list (EventBus.Callback P W)) events :
  EventBus.subscribers event (EventBus.assign P W event cbs events) = Some cbs.
Proof.
  induction events as [|[name old] rest IH]; cbn.
  - now rewrite String.eqb_refl.
  - destruct (name =? event) eqn:E; cbn; rewrite E; [reflexivity|exact IH].
Qed.

Lemma subscribers_assign_other (event other : string)
      (cbs : list (EventBus.Callback P W)) events :
  other <> event ->
  EventBus.subscribers other (EventBus.assign P W event cbs events)
  = EventBus.subscribers other events.
Proof.
  intros Hne. induction events as [|[name old] rest IH]; cbn.
  - destruct (event =? other) eqn:E; [|reflexivity].
    apply String.eqb_eq in E. congruence.
  - destruct (name =? event) eqn:E; cbn.
    + apply String.eqb_eq in E. subst name.
      destruct (event =? other) eqn:E'; [|reflexivity].
      apply String.eqb_eq in E'. congruence.
    + destruct (name =? other); [reflexivity|exact IH].
Qed.

Lemma called_app (cbs : list (EventBus.Callback P W)) cb (d : P) (w w' : W) :
  EventBus.forEach cbs d w = EventBus.Returns w' ->
  EventBus.called (cbs ++ [cb]) d w
  = (EventBus.called cbs d w ++ [EventBus.cb_id cb])%list
  /\ EventBus.forEach (cbs ++ [cb]) d w = EventBus.cb_call cb d w'.
Proof.
  revert w. induction cbs as [|c cbs IH]; intros w H; cbn in *.
  - injection H as ->. destruct (EventBus.cb_call cb d w'); now split.
  - destruct (EventBus.cb_call c d w) as [w1|e w1]; [|discriminate].
    destruct (IH w1 H) as [H1 H2]. split; [now rewrite H1|exact H2].
Qed.

Lemma called_filter (keep : EventBus.Callback P W -> bool)
      (cbs : list (EventBus.Callback P W)) (d : P) (w : W) (id : nat) :
  In id (EventBus.called (filter keep cbs) d w) ->
  exists c, In c cbs /\ keep c = true /\ EventBus.cb_id c = id.
Proof.
  revert w. induction cbs as [|c cbs IH]; intros w H; cbn in *; [contradiction|].
  destruct (keep c) eqn:K.
  - cbn in H. destruct H as [H|H]; [eauto|].
    destruct (EventBus.cb_call c d w) as [w1|e w1]; [|contradiction].
    destruct (IH w1 H) as (c' & Hin & Hk & Hid). eauto.
  - destruct (IH w H) as (c' & Hin & Hk & Hid). eauto.
Qed.

Lemma subscribers_on (event : string) cb events :
  EventBus.subscribers event (EventBus.on event cb events)
  = Some (match EventBus.subscribers event events with
          | Some cbs => cbs
          | None => []
          end ++ [cb])%list.
Proof.
  unfold EventBus.on. destruct (EventBus.subscribers event events);
    apply subscribers_assign.
Qed.

(** X3. For an event name that [Object.prototype] does not define, [on]
    appends the callback to the subscribers of its event and leaves the
    other events alone: when the earlier subscribers all return, [emit]
    calls them and then the new one, which so is called once for each time
    it was subscribed. *)
Theorem on_appends_subscriber (event : string) cb events :
  EventBus.inherited event = false ->
  EventBus.subscribers event (EventBus.on event cb events)
  = Some (match EventBus.subscribers event events with
          | Some cbs => cbs
          | None => []
          end ++ [cb])%list
  /\ (forall other, other <> event ->
        EventBus.subscribers other (EventBus.on event cb events)
        = EventBus.subscribers other events)
  /\ (forall (d : P) (w w' : W),
        EventBus.emit event d events w = EventBus.Returns w' ->
        EventBus.emit event d (EventBus.on event cb events) w = EventBus.cb_call cb d w'
        /\ EventBus.delivered event d (EventBus.on event cb events) w
           = (EventBus.delivered event d events w ++ [EventBus.cb_id cb])%list).
Proof.
  intros _. pose proof (subscribers_on event cb events) as Hsub.
  split; [exact Hsub|split].
  - intros other Hne. unfold EventBus.on.
    destruct (EventBus.subscribers event events); now apply subscribers_assign_other.
  - intros d w w' H. unfold EventBus.emit, EventBus.delivered in *. rewrite Hsub.
    destruct (EventBus.subscribers event events) as [cbs|].
    + destruct (called_app cbs cb d w w' H) as [H1 H2]. now split.
    + injection H as ->. cbn. destruct (EventBus.cb_call cb d w'); now split.
Qed.

(** X4. For an event name that [Object.prototype] does not define: after
    [off(event, callback)] no [emit] of that event calls the callback,
    however often it had been subscribed; the other events keep their
    subscribers; and subscribing a callback that was not subscribed and
    unsubscribing it again leaves [emit] as it was. *)
Theorem off_removes_subscriber (event : string) cb events :
  EventBus.inherited event = false ->
  (forall (d : P) (w : W),
     ~ In (EventBus.cb_id cb) (EventBus.delivered event d (EventBus.off event cb events) w))
  /\ (forall other, other <> event ->
        EventBus.subscribers other (EventBus.off event cb events)
        = EventBus.subscribers other events)
  /\ ((forall cbs c, EventBus.subscribers event events = Some cbs -> In c cbs ->
                     EventBus.cb_id c <> EventBus.cb_id cb) ->
      forall (d : P) (w : W),
        EventBus.emit event d (EventBus.off event cb (EventBus.on event cb events)) w
        = EventBus.emit event d events w).
Proof.
  intros _. split; [|split].
  - intros d w H. unfold EventBus.delivered, EventBus.off in H.
    destruct (EventBus.subscribers event events) as [cbs|] eqn:E.
    + rewrite subscribers_assign in H.
      apply called_filter in H. destruct H as (c & _ & Hk & Hid).
      rewrite Hid, Nat.eqb_refl in Hk. discriminate.
    + rewrite E in H. contradiction.
  - intros other Hne. unfold EventBus.off.
    destruct (EventBus.subscribers event events); [|reflexivity].
    now apply subscribers_assign_other.
  - intros Hnew d w. unfold EventBus.emit, EventBus.off.
    rewrite subscribers_on, subscribers_assign.
    rewrite filter_app. cbn [filter]. rewrite Nat.eqb_refl. cbn [negb].
    rewrite app_nil_r.
    destruct (EventBus.subscribers event events) as [cbs|] eqn:E; [|reflexivity].
    rewrite filter_all; [reflexivity|].
    intros c Hc. apply negb_true_iff, Nat.eqb_neq. now apply (Hnew cbs).
Qed.

End Registry.

(** ** Removing a row: the validation and the page *)


(** ** The constructor *)

(** X26. The constructor.  In remote mode without [ajax.url] it throws.  In
    local mode the grid starts with the configured rows, all shown, on page
    1 with nothing selected, rendered once and idle.  In remote mode (with
    the default request data and no pre-send hook) it starts with no rows
    and nothing rendered, busy, with one request sent: page 1, the
    configured page size, no term, no sort column, direction ['asc'] and
    the token 1. *)
Theorem constructor_starts (cfg : Config) :
  (cfg_serverSide cfg = true -> url_set (url (cfg_ajax cfg)) = false ->
   QMGrid_new cfg = None)
  /\ (cfg_serverSide cfg = false ->
      exists g,
        QMGrid_new cfg = Some g
        /\ originalData g = cfg_data cfg /\ filteredData g = cfg_data cfg
        /\ currentPage g = num_of_Z 1 /\ pageSize g = cfg_pageSize cfg
        /\ selectedRows g = []
        /\ trace g = [Render]
        /\ pending g = [] /\ isLoading g = false)
  /\ (cfg_serverSide cfg = true -> url_set (url (cfg_ajax cfg)) = true ->
      data (cfg_ajax cfg) = None -> beforeSend (cfg_ajax cfg) = None ->
      exists g,
        QMGrid_new cfg = Some g
        /\ originalData g = [] /\ filteredData g = []
        /\ isLoading g = true
        /\ count is_render g = 0%nat
        /\ requests g
           = [params_value {| p_page := num_of_Z 1; p_pageSize := cfg_pageSize cfg;
                              p_search := ""; p_sortBy := None; p_sortDir := Asc;
                              p_draw := 1 |}]).
Proof.
  split; [|split].
  - intros Hr Hu. unfold QMGrid_new. now rewrite Hr, Hu.
  - intros Hl. unfold QMGrid_new. rewrite Hl. eexists. split; [reflexivity|].
    cbn. rewrite Hl. repeat split.
  - intros Hr Hu Hd Hh. unfold QMGrid_new. rewrite Hr, Hu.
    eexists. split; [reflexivity|].
    assert (Hveto : vetoed (issued (initial cfg)) = false)
      by (unfold vetoed; cbn; now rewrite Hh).
    destruct (loadServerData_sent (initial cfg)) as (_ & _ & Str & Sl & _);
      [exact Hu|reflexivity|reflexivity|exact Hveto|].
    pose proof (kept_loadServerData (initial cfg)) as Hk. unfold kept in Hk.
    injection Hk as Ho Hf _ _.
    split; [rewrite Ho; cbn; now rewrite Hr|].
    split; [rewrite Hf; cbn; now rewrite Hr|].
    split; [exact Sl|].
    unfold requests, count. rewrite Str. cbn. split; [reflexivity|].
    unfold request_data. cbn. now rewrite Hd.
Qed.

(** ** Examples *)

(** A host for the examples: whole numbers are shown in decimal (the other
    finite numbers as a quotient), values of one kind are compared in their
    order, and [sort] is a stable insertion sort. *)
Definition show_number (n : number) : string :=
  match n with
  | Fin q =>
      if (Zpos (Qden (Qred q)) =? 1)%Z
      then NilZero.string_of_int (Z.to_int (Qnum (Qred q)))
      else NilZero.string_of_int (Z.to_int (Qnum (Qred q))) ++ "/"
             ++ NilZero.string_of_int (Z.to_int (Zpos (Qden (Qred q))))
  | NaN => "NaN"
  | Inf true => "-Infinity"
  | Inf false => "Infinity"
  end.

Definition less_than (a b : value) : bool :=
  match a, b with
  | VNum x, VNum y => num_ltb x y
  | VStr s, VStr t => String.ltb s t
  | _, _ => false
  end.

Fixpoint insert_by (cmp : value -> value -> Z) (x : value) (l : list value) : list value :=
  match l with
  | [] => [x]
  | y :: rest => if (cmp x y <? 0)%Z then x :: l else y :: insert_by cmp x rest
  end.

Definition insertion_sort (cmp : value -> value -> Z) (l : list value) : list value :=
  fold_right (insert_by cmp) [] l.

Definition play : Grid -> list Stimulus -> Grid :=
  run show_number less_than insertion_sort.

Definition name_column : Column := {| key := "name"; title := "Name" |}.

(** A remote grid with the default settings and the endpoint [/api/data]. *)
Definition remote_config : Config :=
  {| cfg_data := []; cfg_columns := [name_column];
     cfg_pageSize := num_of_Z DEFAULTS_PAGE_SIZE;
     cfg_searchable := true; cfg_multiSelect := false; cfg_serverSide := true;
     cfg_ajax := {| url := Some "/api/data"; method := "POST";
                    timeout := DEFAULTS_SERVER_TIMEOUT;
                    retryAttempts := DEFAULTS_MAX_RETRY_ATTEMPTS;
                    retryDelay := DEFAULTS_RETRY_DELAY;
                    data := None; beforeSend := None;
                    complete := false; error := false |};
     cfg_serverResponse := default_serverResponse |}.

(** The grid right after construction: the first request is suspended. *)
Definition remote_started : Grid := loadServerData (initial remote_config).

Definition named (s : string) : value := VObj [("name", VStr s)].

(** A first page of 25 records, echoing the token 1. *)
Definition first_page : value :=
  VObj [("data", VArr [named "Ada"; named "Bob"]); ("total", VInt 25); ("draw", VInt 1)].

(** The remote grid once its first page is committed: idle. *)
Definition remote_idle : Grid :=
  play remote_started
       [FetchSettles 0 (FetchResponse true 200 "OK"); JsonSettles 0 (JsonParsed first_page)].

(** The same remote grid with a pre-send hook that always returns [false]. *)
Definition veto_config : Config :=
  {| cfg_data := []; cfg_columns := [name_column];
     cfg_pageSize := num_of_Z DEFAULTS_PAGE_SIZE;
     cfg_searchable := true; cfg_multiSelect := false; cfg_serverSide := true;
     cfg_ajax := {| url := Some "/api/data"; method := "POST";
                    timeout := DEFAULTS_SERVER_TIMEOUT;
                    retryAttempts := DEFAULTS_MAX_RETRY_ATTEMPTS;
                    retryDelay := DEFAULTS_RETRY_DELAY;
                    data := None; beforeSend := Some (fun _ _ => VBool false);
                    complete := false; error := false |};
     cfg_serverResponse := default_serverResponse |}.

(** A local grid over the rows [rows], ten to a page. *)
Definition local_config (columns : list Column) (rows : list value) : Config :=
  {| cfg_data := rows; cfg_columns := columns;
     cfg_pageSize := num_of_Z DEFAULTS_PAGE_SIZE;
     cfg_searchable := true; cfg_multiSelect := true; cfg_serverSide := false;
     cfg_ajax := default_ajax; cfg_serverResponse := default_serverResponse |}.

Definition local_grid (columns : list Column) (rows : list value) : Grid :=
  effect Render (initial (local_config columns rows)).

Lemma remote_started_reachable :
  reachable show_number less_than insertion_sort remote_config remote_started.
Proof. exists remote_started, []. split; vm_compute; reflexivity. Qed.

(** *** Remote mode: tokens *)

(** The first request has been answered with a success status and its body
    is being read. *)
Definition remote_reading : Grid :=
  play remote_started [FetchSettles 0 (FetchResponse true 200 "OK")].

Lemma remote_reading_reachable :
  reachable show_number less_than insertion_sort remote_config remote_reading.
Proof.
  exists remote_started, [FetchSettles 0 (FetchResponse true 200 "OK")].
  split; vm_compute; reflexivity.
Qed.

(** A body that echoes no token. *)
Definition page_without_token : value :=
  VObj [("data", VArr [named "Ada"]); ("total", VInt 1)].

(** A body that echoes the token 7. *)
Definition page_with_token_7 : value :=
  VObj [("data", VArr [named "Zed"]); ("total", VInt 1); ("draw", VInt 7)].

(** C1, counterexample to the claim as stated: a response that echoes no
    token at all is committed, although no echoed token equals the latest
    issued token 1. *)
Lemma response_without_token_commits :
  requestId remote_reading = 1
  /\ getNestedValue page_without_token (r_draw (cfg_serverResponse remote_config))
     = VNull
  /\ originalData remote_reading = []
  /\ originalData (play remote_reading [JsonSettles 0 (JsonParsed page_without_token)])
     = [named "Ada"]
  /\ totalRecords (play remote_reading [JsonSettles 0 (JsonParsed page_without_token)])
     = num_of_Z 1.
Proof. vm_compute. repeat split; reflexivity. Qed.

(** C1, witness: the response echoing 7 to the request with token 1 is
    discarded. *)
Lemma commit_requires_latest_token_witness :
  kept (json_settles show_number 0 (JsonParsed page_with_token_7) remote_reading)
  = kept remote_reading
  /\ view_state (json_settles show_number 0 (JsonParsed page_with_token_7) remote_reading)
     = view_state remote_reading.
Proof.
  apply (proj2 (proj2 (commit_requires_latest_token
                         show_number less_than insertion_sort
                         remote_config remote_reading (Elapse 0)
                         eq_refl remote_reading_reachable))).
  - vm_compute; reflexivity.
  - vm_compute; reflexivity.
Defined.

(** *** Remote mode: a vetoed request *)

(** C4, counterexample to the claim as stated: with a hook that returns
    [false], the reconciliation of the constructor sends nothing and yet
    emits two events, [serverRequestStart] and [serverRequestEnd]. *)
Lemma vetoed_request_emits_events :
  vetoed (issued (initial veto_config)) = true
  /\ count is_fetch (loadServerData (initial veto_config)) = 0%nat
  /\ filter is_emit (trace (loadServerData (initial veto_config)))
     = [ Emit (SERVER_REQUEST_END
                 {| i_page := num_of_Z 1; i_search := ""; i_sort := None;
                    i_direction := Asc |});
         Emit (SERVER_REQUEST_START
                 {| i_page := num_of_Z 1; i_search := ""; i_sort := None;
                    i_direction := Asc |}) ].
Proof. vm_compute. repeat split; reflexivity. Qed.

(** C4, witness. *)
Lemma vetoed_request_effects_witness :
  count is_fetch (loadServerData (initial veto_config))
  = count is_fetch (initial veto_config)
  /\ view_state (loadServerData (initial veto_config)) = view_state (initial veto_config)
  /\ count is_emit (loadServerData (initial veto_config))
     = (2 + count is_emit (initial veto_config))%nat.
Proof.
  pose proof (vetoed_request_effects (initial veto_config)
                eq_refl eq_refl eq_refl eq_refl) as H.
  cbv zeta in H.
  destruct H as (H1 & _ & _ & H4 & _ & _ & _ & H8 & _).
  exact (conj H1 (conj H4 H8)).
Defined.

(** *** Remote mode: the retry budget *)

Definition network_down : Failure := NetworkFailure (Error "Failed to fetch").





(** *** Remote mode: mutations while a request is suspended *)

(** What the requests sent so far carry as [search]. *)
Definition searches (g : Grid) : list value :=
  map (fun d => get_prop d "search") (requests g).

(** C2, the code at the failing input: two direct calls [search("a")] and
    [search("ab")], 50 ms apart, on an idle remote grid.  The first call
    sends its request at once, with no time elapsed; the second call aborts
    that request and sends nothing, so the one request of the burst carries
    ["a"] and none carries the final term. *)
Theorem direct_search_is_not_debounced :
  searches remote_idle = [VStr ""]
  /\ searches (play remote_idle [CallSearch (VStr "a")]) = [VStr ""; VStr "a"]
  /\ now (play remote_idle [CallSearch (VStr "a")]) = now remote_idle
  /\ searches (play remote_idle
                 [CallSearch (VStr "a"); Elapse 50; CallSearch (VStr "ab"); Elapse 300])
     = [VStr ""; VStr "a"]
  /\ searchTerm (play remote_idle
                   [CallSearch (VStr "a"); Elapse 50; CallSearch (VStr "ab"); Elapse 300])
     = "ab"
  /\ aborted (play remote_idle
                [CallSearch (VStr "a"); Elapse 50; CallSearch (VStr "ab"); Elapse 300])
     = [1%nat].
Proof. vm_compute. repeat split; reflexivity. Qed.

(** The remote grid while the request for page 2 is suspended. *)
Definition remote_paging : Grid := play remote_idle [CallGoToPage (num_of_Z 2)].

(** C3, the code at the failing input: [sort("name")] while the request for
    page 2 is suspended.  The sort passes its validation and changes the
    state, the suspended request is aborted, and no request is sent for the
    sort, neither then nor when the aborted request has ended. *)
Theorem mutation_while_loading_sends_nothing :
  isLoading remote_paging = true
  /\ count is_fetch remote_paging = 2%nat
  /\ sortColumn (play remote_paging [CallSort (VStr "name") VUndefined]) = Some "name"
  /\ count is_fetch (play remote_paging [CallSort (VStr "name") VUndefined]) = 2%nat
  /\ aborted (play remote_paging [CallSort (VStr "name") VUndefined]) = [1%nat]
  /\ count is_fetch
       (play remote_paging
          [CallSort (VStr "name") VUndefined; FetchSettles 1 (FetchRejected AbortError)])
     = 2%nat
  /\ pending
       (play remote_paging
          [CallSort (VStr "name") VUndefined; FetchSettles 1 (FetchRejected AbortError)])
     = []
  /\ find is_retry
       (timers
          (play remote_paging
             [CallSort (VStr "name") VUndefined; FetchSettles 1 (FetchRejected AbortError)]))
     = None.
Proof. vm_compute. repeat split; reflexivity. Qed.

(** *** Local mode: filter and sort *)

Definition qty_column : Column := {| key := "qty"; title := "Quantity" |}.

Definition zero_row : value := VObj [("qty", VInt 0)].

(** C6, the code at the failing input: the one row has the number 0 in the
    searched column and the term is ["0"].  The text of the cell contains
    the term, and the row is filtered out, because the cell value is
    falsy. *)
Theorem search_misses_zero :
  includes (toLowerCase (js_toString show_number (getCellValue zero_row (key qty_column))))
           (toLowerCase "0") = true
  /\ originalData (search show_number (VStr "0") (local_grid [qty_column] [zero_row]))
     = [zero_row]
  /\ filteredData (search show_number (VStr "0") (local_grid [qty_column] [zero_row]))
     = [].
Proof. vm_compute. repeat split; reflexivity. Qed.

Definition twenty_five_rows : list value :=
  map (fun i => named (show_number (num_of_nat i))) (seq 0 25).

(** C7, the code at the failing input: a local grid of 25 rows on page 2.
    [sort("name")] succeeds and leaves the current page at 2; the same calls
    on the remote grid put the current page back to 1. *)
Theorem local_sort_keeps_page :
  currentPage (play (local_grid [name_column] twenty_five_rows)
                 [CallGoToPage (num_of_Z 2)]) = num_of_Z 2
  /\ sortColumn (play (local_grid [name_column] twenty_five_rows)
                   [CallGoToPage (num_of_Z 2); CallSort (VStr "name") VUndefined])
     = Some "name"
  /\ currentPage (play (local_grid [name_column] twenty_five_rows)
                    [CallGoToPage (num_of_Z 2); CallSort (VStr "name") VUndefined])
     = num_of_Z 2
  /\ currentPage (play remote_idle
                    [CallGoToPage (num_of_Z 2); CallSort (VStr "name") VUndefined])
     = num_of_Z 1.
Proof. vm_compute. repeat split; reflexivity. Qed.

(** *** Page size *)

(** The claim's words: a positive integer. *)
Definition positive_integer (v : value) : bool :=
  match v with
  | VNum (Fin q) => (Zpos (Qden (Qred q)) =? 1)%Z && (0 <? Qnum q)%Z
  | _ => false
  end.

(** C8, counterexample to the claim as stated: 5/2 is not a positive
    integer, and [setPageSize(2.5)] is no no-op: the page size becomes 5/2
    and no warning is given. *)
Lemma fractional_page_size_accepted :
  positive_integer (VNum (Fin (5 # 2))) = false
  /\ pageSize (local_grid [name_column] twenty_five_rows) = num_of_Z 10
  /\ pageSize (setPageSize (VNum (Fin (5 # 2))) (local_grid [name_column] twenty_five_rows))
     = Fin (5 # 2)
  /\ count is_warning
       (setPageSize (VNum (Fin (5 # 2))) (local_grid [name_column] twenty_five_rows))
     = 0%nat.
Proof. vm_compute. repeat split; reflexivity. Qed.

(** C8, witness. *)
Lemma setPageSize_validation_witness :
  setPageSize (VNum (Fin (1 # 2))) (local_grid [name_column] twenty_five_rows)
  = console_warn "Page size must be a positive number"
      (local_grid [name_column] twenty_five_rows)
  /\ pageSize (setPageSize (VNum (Fin (5 # 2))) (local_grid [name_column] twenty_five_rows))
     = Fin (5 # 2)
  /\ currentPage (setPageSize (VNum (Fin (5 # 2))) (local_grid [name_column] twenty_five_rows))
     = num_of_Z 1.
Proof.
  split.
  - apply (proj1 (setPageSize_validation
                    (local_grid [name_column] twenty_five_rows) (VNum (Fin (1 # 2))))).
    right. exists (Fin (1 # 2)). split; reflexivity.
  - apply (proj2 (setPageSize_validation
                    (local_grid [name_column] twenty_five_rows) (VNum (Fin (5 # 2))))
             (Fin (5 # 2)) eq_refl eq_refl).
Defined.

(** *** Events *)

Definition logger (id : nat) : EventBus.Callback unit (list nat) :=
  {| EventBus.cb_id := id;
     EventBus.cb_call := fun _ w => EventBus.Returns (w ++ [id])%list |}.

Definition thrower (id : nat) : EventBus.Callback unit (list nat) :=
  {| EventBus.cb_id := id;
     EventBus.cb_call := fun _ w => EventBus.Throws (Error "boom") (w ++ [id])%list |}.

(** Three subscribers of [sort]; the second one raises. *)
Definition sort_listeners : EventBus.Events unit (list nat) :=
  EventBus.on "sort" (logger 2)
    (EventBus.on "sort" (thrower 1) (EventBus.on "sort" (logger 0) [])).

(** C9, counterexample to the claim as stated: the second subscriber raises
    and the third, subscribed after it, is never called. *)
Lemma raising_subscriber_blocks_later_ones :
  EventBus.subscribers "sort" sort_listeners = Some [logger 0; thrower 1; logger 2]
  /\ EventBus.emit "sort" tt sort_listeners [] = EventBus.Throws (Error "boom") [0; 1]%nat
  /\ EventBus.delivered "sort" tt sort_listeners [] = [0; 1]%nat.
Proof. vm_compute. repeat split; reflexivity. Qed.

(** C9, witness. *)
Lemma emit_delivery_witness :
  EventBus.emit "sort" tt sort_listeners [] = EventBus.Throws (Error "boom") [0; 1]%nat
  /\ EventBus.delivered "sort" tt sort_listeners []
     = (map EventBus.cb_id [logger 0] ++ [EventBus.cb_id (thrower 1)])%list.
Proof.
  apply (proj2 (emit_delivery "sort" sort_listeners tt []
                  [logger 0; thrower 1; logger 2] eq_refl)
           [logger 0] (thrower 1) [logger 2] [0%nat] (Error "boom") [0; 1]%nat
           eq_refl eq_refl eq_refl).
Defined.

(** X3, witness: a fourth subscriber of [sort]. *)
Lemma on_appends_subscriber_witness :
  EventBus.subscribers "sort" (EventBus.on "sort" (logger 3) sort_listeners)
  = Some ([logger 0; thrower 1; logger 2] ++ [logger 3])%list.
Proof.
  exact (proj1 (on_appends_subscriber "sort" (logger 3) sort_listeners eq_refl)).
Defined.

(** X4, witness: a fourth subscriber of [sort], subscribed and unsubscribed
    again. *)
Lemma off_removes_subscriber_witness :
  EventBus.emit "sort" tt
    (EventBus.off "sort" (logger 3) (EventBus.on "sort" (logger 3) sort_listeners)) []
  = EventBus.emit "sort" tt sort_listeners [].
Proof.
  apply (proj2 (proj2 (off_removes_subscriber "sort" (logger 3) sort_listeners eq_refl))).
  intros cbs c H Hin. vm_compute in H. injection H as <-.
  destruct Hin as [<-|[<-|[<-|[]]]]; discriminate.
Defined.

(** *** Selection *)

(** Three rows, the first and the third selected. *)
Definition three_rows_selected : Grid :=
  play (local_grid [name_column] [named "Ada"; named "Bob"; named "Cyd"])
       [CallSelectRow 0 true; CallSelectRow 2 true].

(** Removing the second of three rows, nothing filtered: the selection
    keeps 0 and turns 2 into 1; the row at 1 is then the row that was at 2. *)
Lemma removeRow_shifts_selection_witness :
  selectedRows three_rows_selected = [0; 2]
  /\ selectedRows (removeRow show_number (VInt 1) three_rows_selected) = [0; 1]
  /\ (In 1 (selectedRows (removeRow show_number (VInt 1) three_rows_selected))
      /\ nth_error (originalData (removeRow show_number (VInt 1) three_rows_selected))
                   (Z.to_nat 1)
         = nth_error (originalData three_rows_selected) (Z.to_nat 2)).
Proof.
  split; [vm_compute; reflexivity|]. split; [vm_compute; reflexivity|].
  pose proof (removeRow_shifts_selection show_number three_rows_selected 1) as H.
  cbv zeta in H. destruct H as (_ & _ & H).
  - vm_compute; reflexivity.
  - vm_compute. split; [discriminate|reflexivity].
  - apply (H 2).
    + vm_compute. right. left. reflexivity.
    + discriminate.
    + discriminate.
Defined.

(** Four rows, the search term [b] in force, which shows Bob and Bea; the
    second row shown, Bea, is selected. *)
Definition four_rows_searched : Grid :=
  play (local_grid [name_column] [named "Ada"; named "Bob"; named "Bea"; named "Cyd"])
       [CallSearch (VStr "b"); CallSelectRow 1 true].

(** C10, the code at the failing input: with a search term in force the
    selection holds positions in [filteredData], and [removeRow] shifts it
    by a position in [originalData].  Removing Ada, who is not shown, turns
    the selected position 1 into 0: Bea, still shown, is selected no more,
    and Bob is selected in her place. *)
Lemma removeRow_selection_under_search :
  filteredData four_rows_searched = [named "Bob"; named "Bea"]
  /\ selectedRows four_rows_searched = [1]
  /\ getSelectedRows four_rows_searched = [named "Bea"]
  /\ originalData (removeRow show_number (VInt 0) four_rows_searched)
     = [named "Bob"; named "Bea"; named "Cyd"]
  /\ filteredData (removeRow show_number (VInt 0) four_rows_searched)
     = [named "Bob"; named "Bea"]
  /\ selectedRows (removeRow show_number (VInt 0) four_rows_searched) = [0]
  /\ getSelectedRows (removeRow show_number (VInt 0) four_rows_searched)
     = [named "Bob"].
Proof. vm_compute. repeat split; reflexivity. Qed.

(** *** Reading a record *)

(** A record with a nested object. *)
Definition nested_row : value :=
  VObj [("user", VObj [("name", VStr "Ada"); ("age", VInt 0)])].

(** X2, witness: the path [user.name] reads the name; the theorem applied to
    the paths [user] and [name]. *)
Lemma getNestedValue_compose_witness :
  getNestedValue nested_row ("user" ++ "." ++ "name")
  = if truthy (getNestedValue nested_row "user")
    then getNestedValue (getNestedValue nested_row "user") "name"
    else VNull.
Proof.
  apply (getNestedValue_compose nested_row "user" "name").
  - reflexivity.
  - discriminate.
  - discriminate.
Defined.

(** *** Pages *)

(** X10, witness: page 3 of 25 rows, ten to a page, holds the last five. *)
Lemma goToPage_bounds_witness :
  currentPage (goToPage (num_of_Z 3) (local_grid [name_column] twenty_five_rows))
  = num_of_Z 3
  /\ map tr_row
       (renderBody true (goToPage (num_of_Z 3) (local_grid [name_column] twenty_five_rows)))
     = firstn (Z.to_nat 10)
              (skipn (Z.to_nat ((3 - 1) * 10))
                     (filteredData (local_grid [name_column] twenty_five_rows)))
  /\ map tr_row
       (renderBody true (goToPage (num_of_Z 3) (local_grid [name_column] twenty_five_rows)))
     <> []
  /\ trace (goToPage (num_of_Z 3) (local_grid [name_column] twenty_five_rows))
     = Emit (PAGE_CHANGE (num_of_Z 3)) :: Render
         :: trace (local_grid [name_column] twenty_five_rows).
Proof.
  apply (proj1 (goToPage_bounds (local_grid [name_column] twenty_five_rows) 10 3
                  eq_refl eq_refl eq_refl)).
  split; vm_compute; [discriminate|reflexivity].
Defined.

(** X11, witness: the three pages of the 25 rows. *)
Lemma pages_partition_rows_witness :
  totalPages (local_grid [name_column] twenty_five_rows)
  = num_of_Z ((Z.of_nat (List.length
                           (filteredData (local_grid [name_column] twenty_five_rows)))
               + 10 - 1) / 10)
  /\ List.concat
       (map (fun page =>
               map tr_row
                 (renderBody true
                    (goToPage (num_of_nat page)
                       (local_grid [name_column] twenty_five_rows))))
            (seq 1 (Z.to_nat
                      ((Z.of_nat (List.length
                                    (filteredData
                                       (local_grid [name_column] twenty_five_rows)))
                        + 10 - 1) / 10))))
     = filteredData (local_grid [name_column] twenty_five_rows).
Proof.
  apply (pages_partition_rows (local_grid [name_column] twenty_five_rows) 10
           eq_refl eq_refl eq_refl).
Defined.

(** Three rows on one page. *)
Definition three_rows : Grid :=
  local_grid [name_column] [named "Ada"; named "Bob"; named "Cyd"].

(** The second row of the body. *)
Definition second_row : BodyRow :=
  nth 1 (renderBody true three_rows)
      {| tr_index := NaN; tr_selected := false; tr_row := VUndefined |}.

(** X12, witness: the second row of the body carries the index 1, and
    selecting 1 makes [getSelectedRows] return its record. *)
Lemma ticked_row_is_selected_witness :
  exists i : Z,
    tr_index second_row = num_of_Z i
    /\ nth_error (filteredData three_rows) (Z.to_nat i) = Some (tr_row second_row)
    /\ (tr_selected second_row = true <-> In i (selectedRows three_rows))
    /\ (truthy (tr_row second_row) = true ->
        In (tr_row second_row) (getSelectedRows (selectRow i true three_rows))).
Proof.
  apply (ticked_row_is_selected three_rows 10 1 second_row).
  - reflexivity.
  - reflexivity.
  - reflexivity.
  - reflexivity.
  - vm_compute. discriminate.
  - vm_compute. right. left. reflexivity.
Defined.

(** The 25 rows two to a page, on page 6 of 13. *)
Definition thirteen_pages : Grid :=
  play (local_grid [name_column] twenty_five_rows)
       [CallSetPageSize (VInt 2); CallGoToPage (num_of_Z 6)].

(** X13, witness: on page 6 of 13 the bar shows 1, an ellipsis, 4 to 8, an
    ellipsis and 13. *)
Lemma renderPagination_marks_gaps_witness :
  exists items,
    renderPagination thirteen_pages = Some items
    /\ hd_error items = Some (PageButton (num_of_Z 1) (1 =? 6)%Z)
    /\ gaps_marked 0 false items
    /\ List.last items PageEllipsis = PageButton (num_of_Z 13) (13 =? 6)%Z
    /\ (List.length (filter is_button items) <= 7)%nat
    /\ In (PageButton (num_of_Z 6) true) items
    /\ (forall n a, In (PageButton n a) items -> a = num_eqb n (num_of_Z 6)).
Proof.
  apply (renderPagination_marks_gaps thirteen_pages 13 6).
  - vm_compute. reflexivity.
  - vm_compute. reflexivity.
  - split; vm_compute; discriminate.
Defined.

(** X14, witness: from page 1 of the three pages of the 25 rows. *)
Lemma paginationHandler_moves_witness :
  currentPage (paginationHandler NextPage (local_grid [name_column] twenty_five_rows))
  = num_of_Z (Z.min ((Z.of_nat (List.length
                                  (filteredData
                                     (local_grid [name_column] twenty_five_rows)))
                      + 10 - 1) / 10) (1 + 1))
  /\ currentPage (paginationHandler LastPage (local_grid [name_column] twenty_five_rows))
     = num_of_Z ((Z.of_nat (List.length
                              (filteredData (local_grid [name_column] twenty_five_rows)))
                  + 10 - 1) / 10).
Proof.
  pose proof (paginationHandler_moves (local_grid [name_column] twenty_five_rows) 10 1
                eq_refl eq_refl eq_refl eq_refl) as H.
  cbv zeta in H. destruct H as (_ & _ & H3 & H4 & _).
  - split; vm_compute; discriminate.
  - exact (conj H3 H4).
Defined.

(** *** Remote mode: the second page *)

(** The second page of the 25 records, echoing the token 2. *)
Definition second_page : value :=
  VObj [("data", VArr [named "Cyd"; named "Dan"]); ("total", VInt 25); ("draw", VInt 2)].

(** The remote grid once page 2 is committed. *)
Definition remote_page_2 : Grid :=
  play remote_idle
       [CallGoToPage (num_of_Z 2); FetchSettles 1 (FetchResponse true 200 "OK");
        JsonSettles 1 (JsonParsed second_page)].

(** X16, witness: on page 2 the two rows are shown, and the visible-only
    export is empty. *)
Lemma remote_page_offsets_witness :
  map tr_row (renderBody true remote_page_2) = filteredData remote_page_2
  /\ getExportData false true remote_page_2 = []
  /\ filteredData remote_page_2 = [named "Cyd"; named "Dan"].
Proof.
  pose proof (remote_page_offsets true remote_page_2 10 2) as H.
  destruct H as (H1 & H2 & _).
  - vm_compute. reflexivity.
  - vm_compute. reflexivity.
  - reflexivity.
  - vm_compute. reflexivity.
  - vm_compute. discriminate.
  - vm_compute. discriminate.
  - split; [exact H1|]. split; [exact H2|]. vm_compute. reflexivity.
Defined.

(** X17, witness: right after construction the first request is suspended
    and the busy flag is set. *)
Lemma busy_while_request_suspended_witness :
  (List.length (pending remote_started) <= 1)%nat
  /\ (isLoading remote_started = true <-> pending remote_started <> [])
  /\ (forall c, currentRequest remote_started = Some c
                <-> exists call, pending remote_started = [call]
                                 /\ call_controller call = c).
Proof.
  exact (busy_while_request_suspended show_number less_than insertion_sort
           remote_config remote_started remote_started_reachable).
Defined.

(** X18, witness: the first request of the remote grid times out. *)
Lemma request_timeout_is_silent_witness :
  pending (fetch_settles show_number (nextController (initial remote_config))
             (FetchRejected AbortError)
             (timer_fires show_number (nextTimer (initial remote_config))
                (elapse (timeout (cfg_ajax (config (initial remote_config))))
                   (loadServerData (initial remote_config)))))
  = []
  /\ timers (fetch_settles show_number (nextController (initial remote_config))
               (FetchRejected AbortError)
               (timer_fires show_number (nextTimer (initial remote_config))
                  (elapse (timeout (cfg_ajax (config (initial remote_config))))
                     (loadServerData (initial remote_config)))))
     = timers (initial remote_config)
  /\ count is_server_error
       (fetch_settles show_number (nextController (initial remote_config))
          (FetchRejected AbortError)
          (timer_fires show_number (nextTimer (initial remote_config))
             (elapse (timeout (cfg_ajax (config (initial remote_config))))
                (loadServerData (initial remote_config)))))
     = count is_server_error (initial remote_config).
Proof.
  pose proof (request_timeout_is_silent show_number (initial remote_config)) as H.
  cbv zeta in H. destruct H as (_ & _ & H3 & _ & _ & H6 & _ & H8 & _).
  - reflexivity.
  - reflexivity.
  - reflexivity.
  - reflexivity.
  - reflexivity.
  - constructor.
  - exact (conj H3 (conj H6 H8)).
Defined.

(** The suspended invocation of [remote_reading]. *)
Definition first_call : Call :=
  {| call_requestId := 1; call_controller := 0; call_timeoutId := 0;
     call_stage := AwaitJson |}.

(** X19, witness: the first page is committed. *)
Lemma response_commit_witness :
  originalData (json_settles show_number (call_controller first_call)
                  (JsonParsed first_page) remote_reading)
  = [named "Ada"; named "Bob"]
  /\ retryCount (json_settles show_number (call_controller first_call)
                   (JsonParsed first_page) remote_reading) = 0
  /\ pending (json_settles show_number (call_controller first_call)
                (JsonParsed first_page) remote_reading) = [].
Proof.
  pose proof (response_commit show_number remote_reading first_call first_page
                [named "Ada"; named "Bob"]) as H.
  cbv zeta in H. destruct H as (H1 & _ & _ & H4 & H5 & _).
  - vm_compute. reflexivity.
  - reflexivity.
  - right. vm_compute. reflexivity.
  - vm_compute. reflexivity.
  - vm_compute. reflexivity.
  - exact (conj H1 (conj H4 H5)).
Defined.



(** *** Local mode: sorting and searching *)

(** X22, witness: two calls of [sort("name")] on a fresh grid sort upwards,
    then downwards. *)
Lemma sort_toggles_direction_witness :
  sortColumn (sort less_than insertion_sort (VStr "name") VUndefined three_rows)
  = Some "name"
  /\ sortDirection
       (sort less_than insertion_sort (VStr "name") VUndefined
          (sort less_than insertion_sort (VStr "name") VUndefined three_rows))
     = flip (sortDirection
               (sort less_than insertion_sort (VStr "name") VUndefined three_rows)).
Proof.
  pose proof (sort_toggles_direction show_number less_than insertion_sort
                "name" three_rows) as H.
  cbv zeta in H. destruct H as (H1 & _ & _ & H4 & _).
  - discriminate.
  - reflexivity.
  - exact (conj H1 H4).
Defined.

(** X23, witness: the terms [BO] and [bo] show the same rows. *)
Lemma local_search_filters_witness :
  filteredData (search show_number (VStr "BO") three_rows)
  = filteredData (search show_number (VStr "bo") three_rows).
Proof.
  apply (proj1 (proj2 (proj1 (local_search_filters show_number three_rows eq_refl)
                         eq_refl)));
    reflexivity.
Defined.

(** *** The search box *)

(** X24, witness: the user types [a] and, 100 ms later, [ab]; 200 ms after
    that no search has been started. *)
Lemma input_burst_searches_once_witness :
  count is_search_event
    (play remote_started
          (InputSearch "a" :: [Elapse 100; InputSearch "ab"; Elapse 200]))
  = count is_search_event remote_started.
Proof.
  apply (proj1 (input_burst_searches_once
                  show_number less_than insertion_sort
                  remote_config remote_started "a"
                  [Elapse 100; InputSearch "ab"; Elapse 200]
                  remote_started_reachable eq_refl
                  (conj eq_refl (conj eq_refl I)))).
Defined.

(** X27, witness: the first request of the remote grid fails; the first of
    the three retries is set. *)
Lemma retry_is_scheduled_witness :
  retryCount (fail_with show_number network_down remote_started)
  = retryCount remote_started + 1
  /\ pending (fail_with show_number network_down remote_started) = []
  /\ isLoading (fail_with show_number network_down remote_started) = false.
Proof.
  assert (Ha : attempting remote_config remote_started).
  { split; [reflexivity|].
    split; [eexists; split; vm_compute; reflexivity|].
    split; [vm_compute; reflexivity|vm_compute; repeat constructor]. }
  assert (Hlt : (retryCount remote_started < retryAttempts (cfg_ajax remote_config))%Z)
    by (vm_compute; reflexivity).
  pose proof (retry_is_scheduled show_number remote_config network_down remote_started
                Ha eq_refl Hlt) as H.
  cbv zeta in H. destruct H as (_ & H1 & H2 & H3 & _).
  split; [exact H1|]. split; [exact H2|exact H3].
Defined.
